(** * web-share: a minimal HTTP file server (web-share.go)

    Shallow embedding of the program's startup sequence ([main], [findIP],
    [absPath], [die]) and of the request handler returned by [serveFrom],
    together with the parts of the Go standard library the handler calls
    ([net/url.QueryUnescape], [net/http.Header], [net/http.Error],
    [net/http.ServeContent]) and of the command line as [gnuflag.Parse]
    sets the flag variables from it.

    Go strings are byte strings: [len] counts bytes and slicing cuts bytes.
    They are modelled by [string], whose characters are the 256 byte values.

    The file has two parts: the embedding (definitions only), then the
    lemmas and the theorems about it. *)

From Stdlib Require Import ZArith NArith String Ascii List Lia Bool DecimalString.
From Stdlib.Strings Require Import Byte.
From Stdlib Require DecimalN DecimalFacts.
From stdpp Require Import base gmap strings list.

Local Open Scope string_scope.
Local Open Scope list_scope.

(** * Part I: the embedding *)

(** ** Go string primitives *)

Module GoString.

(** [len(s)] *)
Definition len (s : string) : nat := String.length s.

(** [s[:n]] for [n <= len(s)]; the source only slices under that guard. *)
Definition slice_to (n : nat) (s : string) : string := substring 0 n s.

(** [s[n:]] for [n <= len(s)]. *)
Definition slice_from (n : nat) (s : string) : string :=
  substring n (String.length s - n) s.

(** [strings.Repeat] of a single byte, used to write long inputs down. *)
Fixpoint repeat_byte (c : ascii) (n : nat) : string :=
  match n with
  | O => EmptyString
  | S n' => String c (repeat_byte c n')
  end.

(** [strings.HasPrefix(s, p)] *)
Definition HasPrefix (s p : string) : bool := String.prefix p s.

(** [strings.TrimPrefix(s, p)] *)
Definition TrimPrefix (s p : string) : string :=
  if String.prefix p s
  then substring (String.length p) (String.length s - String.length p) s
  else s.

(** [textproto.TrimString]: cut ASCII white space at both ends. *)
Definition isASCIISpace (b : ascii) : bool :=
  (b =? " ")%char || (b =? "009")%char || (b =? "010")%char || (b =? "013")%char.

Fixpoint trim_left (s : string) : string :=
  match s with
  | String c s' => if isASCIISpace c then trim_left s' else s
  | EmptyString => EmptyString
  end.

Fixpoint trim_right (s : string) : string :=
  match s with
  | String c s' =>
      match trim_right s' with
      | EmptyString => if isASCIISpace c then EmptyString else String c EmptyString
      | t => String c t
      end
  | EmptyString => EmptyString
  end.

Definition TrimString (s : string) : string := trim_right (trim_left s).

(** The double-quote byte (34), written by its code. *)
Definition dquote : ascii := "034"%char.

(** The line feed that [Fprintln] and [die] append. *)
Definition newline : string := String "010"%char EmptyString.

End GoString.

(** ** Errors

    A Go [error] is an interface; two implementations reach this program:
    [url.EscapeError], returned by [url.QueryUnescape], and the errors of
    the operating system and the network stack, kept by their text. *)

Inductive error : Type :=
  | EscapeError (s : string)
  | errorString (text : string).

(** Go's multiple return [(T, error)], of which exactly one side is used. *)
Inductive result (A : Type) : Type :=
  | Ok (a : A)
  | Err (e : error).
Arguments Ok {A} a.
Arguments Err {A} e.

(** ** [strconv] *)

(** [strconv.FormatUint(val, 10)] *)
Definition FormatUint (val : N) : string :=
  NilEmpty.string_of_uint (N.to_uint val).

(** ** [net/url.QueryUnescape]

    [unescape(s, encodeQueryComponent)]: a first pass counts the [%] and
    checks that two hexadecimal digits follow each, a second pass decodes
    [%XX] and turns [+] into a space. *)

Module url.

Definition ishex (c : ascii) : bool :=
  let n := N_of_ascii c in
  ((48 <=? n) && (n <=? 57) || (97 <=? n) && (n <=? 102) || (65 <=? n) && (n <=? 70))%N.

Definition unhex (c : ascii) : N :=
  let n := N_of_ascii c in
  if ((48 <=? n) && (n <=? 57))%N then n - 48
  else if ((97 <=? n) && (n <=? 102))%N then n - 97 + 10
  else if ((65 <=? n) && (n <=? 70))%N then n - 65 + 10
  else 0%N.

(** First pass: the number of escapes and whether a [+] occurs, or the
    [EscapeError] of the first malformed escape (at most three bytes of it). *)
Fixpoint scan (s : string) : result (nat * bool) :=
  match s with
  | EmptyString => Ok (O, false)
  | String c rest =>
      if (c =? "%")%char then
        match rest with
        | String a (String b rest') =>
            if ishex a && ishex b then
              match scan rest' with
              | Ok (n, hasPlus) => Ok (S n, hasPlus)
              | Err e => Err e
              end
            else Err (EscapeError (substring 0 3 s))
        | _ => Err (EscapeError (substring 0 3 s))
        end
      else if (c =? "+")%char then
        match scan rest with
        | Ok (n, _) => Ok (n, true)
        | Err e => Err e
        end
      else scan rest
  end.

(** Second pass, run on strings the first pass accepted. *)
Fixpoint decode (s : string) : string :=
  match s with
  | EmptyString => EmptyString
  | String c rest =>
      if (c =? "%")%char then
        match rest with
        | String a (String b rest') =>
            String (ascii_of_N (N.lor (N.shiftl (unhex a) 4) (unhex b))) (decode rest')
        | _ => EmptyString
        end
      else if (c =? "+")%char then String " "%char (decode rest)
      else String c (decode rest)
  end.

Definition QueryUnescape (s : string) : result string :=
  match scan s with
  | Err e => Err e
  | Ok (n, hasPlus) =>
      if Nat.eqb n 0 && negb hasPlus then Ok s else Ok (decode s)
  end.

End url.

(** ** [net/http]: headers, requests, response writers *)

Module http.

(** [http.Header] is [map[string][]string]. The keys this program and the
    modelled library code use are written in canonical form already
    (Server, Content-Type, If-None-Match, ...), on which
    [CanonicalMIMEHeaderKey] is the identity, so [Get], [Set] and [Del] use
    the key as it is given. *)
Abbreviation Header := (gmap string (list string)).

Definition Header_Get (h : Header) (key : string) : string :=
  match h !! key with
  | Some (v :: _) => v
  | _ => EmptyString
  end.

Definition Header_Set (h : Header) (key value : string) : Header :=
  <[key := [value]]> h.

Definition Header_Del (h : Header) (key : string) : Header := delete key h.

(** The fields of [http.Request] the program reads. *)
Record Request : Type := {
  Method : string;
  RequestURI : string;
  URL_Path : string;
  RemoteAddr : string;
  ReqHeader : Header
}.

(** A [ResponseWriter]: the header map the handler edits, the status line
    and the headers as they stood when the header was written (only that
    snapshot goes on the wire), and the body written so far. *)
Record ResponseWriter : Type := {
  header : Header;
  wroteHeader : option (Z * Header);
  body : string
}.

(** What the server hands to the handler for each request. *)
Definition newResponseWriter : ResponseWriter :=
  {| header := ∅; wroteHeader := None; body := EmptyString |}.

Definition StatusOK : Z := 200.
Definition StatusNotModified : Z := 304.
Definition StatusBadRequest : Z := 400.
Definition StatusPreconditionFailed : Z := 412.

(** [w.Header().Set(key, value)] *)
Definition SetHeader (w : ResponseWriter) (key value : string) : ResponseWriter :=
  {| header := Header_Set (header w) key value;
     wroteHeader := wroteHeader w; body := body w |}.

(** [delete(w.Header(), key)] *)
Definition DelHeader (w : ResponseWriter) (key : string) : ResponseWriter :=
  {| header := Header_Del (header w) key;
     wroteHeader := wroteHeader w; body := body w |}.

(** [w.WriteHeader(code)]: the first call fixes status and headers, a later
    one is ignored. *)
Definition WriteHeader (w : ResponseWriter) (code : Z) : ResponseWriter :=
  match wroteHeader w with
  | Some _ => w
  | None => {| header := header w; wroteHeader := Some (code, header w); body := body w |}
  end.

(** [w.Write(data)]: writes the header with status 200 first when none was
    written. *)
Definition Write (w : ResponseWriter) (data : string) : ResponseWriter :=
  let w := WriteHeader w StatusOK in
  {| header := header w; wroteHeader := wroteHeader w; body := body w +:+ data |}.

(** The status and one header of the reply as sent. *)
Definition status (w : ResponseWriter) : option Z := fst <$> wroteHeader w.

Definition sent (w : ResponseWriter) (key : string) : option (list string) :=
  match wroteHeader w with
  | Some (_, h) => h !! key
  | None => None
  end.

(** [http.Error(w, error, code)]: two headers, the status, and the message
    on a line of its own. *)
Definition Error (w : ResponseWriter) (err : string) (code : Z) : ResponseWriter :=
  let w := SetHeader w "Content-Type" "text/plain; charset=utf-8" in
  let w := SetHeader w "X-Content-Type-Options" "nosniff" in
  let w := WriteHeader w code in
  Write w (err +:+ GoString.newline).

End http.

(** ** [net]: interfaces and addresses *)

Module net.

(** [net.IP] is a byte slice of length 4 or 16 (or nil). *)
Definition IP : Type := list byte.

(** [net.Addr] is an interface; [Interface.Addrs] returns [*net.IPNet]
    values and, on some systems, other implementations. *)
Inductive Addr : Type :=
  | IPNet (ip : IP) (mask : list byte)
  | IPAddr (ip : IP) (zone : string)
  | OtherAddr (network text : string).

Record Interface : Type := {
  Index : Z;
  MTU : Z;
  Name : string;
  HardwareAddr : list byte;
  Flags : N
}.

(** [FlagUp Flags = 1 << iota], the first of the flag constants. *)
Definition FlagUp : N := 1.

(** The four bytes of an IPv4 address: what [To4] returns when it does not
    return nil. *)
Record IPv4 : Type := { b0 : byte; b1 : byte; b2 : byte; b3 : byte }.

Definition isZeros (p : list byte) : bool :=
  forallb (fun b => Byte.eqb b x00) p.

(** [ip.To4()]: a 4-byte address as it is, an IPv4-mapped 16-byte address
    ([::ffff:a.b.c.d]) by its last four bytes, nil otherwise. *)
Definition To4 (ip : IP) : option IPv4 :=
  match ip with
  | [a; b; c; d] => Some {| b0 := a; b1 := b; b2 := c; b3 := d |}
  | [z0; z1; z2; z3; z4; z5; z6; z7; z8; z9; f0; f1; a; b; c; d] =>
      if isZeros [z0; z1; z2; z3; z4; z5; z6; z7; z8; z9]
         && Byte.eqb f0 xff && Byte.eqb f1 xff
      then Some {| b0 := a; b1 := b; b2 := c; b3 := d |}
      else None
  | _ => None
  end.

(** [ip4.String()] on a 4-byte address: dotted decimal. *)
Definition IPv4_String (ip : IPv4) : string :=
  FormatUint (Byte.to_N (b0 ip)) +:+ "." +:+ FormatUint (Byte.to_N (b1 ip)) +:+ "."
  +:+ FormatUint (Byte.to_N (b2 ip)) +:+ "." +:+ FormatUint (Byte.to_N (b3 ip)).

End net.

(** [os.FileInfo], of which [absPath] reads [IsDir]. *)
Record FileInfo : Type := { IsDir : bool }.

(** [time.Time] as nanoseconds since the Unix epoch. *)
Definition Time : Type := Z.

(** ** The platform

    What the program obtains from the host and from library code that is
    not modelled here: the clock, the HTTP date codec, the network
    interface table, the file system, the listener, and the file server
    the handler delegates to. Every definition below takes the platform
    as a parameter; the theorems hold for all of them. *)

Class Platform : Type := {
  (** [time.Now()], read once when the package variables are initialised *)
  time_Now : Time;
  (** [t.UTC().Format(http.TimeFormat)] *)
  FormatTime : Time -> string;
  (** [http.ParseTime] *)
  ParseTime : string -> option Time;
  (** [strconv.Quote] *)
  strconv_Quote : string -> string;
  (** the content type [ServeContent] derives from the name's extension and
      the first bytes of the content when the handler has set none *)
  sniffContentType : string -> string -> string;
  (** what [ServeContent] does with a non-empty Range header: [parseRange]
      and the 206, 416 and multipart replies *)
  serveRanges : string -> http.ResponseWriter -> http.Request -> string -> http.ResponseWriter;
  (** [http.FileServer(http.Dir(root)).ServeHTTP] over the host's files *)
  FileServer_ServeHTTP : string -> http.ResponseWriter -> http.Request -> http.ResponseWriter;
  (** [net.InterfaceByName] *)
  InterfaceByName : string -> result net.Interface;
  (** the [Addrs] method of [net.Interface] *)
  Interface_Addrs : net.Interface -> result (list net.Addr);
  (** [filepath.Abs] *)
  filepath_Abs : string -> result string;
  (** [os.Stat] *)
  os_Stat : string -> result FileInfo;
  (** the value [srv.ListenAndServe()] returns when it returns *)
  ListenAndServe : string -> option error
}.

(** [err.Error()] *)
Definition Error_text `{Platform} (e : error) : string :=
  match e with
  | EscapeError s => "invalid URL escape " +:+ strconv_Quote s
  | errorString text => text
  end.

(** ** [net/http.ServeContent] (net/http/fs.go, as of Go 1.10, the release
    the README names) *)

Module fs.

Import http.

Inductive condResult : Type := condNone | condTrue | condFalse.

Definition second : Z := 1000000000.

(** [t.IsZero() || t.Equal(unixEpochTime)]; the zero [time.Time] is
    January 1, year 1, 62135596800 seconds before the Unix epoch. *)
Definition isZeroTime (t : Time) : bool :=
  ((t =? -62135596800 * second) || (t =? 0))%Z.

Definition setLastModified `{Platform} (w : ResponseWriter) (modtime : Time) : ResponseWriter :=
  if isZeroTime modtime then w
  else SetHeader w "Last-Modified" (FormatTime modtime).

(** Index of the quote that closes the entity tag, scanning [t = s[i:]]. *)
Fixpoint etag_end (t : string) (i : nat) : option nat :=
  match t with
  | EmptyString => None
  | String c t' =>
      let n := N_of_ascii c in
      if ((n =? 33) || (35 <=? n) && (n <=? 126) || (128 <=? n))%N then etag_end t' (S i)
      else if (c =? GoString.dquote)%char then Some i
      else None
  end.

(** [scanETag(s)]: the entity tag at the start of [s] and the text after
    it, or two empty strings. *)
Definition scanETag (s : string) : string * string :=
  let s := GoString.TrimString s in
  let start := if GoString.HasPrefix s "W/" then 2 else 0 in
  if Nat.ltb (String.length s - start) 2 then (EmptyString, EmptyString)
  else
    match String.get start s with
    | Some c =>
        if (c =? GoString.dquote)%char then
          match etag_end (GoString.slice_from (S start) s) (S start) with
          | Some i => (GoString.slice_to (S i) s, GoString.slice_from (S i) s)
          | None => (EmptyString, EmptyString)
          end
        else (EmptyString, EmptyString)
    | None => (EmptyString, EmptyString)
    end.

Definition etagStrongMatch (a b : string) : bool :=
  (a =? b) && negb (a =? EmptyString)
  && match a with String c _ => (c =? GoString.dquote)%char | EmptyString => false end.

Definition etagWeakMatch (a b : string) : bool :=
  GoString.TrimPrefix a "W/" =? GoString.TrimPrefix b "W/".

(** The loop of [checkIfMatch] over the comma-separated list [im]; every
    turn that continues drops at least one byte, so [S (len im)] turns are
    enough and the loop is run with that many. *)
Fixpoint ifMatch_loop (turns : nat) (etag : string) (im : string) : condResult :=
  match turns with
  | O => condFalse
  | S turns' =>
      match GoString.TrimString im with
      | EmptyString => condFalse
      | String c rest as im' =>
          if (c =? ",")%char then ifMatch_loop turns' etag rest
          else if (c =? "*")%char then condTrue
          else
            let '(tag, remain) := scanETag im' in
            if tag =? EmptyString then condFalse
            else if etagStrongMatch tag etag then condTrue
            else ifMatch_loop turns' etag remain
      end
  end.

Definition checkIfMatch (w : ResponseWriter) (r : Request) : condResult :=
  let im := Header_Get (ReqHeader r) "If-Match" in
  if im =? EmptyString then condNone
  else ifMatch_loop (S (String.length im)) (Header_Get (header w) "Etag") im.

Definition checkIfUnmodifiedSince `{Platform} (r : Request) (modtime : Time) : condResult :=
  let ius := Header_Get (ReqHeader r) "If-Unmodified-Since" in
  if (ius =? EmptyString) || isZeroTime modtime then condNone
  else
    match ParseTime ius with
    | Some t => if (modtime <? t + second)%Z then condTrue else condFalse
    | None => condNone
    end.

(** The loop of [checkIfNoneMatch], as [ifMatch_loop]. *)
Fixpoint ifNoneMatch_loop (turns : nat) (etag : string) (buf : string) : condResult :=
  match turns with
  | O => condTrue
  | S turns' =>
      match GoString.TrimString buf with
      | EmptyString => condTrue
      | String c rest as buf' =>
          if (c =? ",")%char then ifNoneMatch_loop turns' etag rest
          else if (c =? "*")%char then condFalse
          else
            let '(tag, remain) := scanETag buf' in
            if tag =? EmptyString then condTrue
            else if etagWeakMatch tag etag then condFalse
            else ifNoneMatch_loop turns' etag remain
      end
  end.

Definition checkIfNoneMatch (w : ResponseWriter) (r : Request) : condResult :=
  let inm := Header_Get (ReqHeader r) "If-None-Match" in
  if inm =? EmptyString then condNone
  else ifNoneMatch_loop (S (String.length inm)) (Header_Get (header w) "Etag") inm.

Definition checkIfModifiedSince `{Platform} (r : Request) (modtime : Time) : condResult :=
  if negb (Method r =? "GET") && negb (Method r =? "HEAD") then condNone
  else
    let ims := Header_Get (ReqHeader r) "If-Modified-Since" in
    if (ims =? EmptyString) || isZeroTime modtime then condNone
    else
      match ParseTime ims with
      | Some t => if (modtime <? t + second)%Z then condFalse else condTrue
      | None => condNone
      end.

Definition checkIfRange `{Platform} (w : ResponseWriter) (r : Request) (modtime : Time) : condResult :=
  if negb (Method r =? "GET") && negb (Method r =? "HEAD") then condNone
  else
    let ir := Header_Get (ReqHeader r) "If-Range" in
    if ir =? EmptyString then condNone
    else
      let '(etag, _) := scanETag ir in
      if negb (etag =? EmptyString) then
        if etagStrongMatch etag (Header_Get (header w) "Etag") then condTrue else condFalse
      else if (modtime =? -62135596800 * second)%Z then condFalse
      else
        match ParseTime ir with
        | Some t => if (t / second =? modtime / second)%Z then condTrue else condFalse
        | None => condFalse
        end.

Definition writeNotModified (w : ResponseWriter) : ResponseWriter :=
  let w := DelHeader w "Content-Type" in
  let w := DelHeader w "Content-Length" in
  let w := if negb (Header_Get (header w) "Etag" =? EmptyString)
           then DelHeader w "Last-Modified" else w in
  WriteHeader w StatusNotModified.

(** [checkPreconditions(w, r, modtime)] returns [(done, rangeHeader)] and
    may have written the reply; the writer is returned with them. *)
Definition checkPreconditions `{Platform} (w : ResponseWriter) (r : Request) (modtime : Time)
  : bool * string * ResponseWriter :=
  let ch := checkIfMatch w r in
  let ch := match ch with condNone => checkIfUnmodifiedSince r modtime | _ => ch end in
  match ch with
  | condFalse => (true, EmptyString, WriteHeader w StatusPreconditionFailed)
  | _ =>
      let ranges :=
        let rangeHeader := Header_Get (ReqHeader r) "Range" in
        if negb (rangeHeader =? EmptyString)
           && match checkIfRange w r modtime with condFalse => true | _ => false end
        then (false, EmptyString, w)
        else (false, rangeHeader, w) in
      match checkIfNoneMatch w r with
      | condFalse =>
          if (Method r =? "GET") || (Method r =? "HEAD")
          then (true, EmptyString, writeNotModified w)
          else (true, EmptyString, WriteHeader w StatusPreconditionFailed)
      | condNone =>
          match checkIfModifiedSince r modtime with
          | condFalse => (true, EmptyString, writeNotModified w)
          | _ => ranges
          end
      | condTrue => ranges
      end
  end.

(** [strconv.FormatInt(size, 10)] of a length. *)
Definition FormatSize (size : nat) : string := FormatUint (N.of_nat size).

(** [ServeContent(w, req, name, modtime, content)], with [content] the
    bytes the [io.ReadSeeker] holds. *)
Definition ServeContent `{Platform} (w : ResponseWriter) (req : Request) (name : string)
    (modtime : Time) (content : string) : ResponseWriter :=
  let w := setLastModified w modtime in
  let '(done, rangeReq, w) := checkPreconditions w req modtime in
  if done then w
  else
    let w := match header w !! "Content-Type" with
             | None => SetHeader w "Content-Type" (sniffContentType name content)
             | Some _ => w
             end in
    if rangeReq =? EmptyString then
      let w := SetHeader w "Accept-Ranges" "bytes" in
      let w := if Header_Get (header w) "Content-Encoding" =? EmptyString
               then SetHeader w "Content-Length" (FormatSize (String.length content))
               else w in
      let w := WriteHeader w StatusOK in
      if Method req =? "HEAD" then w else Write w content
    else serveRanges rangeReq w req content.

End fs.

(** ** Effects of the program

    What the process does is recorded, in order, as a list of events; a
    computation yields that list and either a value or the exit code the
    process ended with ([os.Exit] does not return). *)

(** An argument of [trace.Println]: a string or an error value. *)
Inductive Operand : Type :=
  | OString (s : string)
  | OError (e : error).

Inductive Event : Type :=
  (** [os.Stderr.WriteString(s)] *)
  | EvStderr (s : string)
  (** [trace.Println(args...)]: one line of the log *)
  | EvPrintln (args : list Operand)
  (** calls into the host *)
  | EvInterfaceByName (name : string)
  | EvAddrs (it : net.Interface)
  | EvAbs (dir : string)
  | EvStat (path : string)
  | EvListenAndServe (addr : string)
  (** what the handler does with its response writer *)
  | EvSetHeader (key value : string)
  | EvError (w : http.ResponseWriter) (msg : string) (code : Z)
  | EvServeContent (w : http.ResponseWriter) (req : http.Request)
                   (name : string) (modtime : Time) (content : string)
  | EvServeHTTP (root : string) (w : http.ResponseWriter) (req : http.Request).

Inductive Outcome (A : Type) : Type :=
  | Returned (a : A)
  | Exited (code : Z).
Arguments Returned {A} a.
Arguments Exited {A} code.

Definition M (A : Type) : Type := Outcome A * list Event.

Definition ret {A : Type} (a : A) : M A := (Returned a, []).

Definition bind {A B : Type} (m : M A) (f : A -> M B) : M B :=
  match m with
  | (Returned a, t) => let '(o, t') := f a in (o, t ++ t')
  | (Exited code, t) => (Exited code, t)
  end.

Definition emit (e : Event) : M unit := (Returned tt, [e]).

(** [os.Exit(code)] *)
Definition os_Exit {A : Type} (code : Z) : M A := (Exited code, []).

Declare Scope go_scope.
Delimit Scope go_scope with go.
Notation "x <- m ;; k" := (bind m (fun x => k))
  (at level 100, m at next level, right associativity) : go_scope.
Notation "m ;; k" := (bind m (fun _ => k))
  (at level 100, right associativity) : go_scope.
Local Open Scope go_scope.

Definition outcome {A : Type} (m : M A) : Outcome A := fst m.
Definition events {A : Type} (m : M A) : list Event := snd m.

(** ** The program (web-share.go) *)

Import http.

(** The logger [trace = log.New(os.Stderr, "", log.LstdFlags)]. *)
Definition trace_Println (args : list Operand) : M unit := emit (EvPrintln args).

(** [trace.Fatalln(err)]: [Println] followed by [os.Exit(1)]. *)
Definition trace_Fatalln {A : Type} (err : error) : M A :=
  emit (EvPrintln [OError err]);; os_Exit 1.

(** [die] (lines 206-218): one line on the error stream, then exit code 1. *)
Definition die {A : Type} `{Platform} (msg : string) (err : option error) : M A :=
  emit (EvStderr
    match Nat.ltb 0 (GoString.len msg), err with
    | true, Some e => "ERROR: " +:+ msg +:+ ": " +:+ Error_text e +:+ GoString.newline
    | true, None => "ERROR: " +:+ msg +:+ GoString.newline
    | false, Some e => "ERROR: " +:+ Error_text e +:+ GoString.newline
    | false, None => "ERROR: Unknown internal error" +:+ GoString.newline
    end);;
  os_Exit 1.

(** [uintToString] (lines 220-222) *)
Definition uintToString (val : N) : string := FormatUint val.

(** [shortenURI] (lines 224-232); [maxURI] is its local constant. *)
Definition maxURI : nat := 500.

Definition shortenURI (uri : string) : string :=
  if Nat.ltb maxURI (GoString.len uri)
  then GoString.slice_to maxURI uri +:+ " ..."
  else uri.

(** The loop of [findIP] (lines 110-118): the first address that is an
    [*net.IPNet] whose IP has a 4-byte form, as a string, or the empty
    string. *)
Fixpoint findIP_loop (addrs : list net.Addr) : string :=
  match addrs with
  | [] => EmptyString
  | net.IPNet ip _ :: rest =>
      match net.To4 ip with
      | Some ip4 => net.IPv4_String ip4
      | None => findIP_loop rest
      end
  | _ :: rest => findIP_loop rest
  end.

(** [findIP] (lines 90-119) *)
Definition findIP `{Platform} (itf : string) : M string :=
  emit (EvInterfaceByName itf);;
  it <- match InterfaceByName itf with
        | Ok it => ret it
        | Err err => die "Invalid interface name" (Some err)
        end;;
  (if (N.land (net.Flags it) net.FlagUp =? 0)%N
   then die "Interface is DOWN" None else ret tt);;
  emit (EvAddrs it);;
  addrs <- match Interface_Addrs it with
           | Ok addrs => ret addrs
           | Err err => die "Cannot get interface address list" (Some err)
           end;;
  ret (findIP_loop addrs).

(** [absPath] (lines 183-204) *)
Definition absPath `{Platform} (dir : string) : M string :=
  emit (EvAbs dir);;
  root <- match filepath_Abs dir with
          | Ok root => ret root
          | Err err => die "Cannot build absolute pathname" (Some err)
          end;;
  emit (EvStat root);;
  info <- match os_Stat root with
          | Ok info => ret info
          | Err err => die EmptyString (Some err)
          end;;
  (if negb (IsDir info) then die ("Not a directory: " +:+ root) None else ret tt);;
  ret root.

(** [var faviconTS = time.Now()] (line 139) *)
Definition faviconTS `{Platform} : Time := time_Now.

(** The calls the handler makes on its response writer, each recorded with
    its arguments. *)
Definition resp_Header_Set (resp : ResponseWriter) (key value : string) : M ResponseWriter :=
  emit (EvSetHeader key value);; ret (SetHeader resp key value).

Definition http_Error (resp : ResponseWriter) (msg : string) (code : Z) : M ResponseWriter :=
  emit (EvError resp msg code);; ret (http.Error resp msg code).

Definition http_ServeContent `{Platform} (resp : ResponseWriter) (req : Request)
    (name : string) (modtime : Time) (content : string) : M ResponseWriter :=
  emit (EvServeContent resp req name modtime content);;
  ret (fs.ServeContent resp req name modtime content).

Definition server_ServeHTTP `{Platform} (root : string) (resp : ResponseWriter) (req : Request)
  : M ResponseWriter :=
  emit (EvServeHTTP root resp req);; ret (FileServer_ServeHTTP root resp req).

(** [http.HandlerFunc]; the writer is passed in and handed back. *)
Definition HandlerFunc : Type := ResponseWriter -> Request -> M ResponseWriter.

(** The embedded icon (lines 234-604), 2942 bytes. *)
Definition favicon : list byte := [
  x89; x50; x4e; x47; x0d; x0a; x1a; x0a; x00; x00; x00; x0d; x49; x48; x44; x52;
  x00; x00; x00; x40; x00; x00; x00; x40; x10; x04; x00; x00; x00; x50; xf0; x65;
  x16; x00; x00; x00; x04; x67; x41; x4d; x41; x00; x00; xb1; x8f; x0b; xfc; x61;
  x05; x00; x00; x00; x01; x73; x52; x47; x42; x00; xae; xce; x1c; xe9; x00; x00;
  x00; x20; x63; x48; x52; x4d; x00; x00; x7a; x26; x00; x00; x80; x84; x00; x00;
  xfa; x00; x00; x00; x80; xe8; x00; x00; x75; x30; x00; x00; xea; x60; x00; x00;
  x3a; x98; x00; x00; x17; x70; x9c; xba; x51; x3c; x00; x00; x00; x02; x62; x4b;
  x47; x44; xff; xff; x14; xab; x31; xcd; x00; x00; x00; x09; x70; x48; x59; x73;
  x00; x00; x00; x48; x00; x00; x00; x48; x00; x46; xc9; x6b; x3e; x00; x00; x0a;
  xd9; x49; x44; x41; x54; x78; xda; xed; x9b; x69; x70; x54; x55; x1a; x86; x9f;
  x73; x6f; x2f; xe9; x24; x9d; x3d; x21; x34; x21; x80; x11; x02; x86; x48; x92;
  x66; x1b; x20; x04; x04; x29; x01; x11; xc7; xa5; xdc; x10; x65; x86; x88; x8c;
  xe3; x8c; x96; x88; x32; x22; xd6; x20; x2e; x28; x35; xee; x0e; x0e; x83; xa2;
  x38; x55; x2a; x08; x88; x80; x44; x04; x71; x40; x50; x20; x01; x22; x4b; x90;
  xc4; xb0; x06; xc8; xde; xe9; x74; x7a; xbd; xf7; xcc; x8f; x20; x8a; xe0; x4c;
  xa5; x1b; xe9; x4c; xc9; x5b; xd5; x7f; xba; xee; xfd; xce; xf7; x3e; x7d; xee;
  x39; xe7; x9e; xef; x34; xfc; xca; x25; xce; xf7; xa5; x7d; x3c; x46; x3a; x90;
  x24; x73; x88; x65; x21; x2a; x32; x84; x16; xf2; x91; xcc; xa1; x59; xc4; x52;
  x5d; xac; xe3; x09; xb7; xe1; xff; x0a; xc0; xbe; x80; x68; xe6; x8b; xce; x34;
  x1a; xf2; xe9; x6c; x9a; x2a; x97; xaa; xd9; x94; x88; x99; x21; x01; xe8; xc2;
  x66; x51; xa0; xad; x43; xf8; xc0; xe3; xaf; x95; xc7; x65; x01; x65; x54; x96;
  xd8; x43; x8a; x7a; xe1; x01; xd8; xed; xc4; x90; x22; x76; x51; x9f; x30; x86;
  xa6; x1e; xf9; xc4; x64; xa4; x73; xc0; xfa; x99; x3c; x29; x96; x86; x92; xaa;
  x88; x25; x87; x2e; xee; x91; x68; x47; x7a; xe1; x29; x5b; x43; xf5; xc9; xb5;
  xb2; x4a; x1b; x5c; x92; xc2; xce; x70; x9b; x3f; x03; xc0; xde; x0d; x41; xbc;
  x58; x8f; x9a; x7c; x00; x46; x2f; x20; x30; x7e; x18; x6a; x8f; x41; xb8; x22;
  xef; xc3; x2b; x8c; x21; xb5; x60; x90; xb3; x89; xf0; x1d; x45; x1e; xcd; xc3;
  x5f; x14; x8f; x67; x79; x1a; x1c; x6a; x26; x53; xeb; x57; x5c; x84; x3b; xdc;
  x00; x0c; x00; xa8; xa4; xa0; x9b; x07; x41; xde; x68; xc4; x6d; x0e; x94; x21;
  x19; xc8; xc8; xed; x58; x44; x2e; x16; x62; x43; x6c; x63; x25; x42; xde; x8f;
  xec; x1a; x8d; x9a; xd8; x8c; xa5; x61; x1e; x91; x1f; x5e; x89; xad; x71; x1c;
  xf0; x41; xfb; x00; x30; x8c; xd1; x54; x45; x37; xe2; xcc; xa9; xc5; xd3; x7b;
  x2b; x7a; x94; x07; x0b; x1b; x98; x8c; x81; x09; x80; x1a; x42; x0b; x9b; x80;
  xb9; x42; x72; xd2; xfc; x31; x86; xcb; x0f; x60; xee; x3f; x86; x98; x8d; xaf;
  x63; x70; x1c; xa5; x1d; x0c; x03; xad; x00; xfc; x0c; x44; x31; xbf; x81; x9a;
  xbc; x1d; x11; x9d; x0d; xec; x52; x8f; x61; xe8; x58; x01; xc9; x03; x80; x77;
  x82; x8c; x5e; x05; xce; xe7; xe1; xa8; x1d; xe1; x75; x32; x8e; x16; xf3; x20;
  xfc; xc9; xd3; x70; x44; x0e; xc1; xc3; xf5; x40; xcf; xf6; x01; x60; x1f; x31;
  x48; x31; x1c; xd4; xc7; x90; xca; xd5; xc0; x74; xc3; x3c; xc8; xba; x07; xec;
  xdd; x41; xd4; x05; x19; x7d; x0b; x54; x46; x42; x7d; x1f; xf0; xee; x47; xe0;
  x12; x3b; xd0; xd4; x07; xd1; x94; xcd; x78; xc9; x0c; xb7; xf9; x1f; x00; xe8;
  x00; x28; x20; xcc; xc0; x70; x00; xae; x07; x65; x14; x18; x33; x41; x38; x82;
  x8c; x5e; x0f; xea; xdb; x20; x66; xb6; x46; xa7; x75; xd0; x35; x9e; x69; xb7;
  x1d; x48; x09; x77; x02; xe1; xd6; x25; x00; xe1; x4e; x20; xdc; xba; x04; x20;
  xdc; x09; x84; x5b; x97; x00; x84; x3b; x81; x70; xeb; x12; x80; x70; x27; x10;
  x6e; x5d; x02; x10; xee; x04; xc2; xad; x4b; x00; xc2; x9d; x40; xb8; xf5; xf3;
  x6f; x65; x12; x68; x06; x6a; x4f; x7f; x82; x51; x2d; xe0; x00; x02; xe1; xb6;
  xf9; xbf; x01; xe8; x40; x05; xc8; xb7; x80; x69; x80; x94; x4b; xa1; xd9; x0d;
  x35; x11; x20; xb6; x04; x19; xbd; x14; x1c; x7f; x06; x6d; x1f; xd0; x1d; x80;
  x06; x24; xdb; xd0; x39; x82; xc6; xef; xc3; x6d; xfe; xc7; x00; xea; x40; x57;
  xc0; x97; x05; x5a; x0a; x70; x2a; xb0; x8d; xf8; xb2; x67; xe1; xe4; x8d; x20;
  x66; x05; x19; x3d; x1b; x5c; xff; x00; xd7; x37; xc0; x34; x02; x48; x39; x97;
  x80; x6f; x35; x5e; xed; x3a; x9a; x09; x16; xeb; x2f; x02; x60; x3d; x78; x3a;
  x21; xab; x96; x40; xe3; x5e; x44; xec; x7b; x7a; xa9; xf8; x4b; x4d; x39; xa6;
  xda; xc7; x09; x7e; xfb; x42; x02; xb1; x20; x6f; x41; xc7; xc3; x0c; x84; xab;
  x2f; xea; xf1; x15; x28; xce; x02; x3c; x72; x60; xb8; xcd; xff; x00; xc0; xc3;
  x26; x34; x57; x37; x44; x71; x35; xa6; x6d; xf7; x62; x88; x59; x48; x63; xdc;
  x33; x4c; x54; xc6; x4a; xe8; x77; x9e; xfb; x52; x69; xdd; x39; x4a; x07; xbc;
  xc0; x66; xa0; x14; xf0; x9d; x73; x65; x0e; x55; x1c; x90; x6f; x23; x5d; xdb;
  x91; xa5; xf3; xd0; xbe; x2c; x44; xd6; xbf; x4c; x0b; xd7; x84; xdb; xfc; x19;
  x00; xc5; x7b; x69; xb0; x1b; x7c; x90; x52; xfa; x1e; xf1; xef; xb8; x30; x35;
  x1c; x44; xcd; x76; xa1; x5b; x4b; xd0; xc4; x74; xce; xae; x20; xd9; xc1; xf2;
  x34; xa4; x4e; x81; xa8; x00; x68; x0f; x41; xf5; x48; x68; xc8; x03; xbd; xfc;
  xdc; x26; x64; x6f; x34; xcf; x57; xf8; xcb; xe3; x09; x14; xed; xc2; xbb; xb9;
  x9a; x66; xd7; x29; xb9; x91; x4d; x0c; x08; xb7; xfd; x1f; x75; x6e; xd9; x24;
  x75; xd1; xa3; x69; x03; xf2; x8b; x5b; x31; x1e; xcc; xc6; x62; xbb; x1f; x77;
  xd4; xab; x68; xc2; x7c; x36; x00; xb1; x18; x32; xde; x83; xbb; x6f; x86; xec;
  x27; xa1; xe5; x5e; x58; xb5; x00; xd6; x55; x81; xfb; xe6; x73; xfd; x93; x8c;
  xdf; xf3; x06; x4d; xa7; x4a; x71; x1f; x3f; x82; xb7; x31; x80; xa6; x7f; x52;
  x32; xa0; x7d; xcc; x0d; x67; xd7; x06; x47; xa0; x52; xce; x38; xb2; xc4; x0c;
  xa2; xd5; x35; x54; x8b; x47; x71; x8a; xfc; x9f; xdc; x72; x19; xe4; x74; x87;
  xa7; x47; xc3; xd0; x58; x68; x7a; x0d; x9e; xb2; xc3; xa2; xe5; xd0; x5c; x7d;
  x1e; x00; x87; x69; x92; x8d; x94; x6b; x85; xf2; x88; xde; x95; x6d; xcc; x2a;
  xb9; xa9; xfd; x14; x49; xcf; x1a; xde; x8a; xd7; xa3; x01; x2b; xec; x7f; x92;
  x1f; x51; x13; x30; xd2; xc4; xf3; x38; x7f; x5a; x41; x16; xcd; xe0; x1b; x0c;
  x5a; x02; xb0; x1a; xe4; x97; xe0; xaf; x02; xdf; xe7; xe0; x3b; x77; x61; xa5;
  x03; x2e; x54; xb9; x85; xf9; x25; xe9; xa7; xf7; x9f; xdb; x91; xce; x3b; xbe;
  x17; x3f; x84; xa4; x75; x40; x3b; x67; x50; xcb; xf5; xc9; x34; xd1; x50; x35;
  x56; x0c; xfc; x3a; x95; xf8; xec; x02; x22; x2b; xd6; x13; x57; xf2; x00; x29;
  x1e; x43; xf1; x9b; x2c; xfb; xd9; x96; x06; x85; xdb; xea; xf9; xd5; xe6; xa5;
  xb0; xf8; x9c; x72; x91; xeb; x7e; x8e; xe8; xef; xca; x50; x6b; x0a; x31; x57;
  x2e; x26; xb5; x7a; x0a; xb9; x7a; x75; x5b; x63; xb5; x07; xb5; x79; x86; x17;
  xd7; x32; x1b; x5b; xb2; x8e; xcc; xb7; xa0; x77; x59; x8b; xdb; x34; x9f; x93;
  xd9; x9f; xc0; x91; x6f; xc1; x3b; x26; xd4; x84; xf2; x5a; xb0; x8a; x6c; xd6;
  xe1; x53; x3f; xc3; xa7; xae; x23; x55; xe8; x18; x30; x87; xe0; x50; x23; x46;
  xbe; x8b; x57; x66; x50; xae; x29; xf2; x4b; x3d; x9f; xa5; x7c; x56; xf2; x30;
  x5a; x50; x00; xe8; x29; xa6; xa3; xc6; xb4; xa0; xa4; x79; x21; x72; x22; xbe;
  xc4; x5b; xa8; xb6; xbd; x49; xad; x61; x52; xeb; x92; x20; x78; xd9; xed; xa8;
  xe4; x2a; x23; x50; x62; xaf; x26; x32; xfd; x63; x8c; x29; xc7; x51; xcc; x45;
  x40; x56; xd0; x41; x75; xaa; xf1; x68; x0d; xf8; x9d; x23; xb1; x1c; xf3; x88;
  xcc; x13; x0b; xe4; x11; xef; x9e; xbc; xcb; x18; x5b; x72; x23; xb2; xed; x00;
  x4c; xc4; x81; xb8; x17; x94; xb7; x80; x9b; x90; xa2; x1f; x9a; x7a; x3b; x9a;
  x38; x19; x8a; xf9; x3c; x89; x85; xc9; x8a; xc2; x89; xb4; x3a; x6a; x46; xdd;
  x89; x7f; xc4; x32; x4c; x69; xb7; x22; xcc; x59; xc0; x15; x41; x07; x96; xd4;
  xe0; xd5; x1f; x41; x77; xac; xc3; xb2; x3b; x8d; x8e; xab; xf6; x89; xcc; xe2;
  x06; x59; xe5; xfa; x1d; xb0; xb0; xed; x00; x04; x01; x24; x0b; x41; xce; x02;
  xea; x80; xe5; x48; x79; x15; x3a; xfb; x43; x01; x20; x3a; x30; x8f; xce; xd1;
  x39; x44; x5d; x15; x83; x52; x38; x09; x35; xeb; x6e; x94; x88; x06; x84; xc8;
  xa3; xb5; x9e; x18; x2c; x80; x28; x34; x32; x40; x33; x62; xcc; x2e; x24; x3a;
  x7e; x37; x11; x0d; x43; xc4; xc0; x7d; xab; xed; xf9; x9a; xb1; xed; x00; xa2;
  xe5; x52; x9c; x6e; xd0; x9c; xd7; xa1; xea; x49; xe8; x9e; x15; x34; x3b; xb6;
  xd2; xa8; x0d; x02; xb6; x06; x9d; x68; x4f; xc5; x80; xcf; x16; x8d; xa7; x60;
  x06; x7a; xaf; x25; x10; xf5; x3a; x82; xa9; x5c; x98; x3d; x8b; xfe; xa0; xd4;
  xa1; x74; x88; xc0; x3c; xec; xaf; x18; x36; x26; xd0; x5c; xbe; x42; xae; x74;
  xdf; xd0; x76; x00; xc9; x14; x52; x71; xea; x18; x11; x9f; x3b; xb1; x64; xbd;
  x89; x7f; xef; xb3; x38; x4a; xaa; x64; x95; xaf; x32; x84; xdf; x09; x9a; x15;
  x37; x22; x61; x1a; x74; x7c; x02; x2c; xfd; x81; x2a; x71; x39; x8a; x79; x2f;
  x88; x19; x04; xdd; x07; xe4; x6f; x21; xd0; x00; x81; xb5; x24; xf2; x92; xe2;
  x41; x24; xf5; x40; xd8; x66; x63; x32; x3d; x28; xfa; xb9; x2f; x6b; x33; x00;
  x39; x07; x21; x7e; x23; x3a; x60; x32; x5a; x09; x28; x13; x91; x86; x9d; xc4;
  xa8; x8f; x89; xbe; x58; x81; x3d; xc1; x13; x10; x4b; xc0; xb8; x1b; x4c; x43;
  x41; xc4; x01; x06; xa3; x03; xba; x16; x80; x69; x34; x88; xe4; xe0; xa2; x06;
  x76; x42; xdd; xad; x50; x3d; x01; x74; x88; x00; x55; x41; x35; xcd; x24; x52;
  x11; xa4; x93; xd0; xf6; x69; x70; x1c; x4b; xe8; x94; xba; x09; xb5; xe0; x1e;
  xd4; xf4; xe1; x10; x35; x19; xf2; x5e; x84; x6f; xfb; x43; x4b; x08; xfe; x51;
  x81; x64; x5a; x83; xb4; xae; x18; xff; x0e; x86; x3b; xc1; x38; x09; x82; xde;
  x3e; xe9; x08; xca; x68; x60; x30; xf0; x21; x00; x66; xa0; x33; xd0; x80; x08;
  x66; x1a; xb4; x8a; x91; x60; x8e; x82; xc8; xf7; x41; x71; x83; xc9; x02; xd1;
  x1f; x80; x92; x03; xac; x0f; x9e; x40; x78; x14; xcc; x00; xa3; x02; x63; x41;
  x14; x02; x31; xc0; x60; x10; xcf; xd2; x4a; xf5; xff; x4e; x6d; xef; x01; x4e;
  xea; x30; xeb; x83; x31; x68; x02; x85; xd7; x40; x6e; x80; x40; x25; x52; x96;
  x02; x8b; xc2; x6d; xa8; xad; x6a; x7b; x0f; x28; x97; xb3; x71; x39; x52; xd0;
  x0f; xc5; x42; xf3; x24; x94; x53; xa5; x58; x8e; x5d; x8e; x1a; x78; x2a; xdc;
  x66; x2e; x0a; x00; xb9; x96; x39; xa8; xb5; x57; x20; xbe; xda; x85; x7a; xd4;
  x8f; xb2; xeb; x04; x91; x7b; x5f; x20; xc2; xbf; x2f; xdc; x66; x82; x51; xdb;
  x67; x81; xdb; x19; x87; x2d; x46; x41; xcd; xea; x86; x9e; x3a; x15; x49; x3c;
  xdf; x8d; x9f; x4e; xf5; x96; x21; xf6; xec; x43; x5d; x88; x48; xcc; x41; xef;
  xb2; x0d; xcc; x5e; x24; x3a; x75; x9e; x7e; x38; x0e; x3f; x4c; x4e; xfd; x08;
  x7c; x5d; x16; xe1; xed; xb0; x16; xd4; xe5; x18; xa9; x23; xdd; x5b; x81; x6b;
  xfb; x1d; x1c; x89; x18; x85; xf1; x8a; x7c; xd4; xbe; x8b; x09; x24; xaf; x40;
  x13; xa6; x8b; x75; x86; xb2; xed; x63; x40; xba; x78; x1b; x91; x34; x14; xb2;
  x1e; x40; xc6; x3f; x07; x89; xf7; x63; x7d; x7c; x28; xd6; x8a; xbb; x30; xec;
  x9c; x88; xde; x6d; x3b; xf4; x7a; x1c; x4c; x1b; x11; x48; xe2; x7d; xa5; xc4;
  xef; x8f; xc2; x5f; x2e; xd1; x07; xdc; x07; x9d; xea; x40; x4c; x20; x80; x8f;
  xc3; x5a; x26; x96; x95; x99; x44; x9a; xd7; xe0; x1f; x3e; x98; x40; xcc; x5c;
  x88; x3c; x88; x54; x3e; xbc; x38; xf6; x83; x01; x10; x25; xf7; xe2; xf3; x97;
  xa1; xb5; xbc; x8a; xf4; xff; x0b; xcc; x4d; x28; xd6; xf1; xe8; x19; xcb; x70;
  x5b; x1f; x44; x8d; x4b; xc1; x90; x30; x1f; xc4; x8b; x00; xa8; xf2; x45; x84;
  x51; x47; xda; xe2; xd0; xd2; x56; x43; xe4; x1d; x80; x44; xa2; x12; xe0; x19;
  x5c; xc3; x46; xa1; x8b; x15; xd0; x71; x12; x52; xe9; x0d; x62; x22; x30; xa2;
  xfd; x02; xc8; x67; x0a; x3b; xab; xf7; xe0; x58; xdf; x19; x3d; x46; x23; x10;
  x97; x80; xa6; x47; xe1; x3b; x1a; x8f; x7f; xef; xa7; xa8; xe9; x9d; x51; x7a;
  xbc; x8f; x62; xea; x03; x08; x84; x2f; x19; xf7; x81; x41; xa8; x87; xbf; x81;
  xdc; x24; xa4; xed; x55; x84; xd8; x8d; xe0; x24; x22; x30; x91; xb8; xa2; x12;
  xea; xcc; x37; xc0; xe0; x27; x91; x29; xaf; x80; x2d; x17; xc5; x9a; x0f; xec;
  x68; x97; x00; xc4; x1e; x36; xc8; xd8; xfa; x97; xf0; x2c; xb9; x01; xc3; xce;
  x24; x1c; xd6; x1d; xb8; xf4; x2b; x71; xd4; xbe; x42; xe0; xc4; xcb; x18; xe2;
  xf6; x60; xb0; xcd; xc5; x64; x7a; x06; x81; xc0; xec; x7d; x81; x13; x55; x1e;
  x1a; x1d; xd7; x90; xd4; x69; x0e; x22; xe1; x20; xaa; x3a; x06; x85; x72; x4c;
  x3e; x41; xd6; x9e; x25; x6c; x35; x3f; x81; xa7; x28; x17; xad; x6f; x3d; x86;
  x09; xdf; x42; xb6; xf7; x62; xd5; x6d; xdb; x0c; x60; xc7; x4a; x34; xfb; x78;
  xfd; x11; xf4; x1a; x23; x5d; xeb; xfa; xb0; x5f; x19; x41; x83; x5c; x2b; x2b;
  xe4; x6d; x44; xea; xef; xd2; x58; x5d; x27; xfa; x97; x77; xc6; x24; x8a; x10;
  x40; x47; xf9; x09; x7e; x5d; xca; xaf; x65; xbe; xc8; xa8; xe9; x80; x59; xd4;
  x63; x11; x0d; x98; xb0; x92; x24; xbb; xd2; x45; x5b; xcb; x1a; x8a; x30; xd7;
  xe6; x61; x54; xa2; x51; xc6; x56; x5e; xcc; x53; xe4; x41; x15; xbd; x8a; x3f;
  xc2; x05; x4c; xe1; x0b; x9d; xd3; xcb; xf6; x02; xa2; x00; xf8; x63; x6b; xf2;
  xda; x0f; x17; x6f; x67; x01; x00; x82; x7f; x9e; xbe; xb6; xef; x8f; x42; x35;
  xb0; x82; x9d; xc0; x7c; xbb; x5d; x1b; x0a; xda; x51; x90; x3f; xbc; x0b; x5c;
  x04; xfd; xea; xcf; x07; xfc; xea; x01; xb4; x9b; x63; xeb; x48; x02; x08; xbe;
  x7f; x04; x3a; x00; x30; x19; x02; x36; x50; xe6; xd0; xfa; xa2; x1c; x84; xb4;
  x12; xd0; x3f; x00; xe2; xcf; x7c; xd5; x02; x94; x21; x31; xa3; x07; xb3; x29;
  xfa; x4b; xc9; x2d; x17; x61; xd4; x66; xa3; xea; xe9; x28; xf2; x51; x40; xd7;
  xf6; xa1; xd4; xac; x02; xc3; x78; x20; x3a; xb8; xb0; xfa; x64; x68; xf9; x14;
  xe4; x74; x00; x02; xa0; xdf; x8d; x3f; x90; x87; x5b; xce; xe2; x14; x2d; xed;
  x07; xc0; x29; x79; x17; xd6; xa6; x79; x44; xd7; x2f; xc3; xe4; xcf; x44; x31;
  x94; x6a; xa3; xc9; xa9; xff; x37; xad; x1b; x19; xc1; x3e; xac; x87; x80; x5e;
  x20; xaf; x46; x07; x06; xa1; x3b; xfb; xe3; xab; x2b; xa1; xc6; xdf; x47; xae;
  xa2; x48; x04; x19; xf6; x82; x2b; x4f; x17; x36; x91; x9a; xdc; x9d; xf8; xbb;
  x9e; xc4; x72; xcf; x64; xd4; xae; xbb; xc0; x50; x05; x64; x5c; x80; xf0; x5e;
  x20; x0e; x9c; x95; x68; x1b; xbf; x20; x30; xb7; x07; x2d; x5f; xa7; xc9; xdd;
  x81; xae; xed; xa6; x07; x88; x28; x09; x96; xfa; x44; x28; x6a; x44; x89; x4b;
  x46; x19; x35; x15; xc5; x76; x1f; x01; xd3; xdf; x80; x4e; x21; x84; x76; xa2;
  xeb; xe9; x68; x4e; x23; x86; xdd; x11; x28; x4b; xe2; x10; x65; x85; x24; x05;
  x16; x8b; xf9; xb8; xdb; x4f; x0f; x18; x86; x60; x25; xd7; x8a; xfe; x66; x3f;
  x56; xdb; x95; x98; x7b; xc5; x61; xb4; x6d; xc7; x69; xce; x47; x9e; x3e; x62;
  x15; x9c; xea; xf1; xeb; xb3; x69; x6e; x9c; x43; x54; xc5; x71; xa2; xca; x17;
  xe3; x6d; x9c; x4c; xa3; x3e; xb3; xb8; x12; x47; xbb; x01; xf0; xbd; xec; xdd;
  xe9; x4d; xa2; x98; x47; xa2; xb1; x14; x83; xe1; x0f; x9c; x50; xa6; xa1; x85;
  x50; x1b; x04; x8d; x16; x39; x8b; x2a; xbd; x23; xf1; x3e; x17; x3d; xb5; x4f;
  x31; x73; x47; xf1; x47; x38; xe1; x67; xfe; x3d; x1e; x6e; xd9; xfb; xa2; xd0;
  x93; x68; x34; xac; x7c; x87; x31; xa4; xb3; x24; x12; x68; x42; xca; x32; x5a;
  x44; x34; x4d; xc5; x9e; xb3; x0b; x98; xff; x01; xce; x3e; x07; xc4; x48; x1d;
  x56; x52; x00; x00; x00; x00; x49; x45; x4e; x44; xae; x42; x60; x82
].

(** The handler that [serveFrom] returns (lines 149-180), for the root
    directory [root] the file server was created with. *)
Definition handler `{Platform} (root : string) : HandlerFunc := fun resp req =>
  resp <- resp_Header_Set resp "Server" "web-share";;
  (* check URI *)
  match url.QueryUnescape (RequestURI req) with
  | Err err =>
      resp <- http_Error resp "Invalid URI" StatusBadRequest;;
      trace_Println [OString (RemoteAddr req); OString "Invalid URI:"; OError err];;
      ret resp
  | Ok uri =>
      (* log the request *)
      let rng := Header_Get (ReqHeader req) "Range" in
      (if Nat.ltb 0 (GoString.len rng) && negb (rng =? "bytes=0-")
       then trace_Println [OString (RemoteAddr req); OString (Method req);
                           OString (shortenURI uri); OString rng]
       else trace_Println [OString (RemoteAddr req); OString (Method req);
                           OString (shortenURI uri)]);;
      (* serve *)
      if uri =? "/favicon.ico" then
        resp <- resp_Header_Set resp "Content-Type" "image/x-icon";;
        http_ServeContent resp req (URL_Path req) faviconTS (string_of_list_byte favicon)
      else
        resp <- resp_Header_Set resp "Cache-Control" "no-cache, no-store, must-revalidate";;
        resp <- resp_Header_Set resp "Pragma" "no-cache";;
        resp <- resp_Header_Set resp "Expires" "0";;
        server_ServeHTTP root resp req
  end.

(** [serveFrom] (lines 141-181) *)
Definition serveFrom `{Platform} (dir : string) : M HandlerFunc :=
  (* get absolute path to the root directory *)
  root <- absPath dir;;
  trace_Println [OString "Serving files from"; OString root];;
  ret (handler root).

(** [run] (lines 121-137): the server is configured and
    [ListenAndServe] is called; its return value is the platform's. *)
Definition run `{Platform} (addr : string) (h : HandlerFunc) : M (option error) :=
  emit (EvListenAndServe addr);; ret (ListenAndServe addr).

(** The command line after [gnuflag.Parse]: the three flag variables. *)
Record CommandLine : Type := { itf : string; port : N; dir : string }.

Definition defaultPort : N := 8080.

(** [main] from the port check on (lines 65-88), run on the three
    variables as [gnuflag.Parse] has set them; [main_with_flags] below is
    the function from its first line. *)
Definition main `{Platform} (args : CommandLine) : M unit :=
  (* validate port *)
  (if (port args =? 0)%N || (0xFFFF <? port args)%N
   then die ("Invalid port number: " +:+ uintToString (port args)) None else ret tt);;
  (* build address *)
  (if Nat.eqb (GoString.len (itf args)) 0
   then die "Network interface is not specified" None else ret tt);;
  addr <- findIP (itf args);;
  (if Nat.eqb (GoString.len addr) 0
   then die ("Cannot find IPv4 address of " +:+ itf args) None else ret tt);;
  let addr := addr +:+ ":" +:+ uintToString (port args) in
  trace_Println [OString "Listening on"; OString addr];;
  (* start the server *)
  h <- serveFrom (dir args);;
  err <- run addr h;;
  match err with
  | Some e => trace_Fatalln e
  | None => ret tt
  end.

(** ** The command line (lines 51-63)

    [main] registers the flag names [interface], [i], [port], [p],
    [directory] and [d] over the three variables, with their defaults, and
    calls [gnuflag.Parse(false)]. gnuflag is not part of the repository:
    the command line is taken as the flags gnuflag reads off it, in order,
    each with the text of its value ([None] for a flag that the command
    line ends on, without a value). How the text of a port becomes the
    [uint] variable and what gnuflag prints for a flag it rejects are
    parameters. [gnuflag.CommandLine] is created with [ExitOnError]: on a
    flag that is not registered, a flag without value, or a port whose text
    does not convert, [Parse] ends the process with exit code 2. *)

Class FlagLibrary : Type := {
  (** [uintValue.Set]: the conversion of the text given for the port *)
  uint_Set : string -> result N;
  (** what gnuflag writes to stderr for the flag [name] with the value
      [value] when it rejects it, with the conversion error if there was
      one *)
  failure_text : string -> option string -> option error -> string
}.

(** The variables as they are declared and registered (lines 51-61). *)
Definition flagDefaults : CommandLine :=
  {| itf := EmptyString; port := defaultPort; dir := "." |}.

(** The names registered on lines 54-61. *)
Definition registered (name : string) : bool :=
  (name =? "interface") || (name =? "i") || (name =? "port") || (name =? "p")
  || (name =? "directory") || (name =? "d").

Definition gnuflag_fail `{FlagLibrary} {A : Type}
    (name : string) (value : option string) (err : option error) : M A :=
  emit (EvStderr (failure_text name value err));;
  os_Exit 2.

(** [gnuflag.Parse(false)] (line 63): every flag sets its variable, a later
    one over an earlier one. *)
Fixpoint gnuflag_Parse `{FlagLibrary} (flags : list (string * option string))
    (vars : CommandLine) : M CommandLine :=
  match flags with
  | [] => ret vars
  | (name, None) :: _ => gnuflag_fail name None None
  | (name, Some value) :: rest =>
      if (name =? "interface") || (name =? "i") then
        gnuflag_Parse rest {| itf := value; port := port vars; dir := dir vars |}
      else if (name =? "port") || (name =? "p") then
        match uint_Set value with
        | Ok n => gnuflag_Parse rest {| itf := itf vars; port := n; dir := dir vars |}
        | Err err => gnuflag_fail name (Some value) (Some err)
        end
      else if (name =? "directory") || (name =? "d") then
        gnuflag_Parse rest {| itf := itf vars; port := port vars; dir := value |}
      else gnuflag_fail name (Some value) None
  end.

(** [main] (lines 49-88), from the command line. *)
Definition main_with_flags `{FlagLibrary} `{Platform}
    (flags : list (string * option string)) : M unit :=
  args <- gnuflag_Parse flags flagDefaults;;
  main args.

(** What [net/http]'s server does with the handler that [run] (line 125)
    gives it: one call per request it has read, each on a writer of its
    own, for as long as the process lives. [Server_serve] is that sequence
    of calls, for the requests in the order in which they are served; the
    lines that the connection-state hook (lines 129-133) logs when a
    connection closes are not among its events. *)
Fixpoint Server_serve (h : HandlerFunc) (reqs : list Request) : M (list ResponseWriter) :=
  match reqs with
  | [] => ret []
  | req :: rest =>
      resp <- h newResponseWriter req;;
      resps <- Server_serve h rest;;
      ret (resp :: resps)
  end.

(** ** A concrete host

    A machine with a loopback interface and an empty served directory,
    started at 2023-11-14 22:13:20 UTC. It is used to run the definitions
    on concrete inputs. *)

Definition lo : net.Interface :=
  {| net.Index := 1%Z; net.MTU := 65536%Z; net.Name := "lo"; net.HardwareAddr := [];
     net.Flags := 5%N |}.

(** The HTTP date format of [http.TimeFormat] (IMF-fixdate,
    [Mon, 02 Jan 2006 15:04:05 GMT]) over Unix time: the codec of the
    concrete host. *)
Module HTTPDate.

Local Open Scope Z_scope.

(** Year, month and day of the day [days] after 1970-01-01 (proleptic
    Gregorian calendar, by 400-year eras that start on March 1). *)
Definition civil_from_days (days : Z) : Z * Z * Z :=
  let z := days + 719468 in
  let era := z / 146097 in
  let doe := z - era * 146097 in
  let yoe := (doe - doe / 1460 + doe / 36524 - doe / 146096) / 365 in
  let doy := doe - (365 * yoe + yoe / 4 - yoe / 100) in
  let mp := (5 * doy + 2) / 153 in
  let d := doy - (153 * mp + 2) / 5 + 1 in
  let m := if mp <? 10 then mp + 3 else mp - 9 in
  let y := yoe + era * 400 + (if m <=? 2 then 1 else 0) in
  (y, m, d).

Definition days_from_civil (y m d : Z) : Z :=
  let y := if m <=? 2 then y - 1 else y in
  let era := y / 400 in
  let yoe := y - era * 400 in
  let doy := (153 * (if 2 <? m then m - 3 else m + 9) + 2) / 5 + d - 1 in
  let doe := yoe * 365 + yoe / 4 - yoe / 100 + doy in
  era * 146097 + doe - 719468.

Definition dayNames : list string := ["Sun"; "Mon"; "Tue"; "Wed"; "Thu"; "Fri"; "Sat"].

Definition monthNames : list string :=
  ["Jan"; "Feb"; "Mar"; "Apr"; "May"; "Jun"; "Jul"; "Aug"; "Sep"; "Oct"; "Nov"; "Dec"].

Definition digits (width : nat) (n : Z) : string :=
  let text := FormatUint (Z.to_N n) in
  GoString.repeat_byte "0" (width - String.length text) +:+ text.

Definition Format (t : Z) : string :=
  let secs := t / 1000000000 in
  let days := secs / 86400 in
  let rem := secs mod 86400 in
  let '(y, m, d) := civil_from_days days in
  nth (Z.to_nat ((days + 4) mod 7)) dayNames EmptyString +:+ ", "
  +:+ digits 2 d +:+ " " +:+ nth (Z.to_nat (m - 1)) monthNames EmptyString +:+ " "
  +:+ digits 4 y +:+ " " +:+ digits 2 (rem / 3600) +:+ ":"
  +:+ digits 2 (rem mod 3600 / 60) +:+ ":" +:+ digits 2 (rem mod 60) +:+ " GMT".

Definition number (s : string) : option Z :=
  (fun u => Z.of_N (N.of_uint u)) <$> NilEmpty.uint_of_string s.

Fixpoint index_of (name : string) (names : list string) (i : Z) : option Z :=
  match names with
  | [] => None
  | n :: rest => if (name =? n)%string then Some i else index_of name rest (i + 1)
  end.

Definition Parse (s : string) : option Z :=
  if negb (Nat.eqb (String.length s) 29) then None
  else if negb ((substring 3 2 s =? ", ") && (substring 7 1 s =? " ")
                && (substring 11 1 s =? " ") && (substring 16 1 s =? " ")
                && (substring 19 1 s =? ":") && (substring 22 1 s =? ":")
                && (substring 25 4 s =? " GMT"))%string then None
  else
    match index_of (substring 0 3 s) dayNames 0, number (substring 5 2 s),
          index_of (substring 8 3 s) monthNames 1, number (substring 12 4 s),
          number (substring 17 2 s), number (substring 20 2 s), number (substring 23 2 s) with
    | Some _, Some d, Some m, Some y, Some hh, Some mm, Some ss =>
        if (1 <=? d) && (d <=? 31) && (hh <? 24) && (mm <? 60) && (ss <? 60)
        then Some ((days_from_civil y m d * 86400 + hh * 3600 + mm * 60 + ss) * 1000000000)
        else None
    | _, _, _, _, _, _, _ => None
    end.

End HTTPDate.

Definition loopbackHost : Platform := {|
  time_Now := (1700000000 * fs.second + 123456789)%Z;
  FormatTime := HTTPDate.Format;
  ParseTime := HTTPDate.Parse;
  strconv_Quote := fun s => String GoString.dquote (s +:+ String GoString.dquote EmptyString);
  sniffContentType := fun _ _ => "application/octet-stream";
  serveRanges := fun _ w _ _ => http.Error w "invalid range" 416%Z;
  FileServer_ServeHTTP := fun _ w _ => http.Error w "404 page not found" 404%Z;
  InterfaceByName := fun name =>
    if name =? "lo" then Ok lo
    else Err (errorString "route ip+net: no such network interface");
  Interface_Addrs := fun _ =>
    Ok [net.IPNet [x00; x00; x00; x00; x00; x00; x00; x00;
                   x00; x00; x00; x00; x00; x00; x00; x01] (repeat xff 16);
        net.IPNet [x7f; x00; x00; x01] [xff; x00; x00; x00]];
  filepath_Abs := fun d => Ok ("/srv/" +:+ d);
  os_Stat := fun _ => Ok {| IsDir := true |};
  ListenAndServe := fun _ => Some (errorString "listen tcp: bind: address already in use")
|}.

(** The Last-Modified date the loopback host sends with the icon. *)
Definition startDate : string := "Tue, 14 Nov 2023 22:13:20 GMT".

Definition GET (uri : string) (hdr : http.Header) : Request :=
  {| Method := "GET"; RequestURI := uri; URL_Path := uri;
     RemoteAddr := "127.0.0.1:40000"; ReqHeader := hdr |}.

(** [strconv.ParseUint(s, 0, 64)], after [strconv/atoi.go] of Go 1.10:
    the base is read off the prefix ([0x] or [0X] for 16, [0] for 8, 10
    otherwise), a byte that is no digit of the base is a syntax error, and
    a value of 2^64 or more is out of range. *)
Module strconv.

Definition ErrSyntax : error := errorString "invalid syntax".
Definition ErrRange : error := errorString "value out of range".

Definition digit (c : ascii) : option N :=
  let n := N_of_ascii c in
  if (48 <=? n)%N && (n <=? 57)%N then Some (n - 48)%N        (* 0 .. 9 *)
  else if (97 <=? n)%N && (n <=? 122)%N then Some (n - 97 + 10)%N  (* a .. z *)
  else if (65 <=? n)%N && (n <=? 90)%N then Some (n - 65 + 10)%N   (* A .. Z *)
  else None.

Fixpoint digits (base : N) (s : string) (n : N) : result N :=
  match s with
  | EmptyString => Ok n
  | String c rest =>
      match digit c with
      | Some v =>
          if (v <? base)%N then
            let n1 := (n * base + v)%N in
            if (n1 <? 2 ^ 64)%N then digits base rest n1 else Err ErrRange
          else Err ErrSyntax
      | None => Err ErrSyntax
      end
  end.

Definition ParseUint64 (s : string) : result N :=
  match s with
  | EmptyString => Err ErrSyntax
  | String "0" (String x rest) =>
      if ((x =? "x") || (x =? "X"))%char then
        match rest with
        | EmptyString => Err ErrSyntax
        | _ => digits 16 rest 0
        end
      else digits 8 (String x rest) 0
  | String "0" EmptyString => Ok 0%N
  | _ => digits 10 s 0
  end.

End strconv.

(** gnuflag as it converts and reports, on a platform whose [uint] has 64
    bits: the port through [strconv.ParseUint], the message after
    gnuflag's [failf]. *)
Definition gnuflagLibrary : FlagLibrary := {|
  uint_Set := strconv.ParseUint64;
  failure_text := fun name value err =>
    let flag := (if Nat.ltb 1 (GoString.len name) then "--" else "-") +:+ name in
    "error: "
    +:+ match value, err with
        | None, _ =>
            (if registered name then "flag needs an argument: "
             else "flag provided but not defined: ") +:+ flag
        | Some v, Some (errorString text) =>
            "invalid value " +:+ String GoString.dquote (v +:+ String GoString.dquote
            (" for flag " +:+ flag +:+ ": strconv.ParseUint: parsing "
             +:+ String GoString.dquote (v +:+ String GoString.dquote (": " +:+ text))))
        | Some v, Some (EscapeError _) => "invalid value for flag " +:+ flag
        | Some _, None => "flag provided but not defined: " +:+ flag
        end
    +:+ GoString.newline
|}.

(** The command line [-i eth7 -p 65536 -d /nowhere]. *)
Definition port65536 : list (string * option string) :=
  [("i", Some "eth7"); ("p", Some "65536"); ("d", Some "/nowhere")].

(** The command line [-i lo -p 18446744073709551616]: the port is 2^64. *)
Definition port2to64 : list (string * option string) :=
  [("i", Some "lo"); ("p", Some "18446744073709551616")].

(** Concrete inputs: a string of 504 bytes that ends in the marker, and a
    request URI of 10,000 bytes. *)
Definition marked504 : string := GoString.repeat_byte "a" 500 +:+ " ...".

Definition uri10000 : string := String "/" (GoString.repeat_byte "a" (100 * 100 - 1)).

(** ** Observations on a run

    The lines of the log, the library calls that received the response
    writer, and the header keys the handler set itself. *)

Definition logged (t : list Event) : list (list Operand) :=
  omap (fun e => match e with EvPrintln args => Some args | _ => None end) t.

Definition writer_of (e : Event) : option ResponseWriter :=
  match e with
  | EvError w _ _ => Some w
  | EvServeContent w _ _ _ _ => Some w
  | EvServeHTTP _ w _ => Some w
  | _ => None
  end.

Definition headers_set (t : list Event) : list (string * string) :=
  omap (fun e => match e with EvSetHeader k v => Some (k, v) | _ => None end) t.

(** The operands of the line the handler logs for a request whose URI
    unescaped to [uri]. *)
Definition request_line (req : Request) (uri : string) : list Operand :=
  [OString (RemoteAddr req); OString (Method req); OString (shortenURI uri)].

(** The writer after the handler has set the headers of a branch. *)
Definition with_Server (resp : ResponseWriter) : ResponseWriter :=
  SetHeader resp "Server" "web-share".

Definition with_icon_type (resp : ResponseWriter) : ResponseWriter :=
  SetHeader (with_Server resp) "Content-Type" "image/x-icon".

Definition with_no_cache (resp : ResponseWriter) : ResponseWriter :=
  SetHeader (SetHeader (SetHeader (with_Server resp)
    "Cache-Control" "no-cache, no-store, must-revalidate") "Pragma" "no-cache") "Expires" "0".

(** The icon as the content handed to [ServeContent]. *)
Definition icon : string := string_of_list_byte favicon.

(** An address the loop of [findIP] passes over: not an [*net.IPNet], or
    one whose IP has no 4-byte form. *)
Definition no_IPv4 (a : net.Addr) : Prop :=
  match a with
  | net.IPNet ip _ => net.To4 ip = None
  | _ => True
  end.

(** The process opened a listener. *)
Definition listening (t : list Event) : Prop :=
  exists addr, In (EvListenAndServe addr) t.

(** The process asked the host for a network interface. *)
Definition resolving (t : list Event) : Prop :=
  exists name, In (EvInterfaceByName name) t.

(** A request that carries none of the headers [ServeContent] acts on. *)
Definition unconditional (req : Request) : Prop :=
  Header_Get (ReqHeader req) "If-Match" = EmptyString
  /\ Header_Get (ReqHeader req) "If-Unmodified-Since" = EmptyString
  /\ Header_Get (ReqHeader req) "If-None-Match" = EmptyString
  /\ Header_Get (ReqHeader req) "If-Modified-Since" = EmptyString
  /\ Header_Get (ReqHeader req) "Range" = EmptyString.

(** The same platform over other files: another file server, another
    [os.Stat] and another [filepath.Abs]. *)
Definition with_files (P : Platform)
    (server : string -> ResponseWriter -> Request -> ResponseWriter)
    (stat : string -> result FileInfo) (abs : string -> result string) : Platform :=
  {| time_Now := @time_Now P;
     FormatTime := @FormatTime P;
     ParseTime := @ParseTime P;
     strconv_Quote := @strconv_Quote P;
     sniffContentType := @sniffContentType P;
     serveRanges := @serveRanges P;
     FileServer_ServeHTTP := server;
     InterfaceByName := @InterfaceByName P;
     Interface_Addrs := @Interface_Addrs P;
     filepath_Abs := abs;
     os_Stat := stat;
     ListenAndServe := @ListenAndServe P |}.

(** ** Further observations

    The library calls of a run that received the response writer, the
    value of a decimal numeral, the decimal digits, and the 16-byte form
    [::ffff:a.b.c.d] of an IPv4 address. *)

Definition replies (t : list Event) : list ResponseWriter := omap writer_of t.

Definition decimal_value (s : string) : option N :=
  N.of_uint <$> NilEmpty.uint_of_string s.

Definition isDigit (c : ascii) : bool :=
  ((48 <=? N_of_ascii c) && (N_of_ascii c <=? 57))%N.

Fixpoint all_bytes (p : ascii -> bool) (s : string) : bool :=
  match s with
  | EmptyString => true
  | String c rest => p c && all_bytes p rest
  end.

Definition IPv4_mapped (ip4 : net.IPv4) : net.IP :=
  repeat x00 10 ++ [xff; xff; net.b0 ip4; net.b1 ip4; net.b2 ip4; net.b3 ip4].

(** The address [main] listens on: the interface's IP, a colon, the port. *)
Definition listen_address (ip : string) (args : CommandLine) : string :=
  ip +:+ ":" +:+ uintToString (port args).

(** A directory of the host that is not there. *)
Definition hostWithout (missing : string) : Platform :=
  with_files loopbackHost (@FileServer_ServeHTTP loopbackHost)
    (fun path => if path =? missing then Err (errorString "stat: no such file or directory")
                 else Ok {| IsDir := negb (path =? "/srv/notes.txt") |})
    (@filepath_Abs loopbackHost).

(** A URI in which every [+] is replaced by a space, and the test that a
    byte is not [%]. *)
Fixpoint plus_to_space (s : string) : string :=
  match s with
  | EmptyString => EmptyString
  | String c rest => String (if (c =? "+")%char then " "%char else c) (plus_to_space rest)
  end.

Definition not_percent (c : ascii) : bool := negb (c =? "%")%char.

(** The run called [ServeContent]. *)
Definition serves_icon (t : list Event) : Prop :=
  exists w req name modtime content, In (EvServeContent w req name modtime content) t.

(** The run called [http.Error]. *)
Definition rejects (t : list Event) : Prop :=
  exists w msg code, In (EvError w msg code) t.

(** * Part II: lemmas and theorems *)

(** ** Facts about Go strings *)

Module GoStringFacts.

Lemma append_cons (c : ascii) (s t : string) :
  String c s +:+ t = String c (s +:+ t).
Proof. reflexivity. Qed.

Lemma len_append (s t : string) :
  String.length (s +:+ t) = String.length s + String.length t.
Proof.
  induction s as [|c s IH]; [reflexivity|].
  rewrite ?append_cons. simpl. now rewrite IH.
Qed.

Lemma len_slice_to (n : nat) (s : string) :
  String.length (substring 0 n s) = Nat.min n (String.length s).
Proof.
  revert s; induction n as [|n IH]; intros [|c s]; simpl; try reflexivity.
  now rewrite IH.
Qed.

Lemma slice_to_all (n : nat) (s : string) :
  String.length s <= n -> substring 0 n s = s.
Proof.
  revert s; induction n as [|n IH]; intros [|c s]; simpl; intros Hlen;
    try reflexivity; try lia.
  f_equal; apply IH; lia.
Qed.

Lemma slice_to_append (n : nat) (s t : string) :
  n <= String.length s -> substring 0 n (s +:+ t) = substring 0 n s.
Proof.
  revert s; induction n as [|n IH]; intros [|c s]; simpl; intros Hlen;
    try reflexivity; try lia.
  - now destruct t.
  - rewrite ?append_cons. f_equal; apply IH; lia.
Qed.

(** A string is its first [n] bytes followed by the rest. *)
Lemma slice_split (n m : nat) (s : string) :
  substring 0 n s +:+ substring n m s = substring 0 (n + m) s.
Proof.
  revert s; induction n as [|n IH]; intros s.
  - simpl. destruct m, s; reflexivity.
  - destruct s as [|c s]; simpl; [reflexivity|].
    rewrite ?append_cons. f_equal. apply IH.
Qed.

Lemma append_inj_l (s t1 t2 : string) : s +:+ t1 = s +:+ t2 -> t1 = t2.
Proof.
  induction s as [|c s IH]; intros Heq; [exact Heq|].
  rewrite !append_cons in Heq. injection Heq. exact IH.
Qed.

Lemma len_repeat_byte (c : ascii) (n : nat) :
  String.length (GoString.repeat_byte c n) = n.
Proof. induction n; simpl; congruence. Qed.

Lemma prefix_append (p t : string) : String.prefix p (p +:+ t) = true.
Proof.
  induction p as [|c p IH]; [now destruct t|].
  rewrite ?append_cons. simpl.
  destruct (ascii_dec c c); [exact IH | congruence].
Qed.

Lemma prefix_refl (s : string) : String.prefix s s = true.
Proof.
  induction s as [|c s IH]; simpl; [reflexivity|].
  destruct (ascii_dec c c); [exact IH | congruence].
Qed.

End GoStringFacts.

(** ** [shortenURI] *)

Lemma shortenURI_long (u : string) :
  maxURI < GoString.len u -> shortenURI u = substring 0 maxURI u +:+ " ...".
Proof.
  intros Hlen. unfold shortenURI, GoString.slice_to.
  destruct (Nat.ltb_spec maxURI (GoString.len u)); [reflexivity | lia].
Qed.

Lemma shortenURI_short (u : string) :
  GoString.len u <= maxURI -> shortenURI u = u.
Proof.
  intros Hlen. unfold shortenURI.
  destruct (Nat.ltb_spec maxURI (GoString.len u)); [lia | reflexivity].
Qed.

Lemma shortenURI_len_long (u : string) :
  maxURI < GoString.len u -> GoString.len (shortenURI u) = maxURI + 4.
Proof.
  intros Hlen. rewrite shortenURI_long by exact Hlen. unfold GoString.len in *.
  rewrite GoStringFacts.len_append, GoStringFacts.len_slice_to.
  change (String.length " ...") with 4. lia.
Qed.

Lemma shortenURI_idempotent (u : string) : shortenURI (shortenURI u) = shortenURI u.
Proof.
  destruct (Nat.le_gt_cases (GoString.len u) maxURI) as [Hle | Hgt].
  - rewrite (shortenURI_short u Hle). exact (shortenURI_short u Hle).
  - rewrite (shortenURI_long (shortenURI u)).
    + rewrite (shortenURI_long u) by exact Hgt.
      rewrite GoStringFacts.slice_to_append; [|].
      * rewrite GoStringFacts.slice_to_all; [reflexivity|].
        rewrite GoStringFacts.len_slice_to. lia.
      * rewrite GoStringFacts.len_slice_to. unfold GoString.len in Hgt. lia.
    + rewrite shortenURI_len_long by exact Hgt. lia.
Qed.

Lemma shortenURI_prefix (u : string) :
  substring 0 maxURI (shortenURI u) = substring 0 maxURI u.
Proof.
  destruct (Nat.le_gt_cases (GoString.len u) maxURI) as [Hle | Hgt].
  - now rewrite (shortenURI_short u Hle).
  - rewrite shortenURI_long by exact Hgt.
    rewrite GoStringFacts.slice_to_append.
    + apply GoStringFacts.slice_to_all. rewrite GoStringFacts.len_slice_to. lia.
    + rewrite GoStringFacts.len_slice_to. unfold GoString.len in Hgt. lia.
Qed.

Lemma shortenURI_len_bound (u : string) : GoString.len (shortenURI u) <= maxURI + 4.
Proof.
  destruct (Nat.le_gt_cases (GoString.len u) maxURI) as [Hle | Hgt].
  - rewrite shortenURI_short by exact Hle. lia.
  - rewrite shortenURI_len_long by exact Hgt. lia.
Qed.

(** The fixed points of [shortenURI]: the short strings, and the strings of
    504 bytes that already end in the marker. *)
Lemma shortenURI_fixed (u : string) :
  shortenURI u = u <->
  GoString.len u <= maxURI \/
  (GoString.len u = maxURI + 4 /\ substring maxURI 4 u = " ...").
Proof.
  split.
  - intros Hfix.
    destruct (Nat.le_gt_cases (GoString.len u) maxURI) as [Hle | Hgt]; [now left | right].
    assert (Hlen : GoString.len u = maxURI + 4)
      by (rewrite <- Hfix at 1; now apply shortenURI_len_long).
    split; [exact Hlen|].
    rewrite shortenURI_long in Hfix by exact Hgt.
    assert (Hu : u = substring 0 maxURI u +:+ substring maxURI 4 u).
    { rewrite GoStringFacts.slice_split. symmetry.
      apply GoStringFacts.slice_to_all. unfold GoString.len in Hlen. lia. }
    symmetry. exact (GoStringFacts.append_inj_l _ _ _ (eq_trans Hfix Hu)).
  - intros [Hle | [Hlen Hend]]; [now apply shortenURI_short|].
    rewrite shortenURI_long by lia.
    rewrite <- Hend, GoStringFacts.slice_split.
    apply GoStringFacts.slice_to_all. unfold GoString.len in Hlen. lia.
Qed.

(** ** The three branches of the handler *)

Section Handler.
Context `{Platform}.
Variables (root : string) (resp : ResponseWriter) (req : Request).

Lemma handler_invalid (err : error) :
  url.QueryUnescape (RequestURI req) = Err err ->
  handler root resp req =
    (Returned (http.Error (with_Server resp) "Invalid URI" StatusBadRequest),
     [EvSetHeader "Server" "web-share";
      EvError (with_Server resp) "Invalid URI" StatusBadRequest;
      EvPrintln [OString (RemoteAddr req); OString "Invalid URI:"; OError err]]).
Proof. intros Herr. unfold handler. rewrite Herr. reflexivity. Qed.

Lemma handler_log_line (uri : string) :
  url.QueryUnescape (RequestURI req) = Ok uri ->
  exists t,
    events (handler root resp req) =
      EvSetHeader "Server" "web-share"
      :: EvPrintln
           (let rng := Header_Get (ReqHeader req) "Range" in
            if Nat.ltb 0 (GoString.len rng) && negb (rng =? "bytes=0-")
            then request_line req uri ++ [OString rng]
            else request_line req uri)
      :: t
    /\ logged t = [].
Proof.
  intros Huri. unfold handler. rewrite Huri. cbv zeta.
  destruct (Nat.ltb 0 _ && negb _), (uri =? "/favicon.ico");
    eexists; split; reflexivity.
Qed.

Lemma handler_favicon :
  url.QueryUnescape (RequestURI req) = Ok "/favicon.ico" ->
  exists line,
    handler root resp req =
      (Returned (fs.ServeContent (with_icon_type resp) req (URL_Path req) faviconTS icon),
       [EvSetHeader "Server" "web-share";
        EvPrintln line;
        EvSetHeader "Content-Type" "image/x-icon";
        EvServeContent (with_icon_type resp) req (URL_Path req) faviconTS icon]).
Proof.
  intros Huri. unfold handler. rewrite Huri. cbv zeta.
  destruct (Nat.ltb 0 _ && negb _); eexists; reflexivity.
Qed.

Lemma handler_files (uri : string) :
  url.QueryUnescape (RequestURI req) = Ok uri ->
  uri <> "/favicon.ico" ->
  exists line,
    handler root resp req =
      (Returned (FileServer_ServeHTTP root (with_no_cache resp) req),
       [EvSetHeader "Server" "web-share";
        EvPrintln line;
        EvSetHeader "Cache-Control" "no-cache, no-store, must-revalidate";
        EvSetHeader "Pragma" "no-cache";
        EvSetHeader "Expires" "0";
        EvServeHTTP root (with_no_cache resp) req]).
Proof.
  intros Huri Hne. unfold handler. rewrite Huri. cbv zeta.
  apply String.eqb_neq in Hne. rewrite Hne.
  destruct (Nat.ltb 0 _ && negb _); eexists; reflexivity.
Qed.

End Handler.

(** ** Truncation of the logged URI *)

(** C10 (counterexample): [shortenURI] returns the 504-byte string
    [marked504] unchanged although it is longer than 500 bytes, so "unchanged
    exactly when the length is at most 500" fails there. *)
Lemma shortenURI_unchanged_beyond_500 :
  ~ (shortenURI marked504 = marked504 <-> GoString.len marked504 <= 500).
Proof.
  intros [Hfix _].
  assert (Hlen : Nat.leb (GoString.len marked504) 500 = true).
  { apply Nat.leb_le, Hfix. vm_compute. reflexivity. }
  vm_compute in Hlen. discriminate Hlen.
Qed.

(** C10 (amended): [shortenURI] is idempotent, keeps the first 500 bytes of
    its argument as a prefix of the result, returns at most 504 bytes, and
    returns [u] unchanged exactly when [u] has at most 500 bytes or is a
    504-byte string whose last four bytes are the marker. *)
Theorem shortenURI_idempotent_prefix_bounded (u : string) :
  shortenURI (shortenURI u) = shortenURI u
  /\ substring 0 500 (shortenURI u) = substring 0 500 u
  /\ String.prefix (substring 0 500 u) (shortenURI u) = true
  /\ GoString.len (shortenURI u) <= 504
  /\ (shortenURI u = u <->
      GoString.len u <= 500 \/ (GoString.len u = 504 /\ substring 500 4 u = " ...")).
Proof.
  split; [apply shortenURI_idempotent|].
  split; [apply shortenURI_prefix|].
  split.
  - destruct (Nat.le_gt_cases (GoString.len u) maxURI) as [Hle | Hgt].
    + rewrite (shortenURI_short u Hle).
      change 500 with maxURI. rewrite GoStringFacts.slice_to_all by exact Hle.
      apply GoStringFacts.prefix_refl.
    + rewrite (shortenURI_long u Hgt). apply GoStringFacts.prefix_append.
  - split; [apply shortenURI_len_bound | apply shortenURI_fixed].
Qed.

(** C4: when the URI unescapes to more than 500 bytes, the one line the
    handler logs carries its first 500 bytes followed by the marker, while
    the request handed to the file server is the request as received, whose
    URI unescapes to the whole value; a URI of at most 500 bytes is logged
    as it is. *)
Theorem long_URI_logged_short_served_whole `{Platform}
    (root : string) (resp : ResponseWriter) (req : Request) (uri : string) :
  url.QueryUnescape (RequestURI req) = Ok uri ->
  (500 < GoString.len uri ->
     (exists rest,
        logged (events (handler root resp req)) =
          [OString (RemoteAddr req) :: OString (Method req)
           :: OString (substring 0 500 uri +:+ " ...") :: rest])
     /\ outcome (handler root resp req) =
          Returned (FileServer_ServeHTTP root (with_no_cache resp) req)
     /\ last (events (handler root resp req)) =
          Some (EvServeHTTP root (with_no_cache resp) req))
  /\ (GoString.len uri <= 500 ->
       exists rest,
         logged (events (handler root resp req)) =
           [OString (RemoteAddr req) :: OString (Method req) :: OString uri :: rest]).
Proof.
  intros Huri.
  destruct (handler_log_line root resp req uri Huri) as (t & Hev & Hlog).
  assert (Hlogged : exists rest,
    logged (events (handler root resp req)) =
      [OString (RemoteAddr req) :: OString (Method req) :: OString (shortenURI uri) :: rest]).
  { rewrite Hev. cbn [logged omap list_omap]. fold (logged t). rewrite Hlog.
    destruct (Nat.ltb 0 _ && negb _); eexists; reflexivity. }
  split.
  - intros Hlong. split; [|split].
    + change 500 with maxURI. rewrite <- (shortenURI_long uri Hlong). exact Hlogged.
    + destruct (handler_files root resp req uri Huri) as (line & ->); [|reflexivity].
      intros ->. vm_compute in Hlong. lia.
    + destruct (handler_files root resp req uri Huri) as (line & ->); [|reflexivity].
      intros ->. vm_compute in Hlong. lia.
  - intros Hshort. destruct Hlogged as [rest Hline]. exists rest.
    rewrite Hline, (shortenURI_short uri Hshort). reflexivity.
Qed.

(** C4 (witness): a request for a URI of 10,000 bytes. *)
Lemma long_URI_logged_short_served_whole_witness :
  url.QueryUnescape (RequestURI (GET uri10000 ∅)) = Ok uri10000
  /\ 500 < GoString.len uri10000
  /\ last (events (handler (H := loopbackHost) "/srv" newResponseWriter (GET uri10000 ∅))) =
       Some (EvServeHTTP "/srv" (with_no_cache newResponseWriter) (GET uri10000 ∅)).
Proof.
  assert (Huri : url.QueryUnescape (RequestURI (GET uri10000 ∅)) = Ok uri10000)
    by (vm_compute; reflexivity).
  assert (Hlong : 500 < GoString.len uri10000)
    by (apply Nat.ltb_lt; vm_compute; reflexivity).
  split; [exact Huri | split; [exact Hlong|]].
  exact (proj2 (proj2 (proj1
    (long_URI_logged_short_served_whole (H := loopbackHost)
       "/srv" newResponseWriter (GET uri10000 ∅) uri10000 Huri) Hlong))).
Defined.

(** ** The Range header in the log *)

Lemma nonempty_len (s : string) : Nat.ltb 0 (GoString.len s) = negb (s =? EmptyString).
Proof. destruct s; reflexivity. Qed.

(** C8: the handler logs one line; it ends with the value of the Range
    header exactly when that value is neither empty (or the header absent)
    nor [bytes=0-], and otherwise holds the remote address, the method and
    the shortened URI only. *)
Theorem Range_logged_unless_trivial `{Platform}
    (root : string) (resp : ResponseWriter) (req : Request) (uri : string) :
  url.QueryUnescape (RequestURI req) = Ok uri ->
  let rng := Header_Get (ReqHeader req) "Range" in
  let line := [OString (RemoteAddr req); OString (Method req); OString (shortenURI uri)] in
  (rng <> EmptyString /\ rng <> "bytes=0-" ->
     logged (events (handler root resp req)) = [line ++ [OString rng]])
  /\ (rng = EmptyString \/ rng = "bytes=0-" ->
       logged (events (handler root resp req)) = [line])
  /\ (ReqHeader req !! "Range" = None ->
       logged (events (handler root resp req)) = [line])
  /\ (logged (events (handler root resp req)) = [line ++ [OString rng]] <->
       rng <> EmptyString /\ rng <> "bytes=0-").
Proof.
  intros Huri rng line.
  destruct (handler_log_line root resp req uri Huri) as (t & Hev & Hlog).
  assert (Hline : logged (events (handler root resp req)) =
      [if negb (rng =? EmptyString) && negb (rng =? "bytes=0-")
       then line ++ [OString rng] else line]).
  { rewrite Hev. cbn [logged omap list_omap]. fold (logged t). rewrite Hlog.
    cbv zeta. fold rng. rewrite nonempty_len. reflexivity. }
  assert (Hyes : rng <> EmptyString /\ rng <> "bytes=0-" ->
      logged (events (handler root resp req)) = [line ++ [OString rng]]).
  { intros [Hne Hnz]. rewrite Hline.
    apply String.eqb_neq in Hne, Hnz. rewrite Hne, Hnz. reflexivity. }
  assert (Hno : rng = EmptyString \/ rng = "bytes=0-" ->
      logged (events (handler root resp req)) = [line]).
  { intros [He | He]; rewrite Hline, He; reflexivity. }
  split; [exact Hyes | split; [exact Hno | split]].
  - intros Habsent. apply Hno. left. unfold rng, Header_Get. now rewrite Habsent.
  - split; [|exact Hyes].
    intros Hfour.
    destruct (String.eqb_spec rng EmptyString) as [He | Hne];
      [rewrite (Hno (or_introl He)) in Hfour; discriminate Hfour|].
    destruct (String.eqb_spec rng "bytes=0-") as [He | Hnz];
      [rewrite (Hno (or_intror He)) in Hfour; discriminate Hfour|].
    now split.
Qed.

(** C8 (witness): a request for bytes 1 to 2 of [/x]. *)
Lemma Range_logged_unless_trivial_witness :
  url.QueryUnescape (RequestURI (GET "/x" {["Range" := ["bytes=1-2"]]})) = Ok "/x"
  /\ logged (events (handler (H := loopbackHost) "/srv" newResponseWriter
                       (GET "/x" {["Range" := ["bytes=1-2"]]}))) =
       [[OString "127.0.0.1:40000"; OString "GET"; OString "/x"; OString "bytes=1-2"]].
Proof.
  split; [vm_compute; reflexivity|].
  refine (proj1 (Range_logged_unless_trivial (H := loopbackHost) "/srv" newResponseWriter
            (GET "/x" {["Range" := ["bytes=1-2"]]}) "/x" _) _).
  - vm_compute; reflexivity.
  - split; vm_compute; discriminate.
Defined.

(** ** Facts about response writers *)

Module httpFacts.

(** [http.Error] on a writer whose header is not written yet. *)
Lemma Error_unwritten (w : ResponseWriter) (msg : string) (code : Z) :
  wroteHeader w = None ->
  http.Error w msg code =
    let h := Header_Set (Header_Set (header w) "Content-Type" "text/plain; charset=utf-8")
                        "X-Content-Type-Options" "nosniff" in
    {| header := h; wroteHeader := Some (code, h);
       body := body w +:+ (msg +:+ GoString.newline) |}.
Proof.
  intros Hw. unfold http.Error, Write, WriteHeader, SetHeader. cbn.
  rewrite Hw. reflexivity.
Qed.

Lemma with_Server_lookup (w : ResponseWriter) :
  header (with_Server w) !! "Server" = Some ["web-share"].
Proof. unfold with_Server, SetHeader, Header_Set. cbn. apply lookup_insert_eq. Qed.

Lemma with_icon_type_lookup (w : ResponseWriter) :
  header (with_icon_type w) !! "Server" = Some ["web-share"]
  /\ header (with_icon_type w) !! "Content-Type" = Some ["image/x-icon"]
  /\ wroteHeader (with_icon_type w) = wroteHeader w.
Proof.
  unfold with_icon_type, with_Server, SetHeader, Header_Set. cbn.
  repeat split; by simplify_map_eq.
Qed.

Lemma with_no_cache_lookup (w : ResponseWriter) :
  header (with_no_cache w) !! "Server" = Some ["web-share"]
  /\ header (with_no_cache w) !! "Cache-Control" = Some ["no-cache, no-store, must-revalidate"]
  /\ header (with_no_cache w) !! "Pragma" = Some ["no-cache"]
  /\ header (with_no_cache w) !! "Expires" = Some ["0"]
  /\ wroteHeader (with_no_cache w) = wroteHeader w.
Proof.
  unfold with_no_cache, with_Server, SetHeader, Header_Set. cbn.
  repeat split; by simplify_map_eq.
Qed.

(** The handler leaves every other header of the writer as it found it. *)
Lemma with_no_cache_frame (w : ResponseWriter) (key : string) :
  key <> "Server" -> key <> "Cache-Control" -> key <> "Pragma" -> key <> "Expires" ->
  header (with_no_cache w) !! key = header w !! key.
Proof.
  intros. unfold with_no_cache, with_Server, SetHeader, Header_Set. cbn.
  by simplify_map_eq.
Qed.

End httpFacts.

(** ** The handler returns, and the server goes on *)

Lemma handler_returns `{Platform} (root : string) (resp : ResponseWriter) (req : Request) :
  exists w, outcome (handler root resp req) = Returned w.
Proof.
  destruct (url.QueryUnescape (RequestURI req)) as [uri | err] eqn:Huri.
  - destruct (String.eqb_spec uri "/favicon.ico") as [-> | Hne].
    + destruct (handler_favicon root resp req Huri) as (line & ->). eexists; reflexivity.
    + destruct (handler_files root resp req uri Huri Hne) as (line & ->). eexists; reflexivity.
  - rewrite (handler_invalid root resp req err Huri). eexists; reflexivity.
Qed.

Lemma Server_serve_cons `{Platform} (root : string) (req : Request) (rest : list Request)
    (w : ResponseWriter) (ws : list ResponseWriter) :
  outcome (handler root newResponseWriter req) = Returned w ->
  outcome (Server_serve (handler root) rest) = Returned ws ->
  Server_serve (handler root) (req :: rest) =
    (Returned (w :: ws),
     events (handler root newResponseWriter req) ++ events (Server_serve (handler root) rest)).
Proof.
  unfold outcome, events. cbn [Server_serve].
  destruct (handler root newResponseWriter req) as [o t].
  destruct (Server_serve (handler root) rest) as [o' t'].
  cbn. intros -> ->. cbn. now rewrite app_nil_r.
Qed.

(** Every request of the sequence is answered, each by its own handler
    invocation. *)
Lemma Server_serve_returns `{Platform} (root : string) (reqs : list Request) :
  exists ws,
    outcome (Server_serve (handler root) reqs) = Returned ws
    /\ Forall2 (fun req w => outcome (handler root newResponseWriter req) = Returned w) reqs ws.
Proof.
  induction reqs as [|req rest IH].
  - exists []. split; [reflexivity | constructor].
  - destruct IH as (ws & Hws & Hall).
    destruct (handler_returns root newResponseWriter req) as (w & Hw).
    exists (w :: ws). split.
    + now rewrite (Server_serve_cons root req rest w ws Hw Hws).
    + now constructor.
Qed.

(** ** The invalid-URI path *)

(** C2: when the request URI does not unescape, the handler answers 400
    with the message Invalid URI (and the line feed [Fprintln] adds), logs
    one line with the remote address and the error, calls neither
    [ServeContent] nor the file server, logs no method and no URI, and
    returns; the server then handles every later request. *)
Theorem invalid_URI_answered_400_server_goes_on `{Platform}
    (root : string) (req : Request) (err : error) (rest : list Request) :
  url.QueryUnescape (RequestURI req) = Err err ->
  exists w,
    outcome (handler root newResponseWriter req) = Returned w
    /\ status w = Some 400%Z
    /\ body w = "Invalid URI" +:+ GoString.newline
    /\ events (handler root newResponseWriter req) =
         [EvSetHeader "Server" "web-share";
          EvError (with_Server newResponseWriter) "Invalid URI" 400;
          EvPrintln [OString (RemoteAddr req); OString "Invalid URI:"; OError err]]
    /\ exists ws,
         outcome (Server_serve (handler root) (req :: rest)) = Returned (w :: ws)
         /\ Forall2 (fun r w' => outcome (handler root newResponseWriter r) = Returned w')
                    rest ws.
Proof.
  intros Herr.
  pose (w := http.Error (with_Server newResponseWriter) "Invalid URI" StatusBadRequest).
  pose proof (handler_invalid root newResponseWriter req err Herr) as Hrun. fold w in Hrun.
  assert (Hw : status w = Some 400%Z /\ body w = "Invalid URI" +:+ GoString.newline).
  { unfold w. rewrite httpFacts.Error_unwritten by reflexivity. split; reflexivity. }
  exists w. rewrite Hrun.
  split; [reflexivity | split; [apply Hw | split; [apply Hw | split; [reflexivity|]]]].
  destruct (Server_serve_returns root rest) as (ws & Hws & Hall).
  exists ws. split; [|exact Hall].
  rewrite (Server_serve_cons root req rest w ws); [reflexivity | now rewrite Hrun | exact Hws].
Qed.

(** C2 (witness): the request [GET /%zz], followed by a request for [/]. *)
Lemma invalid_URI_answered_400_server_goes_on_witness :
  url.QueryUnescape (RequestURI (GET "/%zz" ∅)) = Err (EscapeError "%zz")
  /\ exists w ws,
       outcome (Server_serve (handler (H := loopbackHost) "/srv") [GET "/%zz" ∅; GET "/" ∅])
         = Returned (w :: ws)
       /\ status w = Some 400%Z /\ length ws = 1.
Proof.
  split; [vm_compute; reflexivity|].
  destruct (invalid_URI_answered_400_server_goes_on (H := loopbackHost)
              "/srv" (GET "/%zz" ∅) (EscapeError "%zz") [GET "/" ∅])
    as (w & _ & Hstatus & _ & _ & ws & Hserve & Hall).
  - vm_compute; reflexivity.
  - exists w, ws. split; [exact Hserve | split; [exact Hstatus|]].
    symmetry. exact (Forall2_length _ _ _ Hall).
Defined.

(** C9: on the invalid-URI path the handler itself sets the Server header
    and no other; the 400 reply goes out with Server and the two headers
    [http.Error] adds, hence with no Cache-Control, Pragma or Expires and
    with a Content-Type that is not [image/x-icon]. *)
Theorem invalid_URI_sets_only_Server `{Platform}
    (root : string) (req : Request) (err : error) :
  url.QueryUnescape (RequestURI req) = Err err ->
  headers_set (events (handler root newResponseWriter req)) = [("Server", "web-share")]
  /\ exists w,
       outcome (handler root newResponseWriter req) = Returned w
       /\ wroteHeader w =
            Some (400%Z,
                  <["X-Content-Type-Options" := ["nosniff"]]>
                    (<["Content-Type" := ["text/plain; charset=utf-8"]]>
                       (<["Server" := ["web-share"]]> ∅)))
       /\ sent w "Cache-Control" = None
       /\ sent w "Pragma" = None
       /\ sent w "Expires" = None
       /\ sent w "Content-Type" = Some ["text/plain; charset=utf-8"]
       /\ sent w "Content-Type" <> Some ["image/x-icon"].
Proof.
  intros Herr.
  rewrite (handler_invalid root newResponseWriter req err Herr).
  split; [reflexivity|].
  eexists. split; [reflexivity|].
  rewrite httpFacts.Error_unwritten by reflexivity.
  unfold sent. cbn.
  split; [reflexivity|].
  unfold Header_Set.
  repeat split; by simplify_map_eq.
Qed.

(** C9 (witness): the request [GET /%zz]. *)
Lemma invalid_URI_sets_only_Server_witness :
  url.QueryUnescape (RequestURI (GET "/%zz" ∅)) = Err (EscapeError "%zz")
  /\ headers_set (events (handler (H := loopbackHost) "/srv" newResponseWriter (GET "/%zz" ∅)))
     = [("Server", "web-share")].
Proof.
  split; [vm_compute; reflexivity|].
  refine (proj1 (invalid_URI_sets_only_Server (H := loopbackHost)
                   "/srv" (GET "/%zz" ∅) (EscapeError "%zz") _)).
  vm_compute; reflexivity.
Defined.

(** ** The root directory and the delegated path *)

(** [serveFrom] returns a handler only for a directory that [filepath.Abs]
    resolved and [os.Stat] reported as a directory; the handler is the one
    for that absolute path. *)
Lemma serveFrom_returned `{Platform} (dir : string) (h : HandlerFunc) :
  outcome (serveFrom dir) = Returned h ->
  exists root info,
    filepath_Abs dir = Ok root /\ os_Stat root = Ok info /\ IsDir info = true
    /\ h = handler root.
Proof.
  unfold serveFrom, absPath, die, outcome.
  destruct (filepath_Abs dir) as [root | e] eqn:Habs; [|discriminate].
  cbn. destruct (os_Stat root) as [info | e] eqn:Hstat; cbn; [|discriminate].
  destruct (IsDir info) eqn:Hdir; cbn; [|discriminate].
  intros [= <-]. exists root, info. repeat split; assumption.
Qed.

(** C3: for a URI that unescapes to something other than [/favicon.ico],
    the handler sets, after Server, exactly Cache-Control, Pragma and
    Expires with the three cache-disabling values, and then hands the
    writer and the request to the file server of the root directory, which
    is the absolute path [serveFrom] validated. *)
Theorem other_paths_no_cache_then_file_server `{Platform}
    (dir : string) (h : HandlerFunc) (resp : ResponseWriter) (req : Request) (uri : string) :
  outcome (serveFrom dir) = Returned h ->
  url.QueryUnescape (RequestURI req) = Ok uri ->
  uri <> "/favicon.ico" ->
  exists root info,
    filepath_Abs dir = Ok root /\ os_Stat root = Ok info /\ IsDir info = true
    /\ headers_set (events (h resp req)) =
         [("Server", "web-share");
          ("Cache-Control", "no-cache, no-store, must-revalidate");
          ("Pragma", "no-cache");
          ("Expires", "0")]
    /\ (exists line,
          events (h resp req) =
            [EvSetHeader "Server" "web-share";
             EvPrintln line;
             EvSetHeader "Cache-Control" "no-cache, no-store, must-revalidate";
             EvSetHeader "Pragma" "no-cache";
             EvSetHeader "Expires" "0";
             EvServeHTTP root (with_no_cache resp) req])
    /\ outcome (h resp req) = Returned (FileServer_ServeHTTP root (with_no_cache resp) req)
    /\ header (with_no_cache resp) !! "Cache-Control"
         = Some ["no-cache, no-store, must-revalidate"]
    /\ header (with_no_cache resp) !! "Pragma" = Some ["no-cache"]
    /\ header (with_no_cache resp) !! "Expires" = Some ["0"]
    /\ (forall key, key <> "Server" -> key <> "Cache-Control" -> key <> "Pragma" ->
          key <> "Expires" -> header (with_no_cache resp) !! key = header resp !! key).
Proof.
  intros Hh Huri Hne.
  destruct (serveFrom_returned dir h Hh) as (root & info & Habs & Hstat & Hdir & ->).
  exists root, info.
  destruct (handler_files root resp req uri Huri Hne) as (line & ->).
  destruct (httpFacts.with_no_cache_lookup resp) as (_ & Hcc & Hpr & Hex & _).
  repeat (split; [first [assumption | reflexivity] |]).
  split; [exists line; reflexivity|].
  repeat (split; [first [assumption | reflexivity] |]).
  apply httpFacts.with_no_cache_frame.
Qed.

(** C3 (witness): [GET /index.html] from the directory served by the
    loopback host. *)
Lemma other_paths_no_cache_then_file_server_witness :
  exists h,
    outcome (serveFrom (H := loopbackHost) ".") = Returned h
    /\ url.QueryUnescape (RequestURI (GET "/index.html" ∅)) = Ok "/index.html"
    /\ "/index.html" <> "/favicon.ico"
    /\ outcome (h newResponseWriter (GET "/index.html" ∅)) =
         Returned (FileServer_ServeHTTP (Platform := loopbackHost) "/srv/."
                     (with_no_cache newResponseWriter) (GET "/index.html" ∅)).
Proof.
  exists (handler (H := loopbackHost) "/srv/.").
  assert (Hh : outcome (serveFrom (H := loopbackHost) ".")
               = Returned (handler (H := loopbackHost) "/srv/.")) by reflexivity.
  assert (Huri : url.QueryUnescape (RequestURI (GET "/index.html" ∅)) = Ok "/index.html")
    by (vm_compute; reflexivity).
  assert (Hne : "/index.html" <> "/favicon.ico") by discriminate.
  split; [exact Hh | split; [exact Huri | split; [exact Hne|]]].
  destruct (other_paths_no_cache_then_file_server (H := loopbackHost)
              "." _ newResponseWriter (GET "/index.html" ∅) "/index.html" Hh Huri Hne)
    as (root & info & Habs & _ & _ & _ & _ & Hout & _).
  injection Habs as <-. exact Hout.
Defined.

(** ** Startup *)

Lemma bind_ret_l {A B : Type} (a : A) (f : A -> M B) : bind (ret a) f = f a.
Proof. unfold bind, ret. now destruct (f a). Qed.

Lemma bind_events {A B : Type} (m : M A) (f : A -> M B) (a : A) :
  outcome m = Returned a ->
  bind m f = (outcome (f a), events m ++ events (f a)).
Proof.
  destruct m as [o t]. cbn. intros ->. cbn. now destruct (f a).
Qed.

Lemma bind_exited {A B : Type} (m : M A) (f : A -> M B) (code : Z) :
  outcome m = Exited code -> bind m f = (Exited code, events m).
Proof. destruct m as [o t]. cbn. now intros ->. Qed.

(** [die] with a message and no error value. *)
Lemma die_msg {A : Type} `{Platform} (c : ascii) (msg : string) :
  die (A := A) (String c msg) None =
    (Exited 1, [EvStderr ("ERROR: " +:+ String c msg +:+ GoString.newline)]).
Proof. reflexivity. Qed.

(** [die] with a message and an error value. *)
Lemma die_msg_err {A : Type} `{Platform} (c : ascii) (msg : string) (err : error) :
  die (A := A) (String c msg) (Some err) =
    (Exited 1, [EvStderr ("ERROR: " +:+ String c msg +:+ ": " +:+ Error_text err
                          +:+ GoString.newline)]).
Proof. reflexivity. Qed.

Section FindIP.
Context `{Platform}.
Variable name : string.

Lemma findIP_unknown (err : error) :
  InterfaceByName name = Err err ->
  findIP name =
    (Exited 1,
     [EvInterfaceByName name;
      EvStderr ("ERROR: Invalid interface name: " +:+ Error_text err +:+ GoString.newline)]).
Proof. intros Herr. unfold findIP. rewrite Herr. reflexivity. Qed.

Lemma findIP_down (it : net.Interface) :
  InterfaceByName name = Ok it ->
  N.land (net.Flags it) net.FlagUp = 0%N ->
  findIP name =
    (Exited 1,
     [EvInterfaceByName name; EvStderr ("ERROR: Interface is DOWN" +:+ GoString.newline)]).
Proof.
  intros Hit Hdown. unfold findIP. rewrite Hit.
  cbn -[N.land N.eqb]. rewrite Hdown. reflexivity.
Qed.

Lemma findIP_no_list (it : net.Interface) (err : error) :
  InterfaceByName name = Ok it ->
  N.land (net.Flags it) net.FlagUp <> 0%N ->
  Interface_Addrs it = Err err ->
  findIP name =
    (Exited 1,
     [EvInterfaceByName name; EvAddrs it;
      EvStderr ("ERROR: Cannot get interface address list: " +:+ Error_text err
                +:+ GoString.newline)]).
Proof.
  intros Hit Hup Herr. unfold findIP. rewrite Hit.
  apply N.eqb_neq in Hup. cbn -[N.land N.eqb]. rewrite Hup, Herr. reflexivity.
Qed.

Lemma findIP_list (it : net.Interface) (addrs : list net.Addr) :
  InterfaceByName name = Ok it ->
  N.land (net.Flags it) net.FlagUp <> 0%N ->
  Interface_Addrs it = Ok addrs ->
  findIP name = (Returned (findIP_loop addrs), [EvInterfaceByName name; EvAddrs it]).
Proof.
  intros Hit Hup Haddrs. unfold findIP. rewrite Hit.
  apply N.eqb_neq in Hup. cbn -[N.land N.eqb]. rewrite Hup, Haddrs. reflexivity.
Qed.

End FindIP.

Lemma findIP_loop_first (skipped rest : list net.Addr) (ip : net.IP) (mask : list byte)
    (ip4 : net.IPv4) :
  Forall no_IPv4 skipped ->
  net.To4 ip = Some ip4 ->
  findIP_loop (skipped ++ net.IPNet ip mask :: rest) = net.IPv4_String ip4.
Proof.
  intros Hskip Hip. induction Hskip as [|a skipped Ha _ IH]; cbn [app findIP_loop].
  - now rewrite Hip.
  - destruct a as [ip' mask' | |]; [|exact IH..].
    cbn in Ha. now rewrite Ha.
Qed.

Lemma findIP_loop_none (addrs : list net.Addr) :
  Forall no_IPv4 addrs -> findIP_loop addrs = EmptyString.
Proof.
  induction 1 as [|a addrs Ha _ IH]; cbn [findIP_loop]; [reflexivity|].
  destruct a as [ip mask | |]; [|exact IH..].
  cbn in Ha. now rewrite Ha.
Qed.

(** Closes a goal from the membership [Hin] of an event in a list of events
    of other kinds. *)
Ltac absent Hin :=
  cbn in Hin; repeat (destruct Hin as [Hin | Hin]; [discriminate Hin|]); contradiction.

(** [findIP] never opens a listener. *)
Lemma findIP_not_listening `{Platform} (name : string) : ~ listening (events (findIP name)).
Proof.
  intros [addr Hin].
  destruct (InterfaceByName name) as [it | err] eqn:Hit.
  - destruct (N.eq_dec (N.land (net.Flags it) net.FlagUp) 0%N) as [Hdown | Hup].
    + rewrite (findIP_down name it Hit Hdown) in Hin. absent Hin.
    + destruct (Interface_Addrs it) as [addrs | err] eqn:Haddrs.
      * rewrite (findIP_list name it addrs Hit Hup Haddrs) in Hin. absent Hin.
      * rewrite (findIP_no_list name it err Hit Hup Haddrs) in Hin. absent Hin.
  - rewrite (findIP_unknown name err Hit) in Hin. absent Hin.
Qed.

(** [main] once the port and the interface name have passed validation. *)
Lemma main_without_address `{Platform} (args : CommandLine) :
  port args <> 0%N -> (port args <= 65535)%N -> itf args <> EmptyString ->
  outcome (findIP (itf args)) = Returned EmptyString ->
  main args =
    (Exited 1,
     events (findIP (itf args))
     ++ [EvStderr ("ERROR: Cannot find IPv4 address of " +:+ itf args +:+ GoString.newline)]).
Proof.
  intros Hnz Hmax Hitf Hnone. unfold main.
  apply N.eqb_neq in Hnz. apply N.ltb_ge in Hmax. rewrite Hnz, Hmax.
  assert (Hlen : Nat.eqb (GoString.len (itf args)) 0 = false)
    by (destruct (itf args); [congruence | reflexivity]).
  rewrite Hlen. cbn [orb]. rewrite !bind_ret_l.
  rewrite (bind_events _ _ EmptyString Hnone). reflexivity.
Qed.

Lemma main_findIP_exited `{Platform} (args : CommandLine) (code : Z) :
  port args <> 0%N -> (port args <= 65535)%N -> itf args <> EmptyString ->
  outcome (findIP (itf args)) = Exited code ->
  main args = (Exited code, events (findIP (itf args))).
Proof.
  intros Hnz Hmax Hitf Hexit. unfold main.
  apply N.eqb_neq in Hnz. apply N.ltb_ge in Hmax. rewrite Hnz, Hmax.
  assert (Hlen : Nat.eqb (GoString.len (itf args)) 0 = false)
    by (destruct (itf args); [congruence | reflexivity]).
  rewrite Hlen. cbn [orb]. rewrite !bind_ret_l.
  now rewrite (bind_exited _ _ code Hexit).
Qed.

(** [gnuflag.Parse] either sets the three variables and does nothing
    else, or writes its message to the error stream and exits with
    code 2. *)
Lemma gnuflag_Parse_cases `{FlagLibrary}
    (flags : list (string * option string)) (vars : CommandLine) :
  (exists args, gnuflag_Parse flags vars = (Returned args, []))
  \/ (exists line, gnuflag_Parse flags vars = (Exited 2, [EvStderr line])).
Proof.
  revert vars. induction flags as [|[name [value|]] rest IH]; intros vars.
  - left. now exists vars.
  - cbn [gnuflag_Parse].
    destruct ((name =? "interface") || (name =? "i")); [apply IH|].
    destruct ((name =? "port") || (name =? "p")).
    { destruct (uint_Set value) as [n | err]; [apply IH|].
      right. eexists. reflexivity. }
    destruct ((name =? "directory") || (name =? "d")); [apply IH|].
    right. eexists. reflexivity.
  - right. eexists. reflexivity.
Qed.

(** After a command line that [gnuflag.Parse] accepts the program is
    [main] on the variables. *)
Lemma main_with_flags_parsed `{FlagLibrary} `{Platform}
    (flags : list (string * option string)) (args : CommandLine) :
  outcome (gnuflag_Parse flags flagDefaults) = Returned args ->
  main_with_flags flags = main args.
Proof.
  intros Hparse. unfold main_with_flags.
  destruct (gnuflag_Parse_cases flags flagDefaults) as [(args' & Hrun) | (line & Hrun)];
    rewrite Hrun in Hparse |- *; cbn in Hparse; [|discriminate Hparse].
  injection Hparse as ->. apply bind_ret_l.
Qed.

(** On a command line that [gnuflag.Parse] rejects the program is over
    with gnuflag's message and exit code 2. *)
Lemma main_with_flags_rejected `{FlagLibrary} `{Platform}
    (flags : list (string * option string)) (code : Z) :
  outcome (gnuflag_Parse flags flagDefaults) = Exited code ->
  code = 2%Z
  /\ exists line,
       gnuflag_Parse flags flagDefaults = (Exited 2, [EvStderr line])
       /\ main_with_flags flags = (Exited 2, [EvStderr line]).
Proof.
  intros Hparse. unfold main_with_flags.
  destruct (gnuflag_Parse_cases flags flagDefaults) as [(args' & Hrun) | (line & Hrun)];
    rewrite Hrun in Hparse |- *; cbn in Hparse; [discriminate Hparse|].
  injection Hparse as <-. split; [reflexivity|]. exists line. split; reflexivity.
Qed.

(** C5 (counterexample): the command line [-i lo -p 18446744073709551616]
    gives a port value above 65535, and the process exits with code 2, not
    1: the text does not convert to a 64-bit value, gnuflag writes its
    message for the flag, and [main]'s port check is not reached. *)
Lemma port_beyond_64_bits_exits_with_2 :
  NilEmpty.uint_of_string "18446744073709551616" = Some (N.to_uint (2 ^ 64))
  /\ (65535 < 2 ^ 64)%N
  /\ uint_Set (FlagLibrary := gnuflagLibrary) "18446744073709551616" = Err strconv.ErrRange
  /\ main_with_flags (H := gnuflagLibrary) (H0 := loopbackHost) port2to64 =
       (Exited 2,
        [EvStderr (failure_text (FlagLibrary := gnuflagLibrary)
                     "p" (Some "18446744073709551616") (Some strconv.ErrRange))])
  /\ outcome (main_with_flags (H := gnuflagLibrary) (H0 := loopbackHost) port2to64)
     <> Exited 1.
Proof.
  split; [vm_compute; reflexivity|].
  split; [reflexivity|].
  split; [vm_compute; reflexivity|].
  split; [vm_compute; reflexivity|].
  vm_compute. discriminate.
Qed.

(** C5: on every command line that [gnuflag.Parse] accepts and that leaves
    the port at 0 or above 65535, the program writes the line
    [ERROR: Invalid port number: <port>] to the error stream and exits with
    code 1; it does nothing else, whatever the interface and the directory
    are: no interface is looked up and no listener is opened. A command
    line that [gnuflag.Parse] rejects (a flag that is not registered, a
    flag without value, a port text that does not convert) ends the
    process in [Parse] with gnuflag's message on the error stream and exit
    code 2, before the port check, without an interface lookup or a
    listener. *)
Theorem parsed_invalid_port_exits_before_resolution `{FlagLibrary} `{Platform}
    (flags : list (string * option string)) :
  (forall args,
     outcome (gnuflag_Parse flags flagDefaults) = Returned args ->
     port args = 0%N \/ (65535 < port args)%N ->
     main_with_flags flags =
       (Exited 1,
        [EvStderr ("ERROR: Invalid port number: " +:+ uintToString (port args)
                   +:+ GoString.newline)])
     /\ ~ resolving (events (main_with_flags flags))
     /\ ~ listening (events (main_with_flags flags)))
  /\ (forall code,
        outcome (gnuflag_Parse flags flagDefaults) = Exited code ->
        code = 2%Z
        /\ (exists line, main_with_flags flags = (Exited 2, [EvStderr line]))
        /\ ~ resolving (events (main_with_flags flags))
        /\ ~ listening (events (main_with_flags flags))).
Proof.
  split.
  - intros args Hparse Hport.
    rewrite (main_with_flags_parsed flags args Hparse).
    assert (Hmain : main args =
      (Exited 1,
       [EvStderr ("ERROR: Invalid port number: " +:+ uintToString (port args)
                  +:+ GoString.newline)])).
    { unfold main.
      assert (Hbad : (port args =? 0)%N || (65535 <? port args)%N = true).
      { destruct Hport as [-> | Hbig]; [reflexivity|].
        apply N.ltb_lt in Hbig. rewrite Hbig. apply orb_true_r. }
      rewrite Hbad. reflexivity. }
    rewrite Hmain. split; [reflexivity|].
    split; intros [x Hin]; absent Hin.
  - intros code Hparse.
    destruct (main_with_flags_rejected flags code Hparse) as (-> & line & _ & Hrun).
    split; [reflexivity|]. rewrite Hrun.
    split; [now exists line|].
    split; intros [x Hin]; absent Hin.
Qed.

(** C5 (witness): [-i eth7 -p 65536 -d /nowhere], on an interface that
    does not exist. *)
Lemma parsed_invalid_port_exits_before_resolution_witness :
  outcome (gnuflag_Parse (H := gnuflagLibrary) port65536 flagDefaults) =
    Returned {| itf := "eth7"; port := 65536; dir := "/nowhere" |}
  /\ main_with_flags (H := gnuflagLibrary) (H0 := loopbackHost) port65536 =
       (Exited 1, [EvStderr ("ERROR: Invalid port number: 65536" +:+ GoString.newline)]).
Proof.
  split; [vm_compute; reflexivity|].
  refine (proj1 (proj1 (parsed_invalid_port_exits_before_resolution
                          (H := gnuflagLibrary) (H0 := loopbackHost) port65536)
                   {| itf := "eth7"; port := 65536; dir := "/nowhere" |} _ _)).
  - vm_compute. reflexivity.
  - right. reflexivity.
Defined.

(** C6: [findIP] exits with code 1 when the interface is unknown, when it
    is not up, and when its addresses cannot be listed. Otherwise it returns
    the dotted form of the first address in the list that is an IP network
    with a 4-byte form, passing over the entries before it, and the empty
    string when the list has no such address; on the empty string [main]
    exits with code 1 without opening a listener, as it does when [findIP]
    has exited. *)
Theorem findIP_first_IPv4_or_exit `{Platform} (args : CommandLine) :
  (forall err, InterfaceByName (itf args) = Err err ->
     outcome (findIP (itf args)) = Exited 1)
  /\ (forall it, InterfaceByName (itf args) = Ok it ->
        N.land (net.Flags it) net.FlagUp = 0%N ->
        outcome (findIP (itf args)) = Exited 1)
  /\ (forall it err, InterfaceByName (itf args) = Ok it ->
        N.land (net.Flags it) net.FlagUp <> 0%N ->
        Interface_Addrs it = Err err ->
        outcome (findIP (itf args)) = Exited 1)
  /\ (forall it addrs, InterfaceByName (itf args) = Ok it ->
        N.land (net.Flags it) net.FlagUp <> 0%N ->
        Interface_Addrs it = Ok addrs ->
        (forall skipped ip mask rest ip4,
           addrs = skipped ++ net.IPNet ip mask :: rest ->
           Forall no_IPv4 skipped ->
           net.To4 ip = Some ip4 ->
           outcome (findIP (itf args)) = Returned (net.IPv4_String ip4))
        /\ (Forall no_IPv4 addrs ->
            outcome (findIP (itf args)) = Returned EmptyString))
  /\ (port args <> 0%N -> (port args <= 65535)%N -> itf args <> EmptyString ->
      outcome (findIP (itf args)) = Returned EmptyString ->
      outcome (main args) = Exited 1
      /\ last (events (main args)) =
           Some (EvStderr ("ERROR: Cannot find IPv4 address of " +:+ itf args
                           +:+ GoString.newline))
      /\ ~ listening (events (main args)))
  /\ (forall code,
        port args <> 0%N -> (port args <= 65535)%N -> itf args <> EmptyString ->
        outcome (findIP (itf args)) = Exited code ->
        outcome (main args) = Exited code /\ ~ listening (events (main args))).
Proof.
  split; [|split; [|split; [|split; [|split]]]].
  - intros err Herr. now rewrite (findIP_unknown _ err Herr).
  - intros it Hit Hdown. now rewrite (findIP_down _ it Hit Hdown).
  - intros it err Hit Hup Herr. now rewrite (findIP_no_list _ it err Hit Hup Herr).
  - intros it addrs Hit Hup Haddrs.
    rewrite (findIP_list _ it addrs Hit Hup Haddrs). cbn [outcome fst]. split.
    + intros skipped ip mask rest ip4 -> Hskip Hip. f_equal.
      now apply findIP_loop_first.
    + intros Hnone. f_equal. now apply findIP_loop_none.
  - intros Hnz Hmax Hitf Hnone.
    rewrite (main_without_address args Hnz Hmax Hitf Hnone). cbn [outcome events fst snd].
    split; [reflexivity|]. split; [apply last_snoc|].
    intros [addr Hin]. apply in_app_or in Hin as [Hin | Hin].
    + apply (findIP_not_listening (itf args)). now exists addr.
    + absent Hin.
  - intros code Hnz Hmax Hitf Hexit.
    rewrite (main_findIP_exited args code Hnz Hmax Hitf Hexit). cbn [outcome events fst snd].
    split; [reflexivity | apply findIP_not_listening].
Qed.

(** C6 (witness): on the loopback host, [lo] lists the IPv6 address [::1]
    first and [127.0.0.1] second; [findIP] passes over the first. *)
Lemma findIP_first_IPv4_or_exit_witness :
  outcome (findIP (H := loopbackHost) "lo") = Returned "127.0.0.1"
  /\ outcome (findIP (H := loopbackHost) "eth7") = Exited 1.
Proof.
  pose proof (findIP_first_IPv4_or_exit (H := loopbackHost)
                {| itf := "lo"; port := 8080; dir := "." |}) as (_ & _ & _ & Hlo & _).
  pose proof (findIP_first_IPv4_or_exit (H := loopbackHost)
                {| itf := "eth7"; port := 8080; dir := "." |}) as (Hunknown & _).
  split.
  - refine (proj1 (Hlo lo _ eq_refl _ eq_refl)
              [net.IPNet [x00; x00; x00; x00; x00; x00; x00; x00;
                          x00; x00; x00; x00; x00; x00; x00; x01] (repeat xff 16)]
              [x7f; x00; x00; x01] [xff; x00; x00; x00] []
              {| net.b0 := x7f; net.b1 := x00; net.b2 := x00; net.b3 := x01 |}
              eq_refl _ eq_refl).
    + discriminate.
    + repeat constructor.
  - exact (Hunknown _ eq_refl).
Defined.

(** ** [ServeContent] *)

Module fsFacts.

Import fs.

Lemma setLastModified_unwritten `{Platform} (w : ResponseWriter) (modtime : Time) :
  wroteHeader (setLastModified w modtime) = wroteHeader w.
Proof. unfold setLastModified. now destruct (isZeroTime modtime). Qed.

Lemma setLastModified_body `{Platform} (w : ResponseWriter) (modtime : Time) :
  body (setLastModified w modtime) = body w.
Proof. unfold setLastModified. now destruct (isZeroTime modtime). Qed.

Lemma setLastModified_lookup `{Platform} (w : ResponseWriter) (modtime : Time) (key : string) :
  key <> "Last-Modified" ->
  header (setLastModified w modtime) !! key = header w !! key.
Proof.
  intros Hkey. unfold setLastModified. destruct (isZeroTime modtime); [reflexivity|].
  unfold SetHeader, Header_Set. cbn. by simplify_map_eq.
Qed.

Lemma setLastModified_value `{Platform} (w : ResponseWriter) (modtime : Time) :
  isZeroTime modtime = false ->
  header (setLastModified w modtime) !! "Last-Modified" = Some [FormatTime modtime].
Proof.
  intros Hnz. unfold setLastModified. rewrite Hnz.
  unfold SetHeader, Header_Set. cbn. by simplify_map_eq.
Qed.

(** Without conditional headers and without a Range header, the
    preconditions hold and no range is asked for. *)
Lemma checkPreconditions_unconditional `{Platform}
    (w : ResponseWriter) (req : Request) (modtime : Time) :
  unconditional req -> checkPreconditions w req modtime = (false, EmptyString, w).
Proof.
  intros (Him & Hius & Hinm & Hims & Hrange).
  unfold checkPreconditions, checkIfMatch, checkIfUnmodifiedSince, checkIfNoneMatch,
    checkIfModifiedSince.
  rewrite Him, Hius, Hinm, Hims, Hrange. cbn.
  now destruct (negb (Method req =? "GET") && negb (Method req =? "HEAD")).
Qed.

(** The whole content with status 200. *)
Lemma ServeContent_unconditional `{Platform} (w : ResponseWriter) (req : Request)
    (name : string) (modtime : Time) (content : string) (ctype : list string) :
  wroteHeader w = None ->
  header w !! "Content-Type" = Some ctype ->
  header w !! "Content-Encoding" = None ->
  unconditional req ->
  ServeContent w req name modtime content =
    let h := <["Content-Length" := [FormatSize (String.length content)]]>
               (<["Accept-Ranges" := ["bytes"]]> (header (setLastModified w modtime))) in
    {| header := h;
       wroteHeader := Some (StatusOK, h);
       body := if Method req =? "HEAD" then body w else body w +:+ content |}.
Proof.
  intros Hw Hct Hce Hreq. unfold ServeContent.
  rewrite (checkPreconditions_unconditional _ req modtime Hreq).
  rewrite (setLastModified_lookup w modtime "Content-Type"), Hct by discriminate.
  cbn [String.eqb]. cbv zeta.
  assert (Hget : Header_Get (header (SetHeader (setLastModified w modtime)
                                       "Accept-Ranges" "bytes")) "Content-Encoding"
                 = EmptyString).
  { unfold Header_Get, SetHeader, Header_Set. cbn.
    rewrite lookup_insert_ne by discriminate.
    rewrite (setLastModified_lookup w modtime "Content-Encoding"), Hce by discriminate.
    reflexivity. }
  rewrite Hget. cbn [String.eqb].
  unfold WriteHeader, Write, SetHeader. cbn.
  rewrite setLastModified_unwritten, Hw. cbn.
  rewrite setLastModified_body.
  destruct (Method req =? "HEAD"); reflexivity.
Qed.

(** A GET or HEAD whose If-Modified-Since date is not before the
    modification time (to the second) is answered 304, without the
    content and without a Content-Type. *)
Lemma ServeContent_not_modified `{Platform} (w : ResponseWriter) (req : Request)
    (name : string) (modtime t : Time) (content : string) :
  wroteHeader w = None ->
  header w !! "Etag" = None ->
  Method req = "GET" \/ Method req = "HEAD" ->
  Header_Get (ReqHeader req) "If-Match" = EmptyString ->
  Header_Get (ReqHeader req) "If-Unmodified-Since" = EmptyString ->
  Header_Get (ReqHeader req) "If-None-Match" = EmptyString ->
  Header_Get (ReqHeader req) "If-Modified-Since" <> EmptyString ->
  ParseTime (Header_Get (ReqHeader req) "If-Modified-Since") = Some t ->
  isZeroTime modtime = false ->
  (modtime < t + second)%Z ->
  let h := delete "Content-Length" (delete "Content-Type"
             (header (setLastModified w modtime))) in
  ServeContent w req name modtime content =
    {| header := h; wroteHeader := Some (StatusNotModified, h); body := body w |}.
Proof.
  intros Hw Hetag Hmethod Him Hius Hinm Hims Ht Hnz Hlt h. unfold ServeContent.
  assert (Hpre : checkPreconditions (setLastModified w modtime) req modtime =
                 (true, EmptyString, writeNotModified (setLastModified w modtime))).
  { unfold checkPreconditions, checkIfMatch, checkIfUnmodifiedSince, checkIfNoneMatch,
      checkIfModifiedSince.
    rewrite Him, Hius, Hinm, Ht, Hnz. cbn.
    apply String.eqb_neq in Hims. rewrite Hims.
    apply Z.ltb_lt in Hlt. rewrite Hlt.
    now destruct Hmethod as [-> | ->]. }
  rewrite Hpre. unfold writeNotModified.
  assert (Hnotag : Header_Get (header (DelHeader (DelHeader (setLastModified w modtime)
                     "Content-Type") "Content-Length")) "Etag" = EmptyString).
  { unfold Header_Get, DelHeader, Header_Del. cbn.
    rewrite !lookup_delete_ne by discriminate.
    rewrite (setLastModified_lookup w modtime "Etag"), Hetag by discriminate.
    reflexivity. }
  rewrite Hnotag. cbn [String.eqb negb].
  unfold WriteHeader, DelHeader, Header_Del. cbn.
  rewrite setLastModified_unwritten, Hw, setLastModified_body. reflexivity.
Qed.

End fsFacts.

(** The loops of [checkIfMatch] and [checkIfNoneMatch] run to their end:
    every turn that continues leaves a shorter string, so the number of
    turns they are given is never used up. *)

Module fsLoops.

Import fs.

Lemma len_substring_le (n m : nat) (s : string) : String.length (substring n m s) <= m.
Proof.
  revert n m; induction s as [|c s IH]; intros [|n] [|m]; simpl; try lia.
  - specialize (IH 0 m). lia.
  - apply IH.
  - apply IH.
Qed.

Lemma len_trim_left (s : string) :
  String.length (GoString.trim_left s) <= String.length s.
Proof.
  induction s as [|c s IH]; simpl; [lia|].
  destruct (GoString.isASCIISpace c); simpl; lia.
Qed.

Lemma len_trim_right (s : string) :
  String.length (GoString.trim_right s) <= String.length s.
Proof.
  induction s as [|c s IH]; simpl; [lia|].
  destruct (GoString.trim_right s); [destruct (GoString.isASCIISpace c)|]; simpl in *; lia.
Qed.

Lemma len_TrimString (s : string) :
  String.length (GoString.TrimString s) <= String.length s.
Proof.
  unfold GoString.TrimString.
  pose proof (len_trim_right (GoString.trim_left s)). pose proof (len_trim_left s). lia.
Qed.

(** What [scanETag] leaves after a tag is shorter than what it was given. *)
Lemma scanETag_remain (s tag remain : string) :
  scanETag s = (tag, remain) -> tag <> EmptyString ->
  String.length remain < String.length s.
Proof.
  unfold scanETag. pose proof (len_TrimString s) as Htrim.
  set (s' := GoString.TrimString s) in *.
  set (start := if GoString.HasPrefix s' "W/" then 2 else 0).
  repeat case_match; intros [= <- <-] Htag; try congruence.
  unfold GoString.slice_from, GoString.slice_to in *.
  destruct s' as [|c rest] eqn:Hs'; [now destruct start|].
  match goal with |- String.length (substring ?n ?m _) < _ =>
    pose proof (len_substring_le n m (String c rest)) end.
  simpl in *. lia.
Qed.

Lemma ifMatch_loop_turns (etag : string) (t1 t2 : nat) (im : string) :
  String.length im < t1 -> String.length im < t2 ->
  ifMatch_loop t1 etag im = ifMatch_loop t2 etag im.
Proof.
  revert t2 im; induction t1 as [|t1 IH]; intros [|t2] im H1 H2; try lia.
  cbn [ifMatch_loop].
  pose proof (len_TrimString im) as Htrim.
  destruct (GoString.TrimString im) as [|c rest] eqn:Him; [reflexivity|].
  simpl in Htrim.
  destruct (c =? ",")%char; [apply IH; lia|].
  destruct (c =? "*")%char; [reflexivity|].
  destruct (scanETag (String c rest)) as [tag remain] eqn:Hscan.
  destruct (String.eqb_spec tag EmptyString) as [|Htag]; [reflexivity|].
  destruct (etagStrongMatch tag etag); [reflexivity|].
  pose proof (scanETag_remain _ _ _ Hscan Htag) as Hrem. simpl in Hrem.
  apply IH; lia.
Qed.

Lemma ifNoneMatch_loop_turns (etag : string) (t1 t2 : nat) (buf : string) :
  String.length buf < t1 -> String.length buf < t2 ->
  ifNoneMatch_loop t1 etag buf = ifNoneMatch_loop t2 etag buf.
Proof.
  revert t2 buf; induction t1 as [|t1 IH]; intros [|t2] buf H1 H2; try lia.
  cbn [ifNoneMatch_loop].
  pose proof (len_TrimString buf) as Htrim.
  destruct (GoString.TrimString buf) as [|c rest] eqn:Hbuf; [reflexivity|].
  simpl in Htrim.
  destruct (c =? ",")%char; [apply IH; lia|].
  destruct (c =? "*")%char; [reflexivity|].
  destruct (scanETag (String c rest)) as [tag remain] eqn:Hscan.
  destruct (String.eqb_spec tag EmptyString) as [|Htag]; [reflexivity|].
  destruct (etagWeakMatch tag etag); [reflexivity|].
  pose proof (scanETag_remain _ _ _ Hscan Htag) as Hrem. simpl in Hrem.
  apply IH; lia.
Qed.

(** More turns than [checkIfMatch] and [checkIfNoneMatch] give change
    nothing. *)
Lemma ifMatch_loop_enough (etag : string) (turns : nat) (im : string) :
  String.length im < turns ->
  ifMatch_loop turns etag im = ifMatch_loop (S (String.length im)) etag im.
Proof. intros Hlen. apply ifMatch_loop_turns; lia. Qed.

Lemma ifNoneMatch_loop_enough (etag : string) (turns : nat) (buf : string) :
  String.length buf < turns ->
  ifNoneMatch_loop turns etag buf = ifNoneMatch_loop (S (String.length buf)) etag buf.
Proof. intros Hlen. apply ifNoneMatch_loop_turns; lia. Qed.

End fsLoops.

(** ** The icon *)

(** C1 (counterexample): the loopback host sends the icon with
    Last-Modified [startDate], the date of its start; a client that asks
    again with that date in If-Modified-Since receives 304 Not Modified,
    without a Content-Type, not 200. *)
Lemma favicon_revalidation_is_304 :
  url.QueryUnescape
    (RequestURI (GET "/favicon.ico" {["If-Modified-Since" := [startDate]]}))
    = Ok "/favicon.ico"
  /\ FormatTime (Platform := loopbackHost) (faviconTS (H := loopbackHost)) = startDate
  /\ exists w,
       outcome (handler (H := loopbackHost) "/srv" newResponseWriter
                  (GET "/favicon.ico" {["If-Modified-Since" := [startDate]]})) = Returned w
       /\ status w = Some 304%Z
       /\ status w <> Some 200%Z
       /\ sent w "Content-Type" = None.
Proof.
  split; [vm_compute; reflexivity|].
  split; [vm_compute; reflexivity|].
  eexists. split; [vm_compute; reflexivity|].
  split; [reflexivity | split; [discriminate | reflexivity]].
Qed.

(** C1 (amended): for a request whose URI unescapes to [/favicon.ico] the
    handler sets Content-Type to [image/x-icon] and hands the embedded icon,
    with the process-start time [faviconTS], to [ServeContent]; it does not
    call the file server, and the reply is the same for every root
    directory and for every content of the file system. Two replies are
    settled.
    - When the headers If-Match, If-Unmodified-Since, If-None-Match,
      If-Modified-Since and Range are all absent or empty, the reply is 200
      with Content-Type [image/x-icon], with the icon as its body unless
      the method is HEAD, and with Last-Modified [faviconTS] when
      [faviconTS] is not the zero time.
    - When the method is GET or HEAD, the headers If-Match,
      If-Unmodified-Since and If-None-Match are absent or empty,
      If-Modified-Since holds a date that [http.ParseTime] reads as [t]
      with [faviconTS] less than one second after [t], and [faviconTS] is
      not the zero time, the reply is 304 with an empty body.
    Nothing is stated for requests with other conditional headers or with
    a Range header. *)
Theorem favicon_served_from_memory `{P : Platform} (root : string) (req : Request) :
  url.QueryUnescape (RequestURI req) = Ok "/favicon.ico" ->
  (exists line,
     events (handler root newResponseWriter req) =
       [EvSetHeader "Server" "web-share";
        EvPrintln line;
        EvSetHeader "Content-Type" "image/x-icon";
        EvServeContent (with_icon_type newResponseWriter) req (URL_Path req) faviconTS icon])
  /\ outcome (handler root newResponseWriter req) =
       Returned (fs.ServeContent (with_icon_type newResponseWriter) req (URL_Path req)
                   faviconTS icon)
  /\ (forall root' server stat abs,
        handler (H := with_files P server stat abs) root' newResponseWriter req =
        handler root newResponseWriter req)
  /\ (unconditional req ->
      exists w,
        outcome (handler root newResponseWriter req) = Returned w
        /\ status w = Some 200%Z
        /\ sent w "Content-Type" = Some ["image/x-icon"]
        /\ (fs.isZeroTime faviconTS = false ->
            sent w "Last-Modified" = Some [FormatTime faviconTS])
        /\ (Method req <> "HEAD" -> body w = string_of_list_byte favicon))
  /\ (forall t,
        Method req = "GET" \/ Method req = "HEAD" ->
        Header_Get (ReqHeader req) "If-Match" = EmptyString ->
        Header_Get (ReqHeader req) "If-Unmodified-Since" = EmptyString ->
        Header_Get (ReqHeader req) "If-None-Match" = EmptyString ->
        Header_Get (ReqHeader req) "If-Modified-Since" <> EmptyString ->
        ParseTime (Header_Get (ReqHeader req) "If-Modified-Since") = Some t ->
        fs.isZeroTime faviconTS = false ->
        (faviconTS < t + fs.second)%Z ->
        exists w,
          outcome (handler root newResponseWriter req) = Returned w
          /\ status w = Some 304%Z
          /\ body w = EmptyString).
Proof.
  intros Huri.
  destruct (handler_favicon root newResponseWriter req Huri) as (line & Hrun).
  destruct (httpFacts.with_icon_type_lookup newResponseWriter) as (_ & Hct & Hw).
  split; [exists line; now rewrite Hrun|].
  split; [now rewrite Hrun|].
  split.
  { intros root' server stat abs.
    destruct (handler_favicon (H := with_files P server stat abs)
                root' newResponseWriter req Huri) as (line' & Hrun').
    unfold handler in *. rewrite Huri in *. cbv zeta in *.
    destruct (Nat.ltb 0 _ && negb _); reflexivity. }
  split.
  - intros Hreq. eexists. rewrite Hrun. split; [reflexivity|].
    rewrite (fsFacts.ServeContent_unconditional _ req _ _ _ ["image/x-icon"]);
      [|exact Hw | exact Hct | reflexivity | exact Hreq].
    unfold status, sent. cbn [wroteHeader fmap option_fmap option_map fst body].
    split; [reflexivity|]. split; [|split].
    + rewrite !lookup_insert_ne by discriminate.
      rewrite fsFacts.setLastModified_lookup by discriminate. exact Hct.
    + intros Hnz. rewrite !lookup_insert_ne by discriminate.
      now apply fsFacts.setLastModified_value.
    + intros Hhead. apply String.eqb_neq in Hhead. now rewrite Hhead.
  - intros t Hmethod Him Hius Hinm Hims Ht Hnz Hlt. eexists. rewrite Hrun.
    split; [reflexivity|].
    rewrite (fsFacts.ServeContent_not_modified _ req _ _ t);
      [split; reflexivity | exact Hw | reflexivity | assumption..].
Qed.

(** C1 (witness): on the loopback host, a plain GET of [/favicon.ico] is
    answered 200, and a GET that carries the start date in
    If-Modified-Since is answered 304. *)
Lemma favicon_served_from_memory_witness :
  url.QueryUnescape (RequestURI (GET "/favicon.ico" ∅)) = Ok "/favicon.ico"
  /\ unconditional (GET "/favicon.ico" ∅)
  /\ (exists w,
        outcome (handler (H := loopbackHost) "/srv" newResponseWriter (GET "/favicon.ico" ∅))
          = Returned w
        /\ status w = Some 200%Z
        /\ sent w "Content-Type" = Some ["image/x-icon"])
  /\ (exists w,
        outcome (handler (H := loopbackHost) "/srv" newResponseWriter
                   (GET "/favicon.ico" {["If-Modified-Since" := [startDate]]})) = Returned w
        /\ status w = Some 304%Z).
Proof.
  assert (Huri : url.QueryUnescape (RequestURI (GET "/favicon.ico" ∅)) = Ok "/favicon.ico")
    by (vm_compute; reflexivity).
  assert (Hreq : unconditional (GET "/favicon.ico" ∅)) by (repeat split).
  split; [exact Huri | split; [exact Hreq | split]].
  - destruct (favicon_served_from_memory (P := loopbackHost) "/srv" (GET "/favicon.ico" ∅) Huri)
      as (_ & _ & _ & Hplain & _).
    destruct (Hplain Hreq) as (w & Hout & Hstatus & Hct & _).
    exists w. split; [exact Hout | split; [exact Hstatus | exact Hct]].
  - destruct (favicon_served_from_memory (P := loopbackHost) "/srv"
                (GET "/favicon.ico" {["If-Modified-Since" := [startDate]]}))
      as (_ & _ & _ & _ & Hcond); [vm_compute; reflexivity|].
    destruct (Hcond (1700000000 * fs.second)%Z) as (w & Hout & Hstatus & _).
    + left; reflexivity.
    + vm_compute; reflexivity.
    + vm_compute; reflexivity.
    + vm_compute; reflexivity.
    + vm_compute; discriminate.
    + vm_compute; reflexivity.
    + vm_compute; reflexivity.
    + vm_compute; reflexivity.
    + exists w. split; [exact Hout | exact Hstatus].
Defined.

(** ** The Server header *)

Module fsFrame.

Import fs.

(** The three ways [checkPreconditions] ends. *)
Lemma checkPreconditions_cases `{Platform} (w : ResponseWriter) (req : Request) (modtime : Time) :
  checkPreconditions w req modtime = (true, EmptyString, WriteHeader w StatusPreconditionFailed)
  \/ checkPreconditions w req modtime = (true, EmptyString, writeNotModified w)
  \/ exists rangeReq,
       checkPreconditions w req modtime = (false, rangeReq, w)
       /\ (rangeReq = EmptyString \/ rangeReq = Header_Get (ReqHeader req) "Range").
Proof.
  unfold checkPreconditions.
  repeat case_match; auto; right; right; eexists; split; eauto.
Qed.

Lemma writeNotModified_sent (w : ResponseWriter) (key : string) :
  wroteHeader w = None ->
  key <> "Content-Type" -> key <> "Content-Length" -> key <> "Last-Modified" ->
  sent (writeNotModified w) key = header w !! key.
Proof.
  intros Hw Hct Hcl Hlm. unfold writeNotModified, sent, WriteHeader.
  destruct (negb _); cbn; rewrite Hw; cbn; unfold Header_Del;
    rewrite ?lookup_delete_ne by congruence; reflexivity.
Qed.

(** Without a Range header [ServeContent] writes the header itself, and
    sends the headers it has no business with as it found them. *)
Lemma ServeContent_sent `{Platform} (w : ResponseWriter) (req : Request)
    (name : string) (modtime : Time) (content : string) (key : string) :
  wroteHeader w = None ->
  Header_Get (ReqHeader req) "Range" = EmptyString ->
  key <> "Last-Modified" -> key <> "Content-Type" ->
  key <> "Content-Length" -> key <> "Accept-Ranges" ->
  sent (ServeContent w req name modtime content) key = header w !! key.
Proof.
  intros Hw Hrange Hlm Hct Hcl Har. unfold ServeContent.
  pose proof (fsFacts.setLastModified_unwritten w modtime) as Hw'. rewrite Hw in Hw'.
  pose proof (fsFacts.setLastModified_lookup w modtime key Hlm) as Hkey.
  destruct (checkPreconditions_cases (setLastModified w modtime) req modtime)
    as [-> | [-> | (rangeReq & -> & Hreq)]].
  - unfold sent, WriteHeader. rewrite Hw'. exact Hkey.
  - rewrite writeNotModified_sent by assumption. exact Hkey.
  - assert (rangeReq = EmptyString) as -> by (destruct Hreq; congruence).
    cbn [String.eqb].
    set (w1 := match header (setLastModified w modtime) !! "Content-Type" with
               | Some _ => setLastModified w modtime
               | None => SetHeader (setLastModified w modtime) "Content-Type"
                           (sniffContentType name content)
               end).
    assert (Hw1 : wroteHeader w1 = None /\ header w1 !! key = header w !! key).
    { unfold w1. destruct (header (setLastModified w modtime) !! "Content-Type");
        (split; [exact Hw'|]); [exact Hkey|].
      unfold SetHeader, Header_Set. cbn. now rewrite lookup_insert_ne by congruence. }
    destruct Hw1 as [Hw1 Hkey1]. cbv zeta.
    set (w2 := if Header_Get _ "Content-Encoding" =? EmptyString then _ else _).
    assert (Hw2 : wroteHeader w2 = None /\ header w2 !! key = header w !! key).
    { unfold w2. destruct (Header_Get _ "Content-Encoding" =? EmptyString);
        unfold SetHeader, Header_Set; cbn; (split; [exact Hw1|]);
        rewrite ?lookup_insert_ne by congruence; exact Hkey1. }
    destruct Hw2 as [Hw2 Hkey2].
    unfold sent, Write, WriteHeader.
    destruct (Method req =? "HEAD"); cbn; rewrite Hw2; cbn; rewrite ?Hw2; exact Hkey2.
Qed.

End fsFrame.

(** C7: the first thing the handler does is set Server to [web-share]; it
    does not set that header again, and [http.Error], [ServeContent] and the
    file server each receive the writer with Server set and nothing written
    yet. The 400 reply and the reply [ServeContent] writes for the icon are
    sent with it. *)
Theorem Server_header_on_every_branch `{Platform} (root : string) (req : Request) :
  (exists t,
     events (handler root newResponseWriter req) = EvSetHeader "Server" "web-share" :: t
     /\ (forall e w, In e t -> writer_of e = Some w ->
           header w !! "Server" = Some ["web-share"] /\ wroteHeader w = None)
     /\ (forall k v, In (EvSetHeader k v) t -> k <> "Server"))
  /\ (forall err, url.QueryUnescape (RequestURI req) = Err err ->
        exists w, outcome (handler root newResponseWriter req) = Returned w
                  /\ sent w "Server" = Some ["web-share"])
  /\ (url.QueryUnescape (RequestURI req) = Ok "/favicon.ico" ->
      Header_Get (ReqHeader req) "Range" = EmptyString ->
      exists w, outcome (handler root newResponseWriter req) = Returned w
                /\ sent w "Server" = Some ["web-share"])
  /\ (forall uri, url.QueryUnescape (RequestURI req) = Ok uri -> uri <> "/favicon.ico" ->
        outcome (handler root newResponseWriter req) =
          Returned (FileServer_ServeHTTP root (with_no_cache newResponseWriter) req)
        /\ header (with_no_cache newResponseWriter) !! "Server" = Some ["web-share"]).
Proof.
  destruct (httpFacts.with_icon_type_lookup newResponseWriter) as (Hicon & _ & Hwi).
  destruct (httpFacts.with_no_cache_lookup newResponseWriter) as (Hnc & _ & _ & _ & Hwn).
  pose proof (httpFacts.with_Server_lookup newResponseWriter) as Hsrv.
  split; [|split; [|split]].
  - destruct (url.QueryUnescape (RequestURI req)) as [uri | err] eqn:Huri.
    + destruct (String.eqb_spec uri "/favicon.ico") as [-> | Hne].
      * destruct (handler_favicon root newResponseWriter req Huri) as (line & ->).
        eexists. split; [reflexivity|]. split.
        -- intros e w Hin Hwr. cbn in Hin.
           destruct Hin as [<- | [<- | [<- | []]]]; try discriminate Hwr.
           injection Hwr as <-. now split.
        -- intros k v Hin. cbn in Hin.
           destruct Hin as [Hin | [Hin | [Hin | []]]]; try discriminate Hin.
           injection Hin as <- _. discriminate.
      * destruct (handler_files root newResponseWriter req uri Huri Hne) as (line & ->).
        eexists. split; [reflexivity|]. split.
        -- intros e w Hin Hwr. cbn in Hin.
           destruct Hin as [<- | [<- | [<- | [<- | [<- | []]]]]]; try discriminate Hwr.
           injection Hwr as <-. now split.
        -- intros k v Hin. cbn in Hin.
           destruct Hin as [Hin | [Hin | [Hin | [Hin | [Hin | []]]]]];
             try discriminate Hin; injection Hin as <- _; discriminate.
    + rewrite (handler_invalid root newResponseWriter req err Huri).
      eexists. split; [reflexivity|]. split.
      * intros e w Hin Hwr. cbn in Hin.
        destruct Hin as [<- | [<- | []]]; try discriminate Hwr.
        injection Hwr as <-. now split.
      * intros k v Hin. absent Hin.
  - intros err Herr. rewrite (handler_invalid root newResponseWriter req err Herr).
    eexists. split; [reflexivity|].
    rewrite httpFacts.Error_unwritten by reflexivity.
    unfold sent, Header_Set. cbn. by simplify_map_eq.
  - intros Huri Hrange.
    destruct (handler_favicon root newResponseWriter req Huri) as (line & ->).
    eexists. split; [reflexivity|].
    rewrite fsFrame.ServeContent_sent; [exact Hicon | exact Hwi | exact Hrange | discriminate..].
  - intros uri Huri Hne.
    destruct (handler_files root newResponseWriter req uri Huri Hne) as (line & ->).
    now split.
Qed.

(** C7 (witness): the 400 reply to [GET /%zz] is sent with the Server
    header. *)
Lemma Server_header_on_every_branch_witness :
  url.QueryUnescape (RequestURI (GET "/%zz" ∅)) = Err (EscapeError "%zz")
  /\ exists w,
       outcome (handler (H := loopbackHost) "/srv" newResponseWriter (GET "/%zz" ∅))
         = Returned w
       /\ sent w "Server" = Some ["web-share"].
Proof.
  assert (Herr : url.QueryUnescape (RequestURI (GET "/%zz" ∅)) = Err (EscapeError "%zz"))
    by (vm_compute; reflexivity).
  split; [exact Herr|].
  exact (proj1 (proj2 (Server_header_on_every_branch (H := loopbackHost)
                         "/srv" (GET "/%zz" ∅))) (EscapeError "%zz") Herr).
Defined.

(** * Part III: further properties of the program *)

(** ** [absPath] *)

Section AbsPath.
Context `{Platform}.
Variable dir : string.

Lemma absPath_abs_error (err : error) :
  filepath_Abs dir = Err err ->
  absPath dir =
    (Exited 1,
     [EvAbs dir;
      EvStderr ("ERROR: Cannot build absolute pathname: " +:+ Error_text err
                +:+ GoString.newline)]).
Proof. intros Habs. unfold absPath. rewrite Habs. reflexivity. Qed.

Lemma absPath_stat_error (root : string) (err : error) :
  filepath_Abs dir = Ok root ->
  os_Stat root = Err err ->
  absPath dir =
    (Exited 1,
     [EvAbs dir; EvStat root; EvStderr ("ERROR: " +:+ Error_text err +:+ GoString.newline)]).
Proof. intros Habs Hstat. unfold absPath. rewrite Habs. cbn. rewrite Hstat. reflexivity. Qed.

Lemma absPath_not_directory (root : string) (info : FileInfo) :
  filepath_Abs dir = Ok root ->
  os_Stat root = Ok info ->
  IsDir info = false ->
  absPath dir =
    (Exited 1,
     [EvAbs dir; EvStat root;
      EvStderr ("ERROR: Not a directory: " +:+ root +:+ GoString.newline)]).
Proof.
  intros Habs Hstat Hdir. unfold absPath. rewrite Habs. cbn. rewrite Hstat. cbn.
  rewrite Hdir. reflexivity.
Qed.

Lemma absPath_directory (root : string) (info : FileInfo) :
  filepath_Abs dir = Ok root ->
  os_Stat root = Ok info ->
  IsDir info = true ->
  absPath dir = (Returned root, [EvAbs dir; EvStat root]).
Proof.
  intros Habs Hstat Hdir. unfold absPath. rewrite Habs. cbn. rewrite Hstat. cbn.
  rewrite Hdir. reflexivity.
Qed.

End AbsPath.

(** The four ways [absPath] ends. *)
Lemma absPath_cases `{Platform} (dir : string) :
  (exists err, filepath_Abs dir = Err err)
  \/ (exists root err, filepath_Abs dir = Ok root /\ os_Stat root = Err err)
  \/ (exists root info,
        filepath_Abs dir = Ok root /\ os_Stat root = Ok info /\ IsDir info = false)
  \/ (exists root info,
        filepath_Abs dir = Ok root /\ os_Stat root = Ok info /\ IsDir info = true).
Proof.
  destruct (filepath_Abs dir) as [root | err] eqn:Habs; [|left; now exists err].
  destruct (os_Stat root) as [info | err] eqn:Hstat;
    [|right; left; now exists root, err].
  destruct (IsDir info) eqn:Hdir; right; right; [right | left]; now exists root, info.
Qed.

(** X1: [absPath] returns a path exactly when [filepath.Abs] resolved the
    argument to it and [os.Stat] reports it as a directory; in every other
    case the process exits with code 1. *)
Theorem absPath_returns_directories_only `{Platform} (dir root : string) :
  (outcome (absPath dir) = Returned root <->
     filepath_Abs dir = Ok root
     /\ exists info, os_Stat root = Ok info /\ IsDir info = true)
  /\ (outcome (absPath dir) = Exited 1 \/ exists r, outcome (absPath dir) = Returned r).
Proof.
  destruct (absPath_cases dir)
    as [(err & Habs) | [(r & err & Habs & Hstat) | [(r & info & Habs & Hstat & Hdir)
       | (r & info & Habs & Hstat & Hdir)]]].
  - rewrite (absPath_abs_error dir err Habs). cbn. split; [|now left].
    split; [discriminate | intros [Hok _]; congruence].
  - rewrite (absPath_stat_error dir r err Habs Hstat). cbn. split; [|now left].
    split; [discriminate | intros (Hok & info & Hinfo & _); congruence].
  - rewrite (absPath_not_directory dir r info Habs Hstat Hdir). cbn. split; [|now left].
    split; [discriminate | intros (Hok & info' & Hinfo & Hd); congruence].
  - rewrite (absPath_directory dir r info Habs Hstat Hdir). cbn. split; [|right; now exists r].
    split.
    + intros [= <-]. split; [exact Habs | now exists info].
    + intros (Hok & _). congruence.
Qed.

(** X2: the three failures of [absPath] each write one line and exit with
    code 1: a path that cannot be made absolute is reported with the error
    after [Cannot build absolute pathname], a path [os.Stat] fails on is
    reported by the error alone, and a path that is not a directory is
    reported by its absolute form; [os.Stat] is asked about the absolute
    path, and not at all when there is none. *)
Theorem absPath_failure_lines `{Platform} (dir : string) :
  (forall err, filepath_Abs dir = Err err ->
     absPath dir =
       (Exited 1,
        [EvAbs dir;
         EvStderr ("ERROR: Cannot build absolute pathname: " +:+ Error_text err
                   +:+ GoString.newline)]))
  /\ (forall root err, filepath_Abs dir = Ok root -> os_Stat root = Err err ->
        absPath dir =
          (Exited 1,
           [EvAbs dir; EvStat root;
            EvStderr ("ERROR: " +:+ Error_text err +:+ GoString.newline)]))
  /\ (forall root info, filepath_Abs dir = Ok root -> os_Stat root = Ok info ->
        IsDir info = false ->
        absPath dir =
          (Exited 1,
           [EvAbs dir; EvStat root;
            EvStderr ("ERROR: Not a directory: " +:+ root +:+ GoString.newline)])).
Proof.
  split; [|split].
  - apply absPath_abs_error.
  - apply absPath_stat_error.
  - apply absPath_not_directory.
Qed.

(** X2 (witness): on a host where [/srv/gone] does not exist and
    [/srv/notes.txt] is a file. *)
Lemma absPath_failure_lines_witness :
  absPath (H := hostWithout "/srv/gone") "gone" =
    (Exited 1,
     [EvAbs "gone"; EvStat "/srv/gone";
      EvStderr ("ERROR: stat: no such file or directory" +:+ GoString.newline)])
  /\ absPath (H := hostWithout "/srv/gone") "notes.txt" =
       (Exited 1,
        [EvAbs "notes.txt"; EvStat "/srv/notes.txt";
         EvStderr ("ERROR: Not a directory: /srv/notes.txt" +:+ GoString.newline)]).
Proof.
  pose proof (absPath_failure_lines (H := hostWithout "/srv/gone") "gone")
    as (_ & Hstat & _).
  pose proof (absPath_failure_lines (H := hostWithout "/srv/gone") "notes.txt")
    as (_ & _ & Hfile).
  split.
  - exact (Hstat "/srv/gone" (errorString "stat: no such file or directory")
             eq_refl eq_refl).
  - exact (Hfile "/srv/notes.txt" {| IsDir := false |} eq_refl eq_refl eq_refl).
Defined.

(** ** [main], [serveFrom] and [run] *)

Lemma bind_emit {B : Type} (e : Event) (f : unit -> M B) :
  bind (emit e) f = (outcome (f tt), e :: events (f tt)).
Proof. unfold bind, emit. now destruct (f tt). Qed.

Lemma serveFrom_exited `{Platform} (dir : string) (code : Z) :
  outcome (absPath dir) = Exited code ->
  serveFrom dir = (Exited code, events (absPath dir)).
Proof. intros Hexit. unfold serveFrom. apply bind_exited, Hexit. Qed.

Lemma serveFrom_serving `{Platform} (dir root : string) :
  outcome (absPath dir) = Returned root ->
  serveFrom dir =
    (Returned (handler root),
     events (absPath dir) ++ [EvPrintln [OString "Serving files from"; OString root]]).
Proof.
  intros Hroot. unfold serveFrom. rewrite (bind_events _ _ root Hroot).
  reflexivity.
Qed.

Section Main.
Context `{Platform}.
Variable args : CommandLine.

Lemma main_bad_port :
  port args = 0%N \/ (65535 < port args)%N ->
  main args =
    (Exited 1,
     [EvStderr ("ERROR: Invalid port number: " +:+ uintToString (port args)
                +:+ GoString.newline)]).
Proof.
  intros Hport. unfold main.
  assert (Hbad : (port args =? 0)%N || (65535 <? port args)%N = true).
  { destruct Hport as [-> | Hbig]; [reflexivity|].
    apply N.ltb_lt in Hbig. rewrite Hbig. apply orb_true_r. }
  rewrite Hbad. reflexivity.
Qed.

Hypothesis Hnz : port args <> 0%N.
Hypothesis Hmax : (port args <= 65535)%N.

Lemma main_no_interface :
  itf args = EmptyString ->
  main args =
    (Exited 1,
     [EvStderr ("ERROR: Network interface is not specified" +:+ GoString.newline)]).
Proof.
  intros Hitf. unfold main.
  rewrite (proj2 (N.eqb_neq _ _) Hnz), (proj2 (N.ltb_ge _ _) Hmax), Hitf.
  cbn [orb]. rewrite bind_ret_l. reflexivity.
Qed.

Hypothesis Hitf : itf args <> EmptyString.
Variable ip : string.
Hypothesis Hip : outcome (findIP (itf args)) = Returned ip.
Hypothesis Hfound : ip <> EmptyString.

(** [main] from the point where the address is known. *)
Lemma main_with_address :
  main args =
    (outcome (h <- serveFrom (dir args);;
              err <- run (listen_address ip args) h;;
              match err with
              | Some e => trace_Fatalln e
              | None => ret tt
              end),
     events (findIP (itf args))
     ++ EvPrintln [OString "Listening on"; OString (listen_address ip args)]
     :: events (h <- serveFrom (dir args);;
                err <- run (listen_address ip args) h;;
                match err with
                | Some e => trace_Fatalln e
                | None => ret tt
                end)).
Proof.
  unfold main.
  rewrite (proj2 (N.eqb_neq _ _) Hnz), (proj2 (N.ltb_ge _ _) Hmax).
  assert (Hlen : Nat.eqb (GoString.len (itf args)) 0 = false)
    by (destruct (itf args); [congruence | reflexivity]).
  assert (Hlen' : Nat.eqb (GoString.len ip) 0 = false)
    by (destruct ip; [congruence | reflexivity]).
  rewrite Hlen. cbn [orb]. rewrite !bind_ret_l.
  rewrite (bind_events _ _ ip Hip). rewrite Hlen', bind_ret_l. cbv zeta.
  unfold trace_Println. rewrite bind_emit. cbn [outcome events fst snd].
  reflexivity.
Qed.

Lemma main_directory_rejected (code : Z) :
  outcome (absPath (dir args)) = Exited code ->
  main args =
    (Exited code,
     events (findIP (itf args))
     ++ EvPrintln [OString "Listening on"; OString (listen_address ip args)]
     :: events (absPath (dir args))).
Proof.
  intros Hexit. rewrite main_with_address.
  rewrite (bind_exited _ _ code) by (now rewrite (serveFrom_exited _ code Hexit)).
  now rewrite (serveFrom_exited _ code Hexit).
Qed.

Lemma main_serving (root : string) :
  outcome (absPath (dir args)) = Returned root ->
  main args =
    (match ListenAndServe (listen_address ip args) with
     | Some _ => Exited 1
     | None => Returned tt
     end,
     events (findIP (itf args))
     ++ EvPrintln [OString "Listening on"; OString (listen_address ip args)]
     :: events (absPath (dir args))
     ++ [EvPrintln [OString "Serving files from"; OString root];
         EvListenAndServe (listen_address ip args)]
     ++ match ListenAndServe (listen_address ip args) with
        | Some e => [EvPrintln [OError e]]
        | None => []
        end).
Proof.
  intros Hroot. rewrite main_with_address.
  rewrite (serveFrom_serving _ root Hroot).
  unfold bind, run, emit, ret. cbn [outcome events fst snd].
  destruct (ListenAndServe (listen_address ip args)) as [e|]; cbn;
    rewrite <- ?app_assoc; reflexivity.
Qed.

End Main.

(** [findIP] exits with code 1 or returns what its loop found. *)
Lemma findIP_outcome `{Platform} (name : string) :
  outcome (findIP name) = Exited 1
  \/ exists it addrs,
       InterfaceByName name = Ok it
       /\ N.land (net.Flags it) net.FlagUp <> 0%N
       /\ Interface_Addrs it = Ok addrs
       /\ findIP name = (Returned (findIP_loop addrs), [EvInterfaceByName name; EvAddrs it]).
Proof.
  destruct (InterfaceByName name) as [it | err] eqn:Hit;
    [|left; now rewrite (findIP_unknown name err Hit)].
  destruct (N.eq_dec (N.land (net.Flags it) net.FlagUp) 0%N) as [Hdown | Hup];
    [left; now rewrite (findIP_down name it Hit Hdown)|].
  destruct (Interface_Addrs it) as [addrs | err] eqn:Haddrs;
    [|left; now rewrite (findIP_no_list name it err Hit Hup Haddrs)].
  right. exists it, addrs. repeat split; try assumption.
  apply (findIP_list name it addrs Hit Hup Haddrs).
Qed.

(** [absPath] exits with code 1 or returns a directory it has checked. *)
Lemma absPath_outcome `{Platform} (dir : string) :
  outcome (absPath dir) = Exited 1
  \/ exists root info,
       filepath_Abs dir = Ok root /\ os_Stat root = Ok info /\ IsDir info = true
       /\ absPath dir = (Returned root, [EvAbs dir; EvStat root]).
Proof.
  destruct (absPath_cases dir)
    as [(err & Habs) | [(r & err & Habs & Hstat) | [(r & info & Habs & Hstat & Hdir)
       | (r & info & Habs & Hstat & Hdir)]]].
  - left. now rewrite (absPath_abs_error dir err Habs).
  - left. now rewrite (absPath_stat_error dir r err Habs Hstat).
  - left. now rewrite (absPath_not_directory dir r info Habs Hstat Hdir).
  - right. exists r, info. repeat split; try assumption.
    apply (absPath_directory dir r info Habs Hstat Hdir).
Qed.

Lemma absPath_not_listening `{Platform} (dir : string) : ~ listening (events (absPath dir)).
Proof.
  intros [addr Hin].
  destruct (absPath_cases dir)
    as [(err & Habs) | [(r & err & Habs & Hstat) | [(r & info & Habs & Hstat & Hdir)
       | (r & info & Habs & Hstat & Hdir)]]].
  - rewrite (absPath_abs_error dir err Habs) in Hin. absent Hin.
  - rewrite (absPath_stat_error dir r err Habs Hstat) in Hin. absent Hin.
  - rewrite (absPath_not_directory dir r info Habs Hstat Hdir) in Hin. absent Hin.
  - rewrite (absPath_directory dir r info Habs Hstat Hdir) in Hin. absent Hin.
Qed.

(** X3: with a valid port and no interface name, [main] writes
    [ERROR: Network interface is not specified], exits with code 1 and does
    nothing else: no interface is looked up, the directory is not examined,
    no listener is opened. *)
Theorem main_interface_required `{Platform} (args : CommandLine) :
  port args <> 0%N -> (port args <= 65535)%N ->
  itf args = EmptyString ->
  main args =
    (Exited 1,
     [EvStderr ("ERROR: Network interface is not specified" +:+ GoString.newline)])
  /\ ~ resolving (events (main args))
  /\ ~ listening (events (main args)).
Proof.
  intros Hnz Hmax Hitf. rewrite (main_no_interface args Hnz Hmax Hitf).
  split; [reflexivity|]. split; intros [x Hin]; absent Hin.
Qed.

(** X3 (witness): port 8080 and no [-i] on the loopback host. *)
Lemma main_interface_required_witness :
  main (H := loopbackHost) {| itf := EmptyString; port := 8080; dir := "." |} =
    (Exited 1,
     [EvStderr ("ERROR: Network interface is not specified" +:+ GoString.newline)]).
Proof.
  refine (proj1 (main_interface_required (H := loopbackHost)
                   {| itf := EmptyString; port := 8080; dir := "." |} _ _ eq_refl)).
  - discriminate.
  - vm_compute. discriminate.
Defined.

(** X4: when every check passes, [main] looks the interface up and lists
    its addresses, logs [Listening on ip:port], resolves and examines the
    directory, logs [Serving files from] with the absolute path, and only
    then calls [ListenAndServe] on [ip:port], where [ip] is the first IPv4
    address of the interface. When [ListenAndServe] returns an error, the
    error is logged and the process exits with code 1. *)
Theorem main_startup_sequence `{Platform} (args : CommandLine)
    (it : net.Interface) (addrs : list net.Addr) (root : string) (info : FileInfo) :
  port args <> 0%N -> (port args <= 65535)%N -> itf args <> EmptyString ->
  InterfaceByName (itf args) = Ok it ->
  N.land (net.Flags it) net.FlagUp <> 0%N ->
  Interface_Addrs it = Ok addrs ->
  findIP_loop addrs <> EmptyString ->
  filepath_Abs (dir args) = Ok root -> os_Stat root = Ok info -> IsDir info = true ->
  let addr := findIP_loop addrs +:+ ":" +:+ uintToString (port args) in
  events (main args) =
    [EvInterfaceByName (itf args);
     EvAddrs it;
     EvPrintln [OString "Listening on"; OString addr];
     EvAbs (dir args);
     EvStat root;
     EvPrintln [OString "Serving files from"; OString root];
     EvListenAndServe addr]
    ++ match ListenAndServe addr with
       | Some e => [EvPrintln [OError e]]
       | None => []
       end
  /\ outcome (main args) =
       match ListenAndServe addr with
       | Some _ => Exited 1
       | None => Returned tt
       end.
Proof.
  intros Hnz Hmax Hitf Hit Hup Haddrs Hip Habs Hstat Hdir addr.
  pose proof (findIP_list (itf args) it addrs Hit Hup Haddrs) as Hfind.
  pose proof (absPath_directory (dir args) root info Habs Hstat Hdir) as Hroot.
  rewrite (main_serving args Hnz Hmax Hitf (findIP_loop addrs)
             ltac:(now rewrite Hfind) Hip root ltac:(now rewrite Hroot)).
  rewrite Hfind, Hroot. split; reflexivity.
Qed.

(** X4 (witness): [-i lo -p 8080 -d .] on the loopback host, whose port is
    taken. *)
Lemma main_startup_sequence_witness :
  main (H := loopbackHost) {| itf := "lo"; port := 8080; dir := "." |} =
    (Exited 1,
     [EvInterfaceByName "lo";
      EvAddrs lo;
      EvPrintln [OString "Listening on"; OString "127.0.0.1:8080"];
      EvAbs ".";
      EvStat "/srv/.";
      EvPrintln [OString "Serving files from"; OString "/srv/."];
      EvListenAndServe "127.0.0.1:8080";
      EvPrintln [OError (errorString "listen tcp: bind: address already in use")]]).
Proof.
  destruct (main_startup_sequence (H := loopbackHost)
              {| itf := "lo"; port := 8080; dir := "." |} lo
              [net.IPNet [x00; x00; x00; x00; x00; x00; x00; x00;
                          x00; x00; x00; x00; x00; x00; x00; x01] (repeat xff 16);
               net.IPNet [x7f; x00; x00; x01] [xff; x00; x00; x00]]
              "/srv/." {| IsDir := true |}) as [Hev Hout].
  1-10: solve [reflexivity | discriminate | vm_compute; discriminate].
  apply injective_projections; [exact Hout | exact Hev].
Defined.

(** [findIP] and [absPath] write nothing to the log. *)
Lemma findIP_logs_nothing `{Platform} (name : string) : logged (events (findIP name)) = [].
Proof.
  destruct (InterfaceByName name) as [it | err] eqn:Hit;
    [|now rewrite (findIP_unknown name err Hit)].
  destruct (N.eq_dec (N.land (net.Flags it) net.FlagUp) 0%N) as [Hdown | Hup];
    [now rewrite (findIP_down name it Hit Hdown)|].
  destruct (Interface_Addrs it) as [addrs | err] eqn:Haddrs.
  - now rewrite (findIP_list name it addrs Hit Hup Haddrs).
  - now rewrite (findIP_no_list name it err Hit Hup Haddrs).
Qed.

Lemma absPath_exit_line `{Platform} (dir : string) :
  outcome (absPath dir) = Exited 1 ->
  logged (events (absPath dir)) = []
  /\ exists line, last (events (absPath dir)) = Some (EvStderr line).
Proof.
  destruct (absPath_cases dir)
    as [(err & Habs) | [(r & err & Habs & Hstat) | [(r & info & Habs & Hstat & Hdir)
       | (r & info & Habs & Hstat & Hdir)]]].
  - rewrite (absPath_abs_error dir err Habs). intros _. split; [reflexivity | eexists; reflexivity].
  - rewrite (absPath_stat_error dir r err Habs Hstat). intros _.
    split; [reflexivity | eexists; reflexivity].
  - rewrite (absPath_not_directory dir r info Habs Hstat Hdir). intros _.
    split; [reflexivity | eexists; reflexivity].
  - rewrite (absPath_directory dir r info Habs Hstat Hdir). discriminate.
Qed.

Lemma logged_app (t1 t2 : list Event) : logged (t1 ++ t2) = logged t1 ++ logged t2.
Proof. apply omap_app. Qed.

(** X5: the directory is examined after the address has been announced:
    when the port, the interface and its IPv4 address are in order but the
    directory argument does not resolve to a directory, the log already
    holds the line [Listening on ip:port] when the process writes its error
    line and exits with code 1, and no listener was opened. *)
Theorem main_announces_before_directory_check `{Platform} (args : CommandLine)
    (it : net.Interface) (addrs : list net.Addr) :
  port args <> 0%N -> (port args <= 65535)%N -> itf args <> EmptyString ->
  InterfaceByName (itf args) = Ok it ->
  N.land (net.Flags it) net.FlagUp <> 0%N ->
  Interface_Addrs it = Ok addrs ->
  findIP_loop addrs <> EmptyString ->
  ~ (exists root info,
       filepath_Abs (dir args) = Ok root /\ os_Stat root = Ok info /\ IsDir info = true) ->
  outcome (main args) = Exited 1
  /\ logged (events (main args)) =
       [[OString "Listening on";
         OString (findIP_loop addrs +:+ ":" +:+ uintToString (port args))]]
  /\ (exists line, last (events (main args)) = Some (EvStderr line))
  /\ ~ listening (events (main args)).
Proof.
  intros Hnz Hmax Hitf Hit Hup Haddrs Hip Hnodir.
  pose proof (findIP_list (itf args) it addrs Hit Hup Haddrs) as Hfind.
  assert (Hexit : outcome (absPath (dir args)) = Exited 1).
  { destruct (absPath_outcome (dir args)) as [Hexit | (root & info & Ha & Hs & Hd & _)];
      [exact Hexit|]. exfalso. apply Hnodir. now exists root, info. }
  destruct (absPath_exit_line (dir args) Hexit) as (Hquiet & line & Hlast).
  rewrite (main_directory_rejected args Hnz Hmax Hitf (findIP_loop addrs)
             ltac:(now rewrite Hfind) Hip 1 Hexit).
  cbn [outcome events fst snd]. split; [reflexivity|]. split; [|split].
  - rewrite logged_app, findIP_logs_nothing. cbn [app logged omap list_omap].
    fold (logged (events (absPath (dir args)))). now rewrite Hquiet.
  - exists line. rewrite Hfind. cbn [events snd app].
    destruct (events (absPath (dir args))) as [|e t] eqn:Hev; [discriminate Hlast|].
    cbn [last] in *. exact Hlast.
  - intros [addr Hin]. apply in_app_or in Hin as [Hin | [Hin | Hin]].
    + apply (findIP_not_listening (itf args)). now exists addr.
    + discriminate Hin.
    + apply (absPath_not_listening (dir args)). now exists addr.
Qed.

(** X5 (witness): [-i lo -d gone] on a host without [/srv/gone]. *)
Lemma main_announces_before_directory_check_witness :
  main (H := hostWithout "/srv/gone") {| itf := "lo"; port := 8080; dir := "gone" |} =
    (Exited 1,
     [EvInterfaceByName "lo";
      EvAddrs lo;
      EvPrintln [OString "Listening on"; OString "127.0.0.1:8080"];
      EvAbs "gone";
      EvStat "/srv/gone";
      EvStderr ("ERROR: stat: no such file or directory" +:+ GoString.newline)])
  /\ logged (events (main (H := hostWithout "/srv/gone")
                       {| itf := "lo"; port := 8080; dir := "gone" |})) =
       [[OString "Listening on"; OString "127.0.0.1:8080"]].
Proof.
  split; [vm_compute; reflexivity|].
  refine (proj1 (proj2 (main_announces_before_directory_check (H := hostWithout "/srv/gone")
            {| itf := "lo"; port := 8080; dir := "gone" |} lo
            [net.IPNet [x00; x00; x00; x00; x00; x00; x00; x00;
                        x00; x00; x00; x00; x00; x00; x00; x01] (repeat xff 16);
             net.IPNet [x7f; x00; x00; x01] [xff; x00; x00; x00]]
            _ _ _ eq_refl _ eq_refl _ _))).
  - discriminate.
  - vm_compute. discriminate.
  - discriminate.
  - discriminate.
  - vm_compute. discriminate.
  - intros (root & info & Habs & Hstat & _).
    injection Habs as <-. vm_compute in Hstat. discriminate Hstat.
Defined.

(** The six ways [main] ends. *)
Lemma main_cases `{Platform} (args : CommandLine) :
  (exists line, main args = (Exited 1, [EvStderr line]))
  \/ (outcome (findIP (itf args)) = Exited 1
      /\ main args = (Exited 1, events (findIP (itf args))))
  \/ (exists line,
        main args = (Exited 1, events (findIP (itf args)) ++ [EvStderr line]))
  \/ (exists it addrs,
        port args <> 0%N /\ (port args <= 65535)%N /\ itf args <> EmptyString
        /\ InterfaceByName (itf args) = Ok it
        /\ N.land (net.Flags it) net.FlagUp <> 0%N
        /\ Interface_Addrs it = Ok addrs
        /\ findIP_loop addrs <> EmptyString
        /\ let addr := listen_address (findIP_loop addrs) args in
           (outcome (absPath (dir args)) = Exited 1
            /\ main args =
                 (Exited 1,
                  [EvInterfaceByName (itf args); EvAddrs it;
                   EvPrintln [OString "Listening on"; OString addr]]
                  ++ events (absPath (dir args))))
           \/ (exists root info,
                 filepath_Abs (dir args) = Ok root /\ os_Stat root = Ok info
                 /\ IsDir info = true
                 /\ main args =
                      (match ListenAndServe addr with
                       | Some _ => Exited 1
                       | None => Returned tt
                       end,
                       [EvInterfaceByName (itf args); EvAddrs it;
                        EvPrintln [OString "Listening on"; OString addr];
                        EvAbs (dir args); EvStat root;
                        EvPrintln [OString "Serving files from"; OString root];
                        EvListenAndServe addr]
                       ++ match ListenAndServe addr with
                          | Some e => [EvPrintln [OError e]]
                          | None => []
                          end))).
Proof.
  destruct (N.eq_dec (port args) 0%N) as [Hz | Hnz];
    [left; eexists; apply main_bad_port; now left|].
  destruct (N.le_gt_cases (port args) 65535%N) as [Hmax | Hbig];
    [|left; eexists; apply main_bad_port; now right].
  destruct (string_dec (itf args) EmptyString) as [Hno | Hitf];
    [left; eexists; now apply main_no_interface|].
  destruct (findIP_outcome (itf args)) as [Hexit | (it & addrs & Hit & Hup & Haddrs & Hfind)].
  { right; left. split; [exact Hexit|]. now apply main_findIP_exited. }
  assert (Hret : outcome (findIP (itf args)) = Returned (findIP_loop addrs))
    by now rewrite Hfind.
  destruct (string_dec (findIP_loop addrs) EmptyString) as [Hnone | Hip].
  { right; right; left. eexists. apply main_without_address; try assumption.
    now rewrite <- Hnone. }
  right; right; right. exists it, addrs. repeat (split; [assumption|]). cbv zeta.
  destruct (absPath_outcome (dir args)) as [Hexit | (root & info & Ha & Hs & Hd & Hroot)].
  - left. split; [exact Hexit|].
    rewrite (main_directory_rejected args Hnz Hmax Hitf _ Hret Hip 1 Hexit).
    now rewrite Hfind.
  - right. exists root, info. repeat (split; [assumption|]).
    rewrite (main_serving args Hnz Hmax Hitf _ Hret Hip root ltac:(now rewrite Hroot)).
    now rewrite Hfind, Hroot.
Qed.

(** From the port check on, [main] ends with exit code 1 or returns after
    [ListenAndServe] has returned no error. *)
Lemma main_exits_with_1_or_serves `{Platform} (args : CommandLine) :
  outcome (main args) = Exited 1
  \/ (outcome (main args) = Returned tt
      /\ exists addr,
           ListenAndServe addr = None
           /\ last (events (main args)) = Some (EvListenAndServe addr)).
Proof.
  destruct (main_cases args)
    as [(line & ->) | [(_ & ->) | [(line & ->)
       | (it & addrs & _ & _ & _ & _ & _ & _ & _
          & [(_ & ->) | (root & info & _ & _ & _ & ->)])]]];
    try (now left).
  cbv zeta. destruct (ListenAndServe (listen_address (findIP_loop addrs) args)) as [e|] eqn:Hls;
    [now left | right].
  split; [reflexivity|]. eexists. split; [exact Hls | reflexivity].
Qed.

(** X6: the program ends in one of three ways. It exits with code 2 when
    [gnuflag.Parse] rejects the command line, having written gnuflag's
    message and nothing else; or [gnuflag.Parse] accepts the command line
    and the program exits with code 1; or [gnuflag.Parse] accepts it and
    the program returns, and then [ListenAndServe] was called, returned no
    error, and that call was the last thing the program did. No other exit
    code occurs. *)
Theorem program_exits_with_2_or_1_or_serves `{FlagLibrary} `{Platform}
    (flags : list (string * option string)) :
  (outcome (gnuflag_Parse flags flagDefaults) = Exited 2
   /\ exists line, main_with_flags flags = (Exited 2, [EvStderr line]))
  \/ (exists args,
        outcome (gnuflag_Parse flags flagDefaults) = Returned args
        /\ (outcome (main_with_flags flags) = Exited 1
            \/ (outcome (main_with_flags flags) = Returned tt
                /\ exists addr,
                     ListenAndServe addr = None
                     /\ last (events (main_with_flags flags))
                        = Some (EvListenAndServe addr)))).
Proof.
  destruct (outcome (gnuflag_Parse flags flagDefaults)) as [args | code] eqn:Hparse.
  - right. exists args. split; [reflexivity|].
    rewrite (main_with_flags_parsed flags args Hparse).
    apply main_exits_with_1_or_serves.
  - left. destruct (main_with_flags_rejected flags code Hparse) as (-> & line & _ & Hrun).
    split; [reflexivity|]. now exists line.
Qed.

(** X6 (run): [-i lo -p 0x50] asks for port 80 on the loopback interface;
    [-i lo -p 80z] is rejected by gnuflag. *)
Lemma program_exits_with_2_or_1_or_serves_witness :
  outcome (gnuflag_Parse (H := gnuflagLibrary)
             [("i", Some "lo"); ("p", Some "0x50")] flagDefaults) =
    Returned {| itf := "lo"; port := 80; dir := "." |}
  /\ outcome (main_with_flags (H := gnuflagLibrary) (H0 := loopbackHost)
                [("i", Some "lo"); ("p", Some "80z")]) = Exited 2.
Proof.
  split; [vm_compute; reflexivity|].
  destruct (program_exits_with_2_or_1_or_serves (H := gnuflagLibrary) (H0 := loopbackHost)
              [("i", Some "lo"); ("p", Some "80z")])
    as [(_ & line & ->) | (args & Hparse & _)].
  - reflexivity.
  - vm_compute in Hparse. discriminate Hparse.
Defined.

(** X7: a listener is opened only after every check has passed: if [main]
    calls [ListenAndServe], the port is between 1 and 65535, the interface
    was named, found, up and has an IPv4 address, the directory argument
    resolved to a directory, and the one address listened on is that IPv4
    address with the port. *)
Theorem main_listens_only_when_validated `{Platform} (args : CommandLine) :
  listening (events (main args)) ->
  port args <> 0%N /\ (port args <= 65535)%N /\ itf args <> EmptyString
  /\ exists it addrs root info,
       InterfaceByName (itf args) = Ok it
       /\ N.land (net.Flags it) net.FlagUp <> 0%N
       /\ Interface_Addrs it = Ok addrs
       /\ findIP_loop addrs <> EmptyString
       /\ filepath_Abs (dir args) = Ok root /\ os_Stat root = Ok info /\ IsDir info = true
       /\ forall addr,
            In (EvListenAndServe addr) (events (main args)) ->
            addr = findIP_loop addrs +:+ ":" +:+ uintToString (port args).
Proof.
  intros [addr Hin].
  destruct (main_cases args)
    as [(line & Hmain) | [(_ & Hmain) | [(line & Hmain)
       | (it & addrs & Hnz & Hmax & Hitf & Hit & Hup & Haddrs & Hip
          & [(_ & Hmain) | (root & info & Ha & Hs & Hd & Hmain)])]]];
    rewrite Hmain in Hin |- *; cbn [events snd] in Hin |- *.
  - absent Hin.
  - exfalso. apply (findIP_not_listening (itf args)). now exists addr.
  - exfalso. apply in_app_or in Hin as [Hin | Hin]; [|absent Hin].
    apply (findIP_not_listening (itf args)). now exists addr.
  - exfalso. apply in_app_or in Hin as [Hin | Hin]; [absent Hin|].
    apply (absPath_not_listening (dir args)). now exists addr.
  - repeat (split; [assumption|]). exists it, addrs, root, info.
    repeat (split; [assumption|]).
    intros a Ha'. apply in_app_or in Ha' as [Ha' | Ha'].
    + cbn in Ha'. repeat (destruct Ha' as [Ha' | Ha']; [try discriminate Ha'|]);
        [now injection Ha' as <- | contradiction].
    + destruct (ListenAndServe _); absent Ha'.
Qed.

(** X7 (witness): [-i lo] on the loopback host listens on
    [127.0.0.1:8080]. *)
Lemma main_listens_only_when_validated_witness :
  listening (events (main (H := loopbackHost) {| itf := "lo"; port := 8080; dir := "." |}))
  /\ exists root info,
       filepath_Abs (Platform := loopbackHost) "." = Ok root
       /\ os_Stat (Platform := loopbackHost) root = Ok info /\ IsDir info = true.
Proof.
  assert (Hlisten : listening (events (main (H := loopbackHost)
                                         {| itf := "lo"; port := 8080; dir := "." |}))).
  { exists "127.0.0.1:8080". vm_compute. do 6 right. left. reflexivity. }
  split; [exact Hlisten|].
  destruct (main_listens_only_when_validated (H := loopbackHost)
              {| itf := "lo"; port := 8080; dir := "." |} Hlisten)
    as (_ & _ & _ & it & addrs & root & info & _ & _ & _ & _ & Ha & Hs & Hd & _).
  now exists root, info.
Defined.

(** ** [findIP] and the form of addresses *)

Lemma IPv4_String_nonempty (ip4 : net.IPv4) : net.IPv4_String ip4 <> EmptyString.
Proof.
  unfold net.IPv4_String. intros Hempty.
  apply (f_equal String.length) in Hempty.
  rewrite !GoStringFacts.len_append in Hempty. cbn in Hempty. lia.
Qed.

Lemma findIP_loop_empty (addrs : list net.Addr) :
  findIP_loop addrs = EmptyString -> Forall no_IPv4 addrs.
Proof.
  induction addrs as [|a addrs IH]; cbn [findIP_loop]; [constructor|].
  destruct a as [ip mask | |]; try (intros Hrest; constructor; [exact I | auto]).
  destruct (net.To4 ip) as [ip4|] eqn:Hip.
  - intros Hempty. now apply IPv4_String_nonempty in Hempty.
  - intros Hrest. constructor; [exact Hip | auto].
Qed.

(** X8: on an interface that is up and whose addresses can be listed,
    [findIP] returns the empty string exactly when no address of the list
    is an IP network with a 4-byte form; what it returns otherwise is never
    empty, so the error [Cannot find IPv4 address] of [main] means just
    that. *)
Theorem findIP_empty_iff_no_IPv4 `{Platform} (name : string)
    (it : net.Interface) (addrs : list net.Addr) :
  InterfaceByName name = Ok it ->
  N.land (net.Flags it) net.FlagUp <> 0%N ->
  Interface_Addrs it = Ok addrs ->
  (outcome (findIP name) = Returned EmptyString <-> Forall no_IPv4 addrs)
  /\ (findIP_loop addrs = EmptyString <-> Forall no_IPv4 addrs).
Proof.
  intros Hit Hup Haddrs. rewrite (findIP_list name it addrs Hit Hup Haddrs).
  cbn [outcome fst].
  assert (Hloop : findIP_loop addrs = EmptyString <-> Forall no_IPv4 addrs)
    by (split; [apply findIP_loop_empty | apply findIP_loop_none]).
  split; [|exact Hloop].
  rewrite <- Hloop. split; [now intros [= ->] | now intros ->].
Qed.

(** X8 (witness): the loopback interface has an IPv4 address, so [findIP]
    does not return the empty string. *)
Lemma findIP_empty_iff_no_IPv4_witness :
  outcome (findIP (H := loopbackHost) "lo") <> Returned EmptyString.
Proof.
  intros Hempty.
  apply (proj1 (proj1 (findIP_empty_iff_no_IPv4 (H := loopbackHost) "lo" lo
           [net.IPNet [x00; x00; x00; x00; x00; x00; x00; x00;
                       x00; x00; x00; x00; x00; x00; x00; x01] (repeat xff 16);
            net.IPNet [x7f; x00; x00; x01] [xff; x00; x00; x00]]
           eq_refl ltac:(discriminate) eq_refl))) in Hempty.
  inversion Hempty as [|a l _ Hrest]. inversion Hrest as [|a' l' Hlo _].
  discriminate Hlo.
Defined.

(** X9: an address has a 4-byte form exactly when it is 4 bytes long or is
    the 16-byte IPv4-mapped form [::ffff:a.b.c.d]; the loop of [findIP]
    reports both by the same dotted string. *)
Theorem To4_four_bytes_or_mapped (ip : net.IP) (ip4 : net.IPv4) :
  (net.To4 ip = Some ip4 <->
     ip = [net.b0 ip4; net.b1 ip4; net.b2 ip4; net.b3 ip4] \/ ip = IPv4_mapped ip4)
  /\ (forall mask mask' rest rest',
        findIP_loop (net.IPNet (IPv4_mapped ip4) mask :: rest) =
        findIP_loop (net.IPNet [net.b0 ip4; net.b1 ip4; net.b2 ip4; net.b3 ip4] mask'
                     :: rest')).
Proof.
  split.
  - split.
    + intros Hip.
      do 17 (try (destruct ip as [|? ip]; [cbn in Hip; try discriminate Hip|])).
      all: cbn [net.To4] in Hip; try discriminate Hip.
      * injection Hip as <-. now left.
      * match type of Hip with
        | (if ?c then _ else _) = _ => destruct c eqn:Hmapped; [|discriminate Hip]
        end.
        injection Hip as <-. right.
        repeat match goal with
               | Hb : _ && _ = true |- _ => apply andb_true_iff in Hb as [? ?]
               end.
        repeat match goal with
               | Hb : Byte.eqb _ _ = true |- _ => apply Byte.byte_dec_bl in Hb
               end.
        subst. reflexivity.
    + intros [-> | ->]; destruct ip4; reflexivity.
  - intros mask mask' rest rest'. destruct ip4. reflexivity.
Qed.

(** ** [uintToString] *)

Lemma string_of_uint_digits (d : Decimal.uint) :
  all_bytes isDigit (NilEmpty.string_of_uint d) = true.
Proof. induction d; cbn; auto. Qed.

Lemma to_uint_normal (n : N) : Decimal.unorm (N.to_uint n) = N.to_uint n.
Proof.
  rewrite <- (DecimalN.Unsigned.of_to n) at 2.
  symmetry. apply DecimalN.Unsigned.to_of.
Qed.

(** X10: [uintToString] writes a number as a non-empty string of decimal
    digits whose value is the number, without a leading zero (zero itself
    is the one digit 0); two numbers with the same string are equal. *)
Theorem uintToString_decimal (n : N) :
  decimal_value (uintToString n) = Some n
  /\ all_bytes isDigit (uintToString n) = true
  /\ uintToString n <> EmptyString
  /\ (forall rest, uintToString n = String "0" rest -> n = 0%N /\ rest = EmptyString)
  /\ (forall m, uintToString n = uintToString m -> n = m).
Proof.
  unfold uintToString, FormatUint, decimal_value.
  assert (Hvalue : forall k,
    N.of_uint <$> NilEmpty.uint_of_string (NilEmpty.string_of_uint (N.to_uint k)) = Some k).
  { intros k. rewrite NilEmpty.usu. cbn. f_equal. apply DecimalN.Unsigned.of_to. }
  split; [apply Hvalue|]. split; [apply string_of_uint_digits|]. split; [|split].
  - intros Hempty. pose proof (Hvalue n) as Hn. rewrite Hempty in Hn. cbn in Hn.
    injection Hn as <-. discriminate Hempty.
  - intros rest Hzero.
    assert (Hd : exists d, N.to_uint n = Decimal.D0 d /\ NilEmpty.string_of_uint d = rest).
    { destruct (N.to_uint n) as [|d|d|d|d|d|d|d|d|d|d]; try discriminate Hzero.
      injection Hzero as Hrest. now exists d. }
    destruct Hd as (d & Hd & Hrest).
    pose proof (to_uint_normal n) as Hnorm. rewrite Hd in Hnorm.
    unfold Decimal.unorm in Hnorm.
    destruct (Decimal.nzhead (Decimal.D0 d)) as [|d'|d'|d'|d'|d'|d'|d'|d'|d'|d'] eqn:Hhead;
      try discriminate Hnorm.
    + injection Hnorm as <-. split; [|now subst rest].
      rewrite <- (DecimalN.Unsigned.of_to n), Hd. reflexivity.
    + now apply DecimalFacts.nzhead_nonzero in Hhead.
  - intros m Hsame. pose proof (Hvalue n) as Hn. rewrite Hsame, Hvalue in Hn.
    now injection Hn.
Qed.

(** ** [url.QueryUnescape] as the handler uses it *)

Module urlFacts.

Import url.

Lemma first_three (c : ascii) (rest : string) :
  exists post,
    String c rest = substring 0 3 (String c rest) +:+ post
    /\ String.length (substring 0 3 (String c rest)) <= 3
    /\ String.prefix (String c EmptyString) (substring 0 3 (String c rest)) = true.
Proof.
  exists (substring 3 (String.length (String c rest) - 3) (String c rest)).
  split; [|split].
  - rewrite GoStringFacts.slice_split. symmetry. apply GoStringFacts.slice_to_all. lia.
  - rewrite GoStringFacts.len_slice_to. lia.
  - cbn. destruct (ascii_dec c c); [|congruence]. now destruct rest.
Qed.

(** The error of the first pass is an escape of at most three bytes, cut
    from the string where it stands. *)
Lemma scan_error (n : nat) (s : string) (e : error) :
  String.length s <= n ->
  scan s = Err e ->
  exists pre frag post,
    e = EscapeError frag /\ s = pre +:+ frag +:+ post
    /\ String.prefix "%" frag = true /\ String.length frag <= 3.
Proof.
  revert s e; induction n as [|n IH]; intros [|c rest] e Hlen; cbn [scan];
    try discriminate; [cbn in Hlen; lia|].
  cbn in Hlen.
  assert (Hbad : forall e', Err (A := nat * bool) (EscapeError (substring 0 3 (String c rest)))
                            = Err e' -> (c =? "%")%char = true ->
          exists pre frag post,
            e' = EscapeError frag /\ String c rest = pre +:+ frag +:+ post
            /\ String.prefix "%" frag = true /\ String.length frag <= 3).
  { intros e' [= <-] Hc. apply Ascii.eqb_eq in Hc. subst c.
    destruct (first_three "%" rest) as (post & Hsplit & Hshort & Hpre).
    exists EmptyString, (substring 0 3 (String "%" rest)), post. now repeat split. }
  destruct (c =? "%")%char eqn:Hc.
  - destruct rest as [|a [|b rest']]; try (intros He; now apply Hbad).
    destruct (ishex a && ishex b); [|intros He; now apply Hbad].
    destruct (scan rest') as [[k p] | e'] eqn:Hrest; [discriminate|].
    intros [= <-].
    destruct (IH rest' e') as (pre & frag & post & -> & Hs & Hp & Hl);
      [cbn in Hlen; lia | exact Hrest |].
    exists (String c (String a (String b pre))), frag, post.
    repeat split; try assumption. cbn. now rewrite Hs.
  - assert (Hnext : forall e', scan rest = Err e' ->
              exists pre frag post,
                e' = EscapeError frag /\ String c rest = pre +:+ frag +:+ post
                /\ String.prefix "%" frag = true /\ String.length frag <= 3).
    { intros e' Hrest.
      destruct (IH rest e') as (pre & frag & post & -> & Hs & Hp & Hl); [lia | exact Hrest |].
      exists (String c pre), frag, post. repeat split; try assumption. cbn. now rewrite Hs. }
    destruct (c =? "+")%char.
    + destruct (scan rest) as [[k p] | e'] eqn:Hrest; [discriminate|].
      intros [= <-]. now apply Hnext.
    + apply Hnext.
Qed.

(** Without a [%] nothing is malformed and only [+] changes. *)
Lemma scan_no_percent (s : string) :
  all_bytes not_percent s = true ->
  exists hasPlus,
    scan s = Ok (0, hasPlus)
    /\ decode s = plus_to_space s
    /\ (hasPlus = false -> plus_to_space s = s).
Proof.
  induction s as [|c rest IH]; cbn [all_bytes scan decode plus_to_space].
  - intros _. now exists false.
  - intros Hall. apply andb_true_iff in Hall as [Hc Hrest].
    destruct (IH Hrest) as (p & Hscan & Hdec & Hsame).
    unfold not_percent in Hc. apply negb_true_iff in Hc. rewrite Hc, Hscan, Hdec.
    destruct (c =? "+")%char.
    + exists true. repeat split. discriminate.
    + exists p. repeat split. intros Hp. now rewrite (Hsame Hp).
Qed.

Lemma QueryUnescape_no_percent (s : string) :
  all_bytes not_percent s = true -> QueryUnescape s = Ok (plus_to_space s).
Proof.
  intros Hall. destruct (scan_no_percent s Hall) as (p & Hscan & Hdec & Hsame).
  unfold QueryUnescape. rewrite Hscan. cbn.
  destruct p; cbn; [now rewrite Hdec | now rewrite Hsame].
Qed.

Lemma len_plus_to_space (s : string) : String.length (plus_to_space s) = String.length s.
Proof. induction s; cbn; congruence. Qed.

End urlFacts.

(** ** The handler, request by request *)

(** X11: whatever the request, the handler returns after writing exactly
    one line to the log and making exactly one library call on the
    response writer ([http.Error], [ServeContent] or the file server). *)
Theorem handler_one_line_one_reply `{Platform}
    (root : string) (resp : ResponseWriter) (req : Request) :
  exists w line call,
    outcome (handler root resp req) = Returned w
    /\ logged (events (handler root resp req)) = [line]
    /\ replies (events (handler root resp req)) = [call].
Proof.
  destruct (url.QueryUnescape (RequestURI req)) as [uri | err] eqn:Huri.
  - destruct (String.eqb_spec uri "/favicon.ico") as [-> | Hne].
    + destruct (handler_favicon root resp req Huri) as (line & ->).
      do 3 eexists. repeat split; reflexivity.
    + destruct (handler_files root resp req uri Huri Hne) as (line & ->).
      do 3 eexists. repeat split; reflexivity.
  - rewrite (handler_invalid root resp req err Huri).
    do 3 eexists. repeat split; reflexivity.
Qed.

(** X13: of a request URI that does not unescape, the log holds at most
    three bytes: the logged error is the malformed escape itself, a piece
    of the URI that starts with [%] and is one to three bytes long, and the
    line holds nothing else of the request but the remote address. *)
Theorem rejected_URI_log_is_short `{Platform}
    (root : string) (resp : ResponseWriter) (req : Request) (err : error) :
  url.QueryUnescape (RequestURI req) = Err err ->
  exists pre frag post,
    err = EscapeError frag
    /\ RequestURI req = pre +:+ frag +:+ post
    /\ String.prefix "%" frag = true
    /\ String.length frag <= 3
    /\ logged (events (handler root resp req)) =
         [[OString (RemoteAddr req); OString "Invalid URI:"; OError (EscapeError frag)]].
Proof.
  intros Herr.
  assert (Hscan : url.scan (RequestURI req) = Err err).
  { unfold url.QueryUnescape in Herr.
    destruct (url.scan (RequestURI req)) as [[n p] | e]; [|congruence].
    destruct (Nat.eqb n 0 && negb p); discriminate Herr. }
  destruct (urlFacts.scan_error _ _ err (Nat.le_refl _) Hscan)
    as (pre & frag & post & -> & Hsplit & Hpre & Hlen).
  exists pre, frag, post. repeat (split; [assumption || reflexivity|]).
  now rewrite (handler_invalid root resp req _ Herr).
Qed.

(** X13 (witness): [GET /a%2] is rejected for the escape [%2]. *)
Lemma rejected_URI_log_is_short_witness :
  url.QueryUnescape (RequestURI (GET "/a%2" ∅)) = Err (EscapeError "%2")
  /\ exists frag,
       String.length frag <= 3
       /\ logged (events (handler (H := loopbackHost) "/srv" newResponseWriter
                            (GET "/a%2" ∅))) =
            [[OString "127.0.0.1:40000"; OString "Invalid URI:"; OError (EscapeError frag)]].
Proof.
  assert (Herr : url.QueryUnescape (RequestURI (GET "/a%2" ∅)) = Err (EscapeError "%2"))
    by (vm_compute; reflexivity).
  split; [exact Herr|].
  destruct (rejected_URI_log_is_short (H := loopbackHost) "/srv" newResponseWriter
              (GET "/a%2" ∅) _ Herr) as (pre & frag & post & _ & _ & _ & Hlen & Hlog).
  exists frag. split; [exact Hlen | exact Hlog].
Defined.

(** X14: a request URI without [%] is never rejected: the handler does not
    call [http.Error], and the URI it logs is the request URI with every
    [+] turned into a space (shortened when longer than 500 bytes), while
    the request it serves keeps the [+]. *)
Theorem URI_without_percent_is_accepted `{Platform}
    (root : string) (resp : ResponseWriter) (req : Request) :
  all_bytes not_percent (RequestURI req) = true ->
  url.QueryUnescape (RequestURI req) = Ok (plus_to_space (RequestURI req))
  /\ GoString.len (plus_to_space (RequestURI req)) = GoString.len (RequestURI req)
  /\ ~ rejects (events (handler root resp req))
  /\ (exists rest,
        logged (events (handler root resp req)) =
          [OString (RemoteAddr req) :: OString (Method req)
           :: OString (shortenURI (plus_to_space (RequestURI req))) :: rest])
  /\ (forall root' w req', In (EvServeHTTP root' w req') (events (handler root resp req)) ->
        req' = req).
Proof.
  intros Hall. pose proof (urlFacts.QueryUnescape_no_percent _ Hall) as Huri.
  split; [exact Huri|]. split; [apply urlFacts.len_plus_to_space|].
  destruct (handler_log_line root resp req _ Huri) as (t & Hev & Hlog).
  split; [|split].
  - intros (w & msg & code & Hin).
    destruct (String.eqb_spec (plus_to_space (RequestURI req)) "/favicon.ico") as [Hicon | Hne].
    + rewrite Hicon in Huri.
      destruct (handler_favicon root resp req Huri) as (line & Hrun).
      rewrite Hrun in Hin. absent Hin.
    + destruct (handler_files root resp req _ Huri Hne) as (line & Hrun).
      rewrite Hrun in Hin. absent Hin.
  - rewrite Hev. cbn [logged omap list_omap]. fold (logged t). rewrite Hlog.
    cbv zeta. unfold request_line.
    destruct (Nat.ltb 0 _ && negb _); eexists; reflexivity.
  - intros root' w req' Hin.
    destruct (String.eqb_spec (plus_to_space (RequestURI req)) "/favicon.ico") as [Hicon | Hne].
    + rewrite Hicon in Huri.
      destruct (handler_favicon root resp req Huri) as (line & Hrun).
      rewrite Hrun in Hin. absent Hin.
    + destruct (handler_files root resp req _ Huri Hne) as (line & Hrun).
      rewrite Hrun in Hin. cbn in Hin.
      repeat (destruct Hin as [Hin | Hin]; [try discriminate Hin|]);
        [now injection Hin | contradiction].
Qed.

(** X14 (witness): [GET /a+b] is logged as [/a b]. *)
Lemma URI_without_percent_is_accepted_witness :
  all_bytes not_percent (RequestURI (GET "/a+b" ∅)) = true
  /\ url.QueryUnescape (RequestURI (GET "/a+b" ∅)) = Ok "/a b".
Proof.
  split; [reflexivity|].
  exact (proj1 (URI_without_percent_is_accepted (H := loopbackHost)
                  "/srv" newResponseWriter (GET "/a+b" ∅) eq_refl)).
Defined.

(** With a query string after [/favicon.ico] the URI does not unescape to
    [/favicon.ico]. *)
Lemma favicon_query_differs (query : string) :
  url.QueryUnescape ("/favicon.ico?" +:+ query) <> Ok "/favicon.ico".
Proof.
  unfold url.QueryUnescape.
  rewrite !GoStringFacts.append_cons. change (EmptyString +:+ query) with query.
  cbn [url.scan url.decode Ascii.eqb Bool.eqb andb].
  destruct (url.scan query) as [[n p] | e]; [|discriminate].
  destruct (Nat.eqb n 0 && negb p); discriminate.
Qed.

(** X15: the handler calls [ServeContent] exactly when the whole request
    URI, query string included, unescapes to [/favicon.ico]; a request for
    [/favicon.ico?...] is not answered with the embedded icon. *)
Theorem icon_only_for_exact_URI `{Platform}
    (root : string) (resp : ResponseWriter) (req : Request) :
  (serves_icon (events (handler root resp req)) <->
     url.QueryUnescape (RequestURI req) = Ok "/favicon.ico")
  /\ (forall query, RequestURI req = "/favicon.ico?" +:+ query ->
        ~ serves_icon (events (handler root resp req))).
Proof.
  assert (Hiff : serves_icon (events (handler root resp req)) <->
                 url.QueryUnescape (RequestURI req) = Ok "/favicon.ico").
  { split.
    - intros (w & r & name & modtime & content & Hin).
      destruct (url.QueryUnescape (RequestURI req)) as [uri | err] eqn:Huri.
      + destruct (String.eqb_spec uri "/favicon.ico") as [-> | Hne]; [reflexivity|].
        destruct (handler_files root resp req uri Huri Hne) as (line & Hrun).
        rewrite Hrun in Hin. absent Hin.
      + rewrite (handler_invalid root resp req err Huri) in Hin. absent Hin.
    - intros Huri. destruct (handler_favicon root resp req Huri) as (line & ->).
      do 5 eexists. cbn. do 3 right. left. reflexivity. }
  split; [exact Hiff|].
  intros query Hquery Hicon. apply Hiff in Hicon. rewrite Hquery in Hicon.
  exact (favicon_query_differs query Hicon).
Qed.

(** X15 (witness): [GET /favicon.ico?v=2] goes to the file server. *)
Lemma icon_only_for_exact_URI_witness :
  ~ serves_icon (events (handler (H := loopbackHost) "/srv" newResponseWriter
                           (GET "/favicon.ico?v=2" ∅))).
Proof.
  exact (proj2 (icon_only_for_exact_URI (H := loopbackHost) "/srv" newResponseWriter
                  (GET "/favicon.ico?v=2" ∅)) "v=2" eq_refl).
Defined.

(** X16: [shortenURI] does not always shorten: its result is longer than
    its argument exactly for arguments of 501 to 503 bytes, shorter exactly
    for arguments of more than 504 bytes, and 504 bytes long for every
    argument of more than 500 bytes. *)
Theorem shortenURI_lengthens_501_to_503 (u : string) :
  (GoString.len u < GoString.len (shortenURI u) <->
     500 < GoString.len u < 504)
  /\ (GoString.len (shortenURI u) < GoString.len u <-> 504 < GoString.len u)
  /\ (500 < GoString.len u -> GoString.len (shortenURI u) = 504).
Proof.
  destruct (Nat.le_gt_cases (GoString.len u) maxURI) as [Hle | Hgt].
  - rewrite (shortenURI_short u Hle). unfold maxURI in Hle. lia.
  - pose proof (shortenURI_len_long u Hgt) as Hlen. unfold maxURI in *. lia.
Qed.

(** X17: to a request for the icon without conditional and Range headers
    the reply is sent with Content-Length 2942, the size of the embedded
    icon, and with Accept-Ranges [bytes]; the body is the icon, the 2942
    bytes of the [favicon] array in their order, except for a HEAD request,
    whose reply has no body. *)
Theorem icon_reply_length `{Platform} (root : string) (req : Request) :
  url.QueryUnescape (RequestURI req) = Ok "/favicon.ico" ->
  unconditional req ->
  length favicon = 2942
  /\ list_byte_of_string icon = favicon
  /\ exists w,
       outcome (handler root newResponseWriter req) = Returned w
       /\ sent w "Content-Length" = Some ["2942"]
       /\ sent w "Accept-Ranges" = Some ["bytes"]
       /\ (Method req = "HEAD" -> body w = EmptyString)
       /\ (Method req <> "HEAD" -> body w = icon /\ GoString.len (body w) = 2942).
Proof.
  intros Huri Hreq. split; [reflexivity|].
  split; [apply list_byte_of_string_of_list_byte|].
  destruct (handler_favicon root newResponseWriter req Huri) as (line & ->).
  destruct (httpFacts.with_icon_type_lookup newResponseWriter) as (_ & Hct & Hw).
  eexists. split; [reflexivity|].
  rewrite (fsFacts.ServeContent_unconditional _ req _ _ _ ["image/x-icon"]);
    [|exact Hw | exact Hct | reflexivity | exact Hreq].
  unfold sent. cbn [wroteHeader body].
  assert (Hsize : fs.FormatSize (String.length icon) = "2942") by (vm_compute; reflexivity).
  rewrite Hsize. split; [|split; [|split]].
  - by simplify_map_eq.
  - by simplify_map_eq.
  - intros ->. reflexivity.
  - intros Hhead. apply String.eqb_neq in Hhead. rewrite Hhead.
    split; [reflexivity | vm_compute; reflexivity].
Qed.

(** X17 (witness): [GET /favicon.ico] on the loopback host. *)
Lemma icon_reply_length_witness :
  exists w,
    outcome (handler (H := loopbackHost) "/srv" newResponseWriter
               {| Method := "GET"; RequestURI := "/favicon.ico"; URL_Path := "/favicon.ico";
                  RemoteAddr := "127.0.0.1:40000"; ReqHeader := ∅ |}) = Returned w
    /\ sent w "Content-Length" = Some ["2942"]
    /\ body w = icon.
Proof.
  destruct (icon_reply_length (H := loopbackHost) "/srv"
              {| Method := "GET"; RequestURI := "/favicon.ico"; URL_Path := "/favicon.ico";
                 RemoteAddr := "127.0.0.1:40000"; ReqHeader := ∅ |})
    as (_ & _ & w & Hout & Hlen & _ & _ & Hget).
  - vm_compute. reflexivity.
  - repeat split.
  - exists w. split; [exact Hout | split; [exact Hlen|]].
    apply Hget. discriminate.
Defined.

(** Decoding never lengthens. *)
Lemma decode_len (n : nat) (s : string) :
  String.length s <= n -> String.length (url.decode s) <= String.length s.
Proof.
  revert s; induction n as [|n IH]; intros [|c rest] Hlen; cbn [url.decode]; cbn in Hlen;
    try lia.
  destruct (c =? "%")%char.
  - destruct rest as [|a [|b rest']]; cbn; try lia.
    cbn in Hlen. specialize (IH rest' ltac:(lia)). lia.
  - specialize (IH rest ltac:(lia)). destruct (c =? "+")%char; cbn; lia.
Qed.

(** X18: unescaping never lengthens a URI, so a request URI of at most
    500 bytes is logged whole, never in shortened form. *)
Theorem short_request_URI_logged_whole `{Platform}
    (root : string) (resp : ResponseWriter) (req : Request) (uri : string) :
  url.QueryUnescape (RequestURI req) = Ok uri ->
  GoString.len uri <= GoString.len (RequestURI req)
  /\ (GoString.len (RequestURI req) <= 500 ->
      exists rest,
        logged (events (handler root resp req)) =
          [OString (RemoteAddr req) :: OString (Method req) :: OString uri :: rest]).
Proof.
  intros Huri.
  assert (Hlen : GoString.len uri <= GoString.len (RequestURI req)).
  { unfold url.QueryUnescape in Huri.
    destruct (url.scan (RequestURI req)) as [[n p] | e]; [|discriminate Huri].
    destruct (Nat.eqb n 0 && negb p); injection Huri as <-; [lia|].
    apply (decode_len _ _ (Nat.le_refl _)). }
  split; [exact Hlen|]. intros Hshort.
  destruct (handler_log_line root resp req uri Huri) as (t & Hev & Hlog).
  rewrite Hev. cbn [logged omap list_omap]. fold (logged t). rewrite Hlog.
  cbv zeta. unfold request_line.
  rewrite (shortenURI_short uri) by (unfold maxURI; lia).
  destruct (Nat.ltb 0 _ && negb _); eexists; reflexivity.
Qed.

(** X18 (witness): [/a%20b] unescapes to the shorter [/a b]. *)
Lemma short_request_URI_logged_whole_witness :
  url.QueryUnescape (RequestURI (GET "/a%20b" ∅)) = Ok "/a b"
  /\ GoString.len "/a b" <= GoString.len (RequestURI (GET "/a%20b" ∅)).
Proof.
  assert (Huri : url.QueryUnescape (RequestURI (GET "/a%20b" ∅)) = Ok "/a b")
    by (vm_compute; reflexivity).
  split; [exact Huri|].
  exact (proj1 (short_request_URI_logged_whole (H := loopbackHost)
                  "/srv" newResponseWriter (GET "/a%20b" ∅) "/a b" Huri)).
Defined.
